(** * Context memory and preference learning: a shallow embedding

    The development follows the Python sources of the two services:
    - ai-service: [models/context.py], [context/context_manager.py],
      [context/vector_store.py];
    - preference-engine: [models/preference.py], [models/user_profile.py],
      [services/learning_service.py], [services/recommendation_service.py].

    Conventions.
    - Python floats are exact rationals ([Q]); equalities between scores are
      stated with [==].
    - A dict used as a map is a [gmap]; a list is a [list].
    - A method that mutates [self] and may raise returns the object after the
      call together with a [result]: what was written before a [raise]
      stays written, as in Python.
    - Arithmetic on floats is exact here, so only what rounding keeps is
      stated of it: bounds, orderings and values of single operations, no
      sum that must come out at a given number.
    - [await e] of a coroutine method is the call [e]; [await v] of a value
      that a plain [def] returned raises [TypeError] ([await_plain]).
    - An object built inside a method is built by its constructor, the
      validators included.
    - A decorator is evaluated when the class body runs: where it raises,
      the method is not defined and no call of it returns
      ([Retry.decorated]).
    - An attribute or a method that the repository does not define raises
      [AttributeError] where it is read.
    - [datetime.utcnow()] is an explicit [now] argument, or is read from the
      external world where a service talks to its collaborators. *)

From Stdlib Require Import QArith Qabs Lqa Ascii.
From stdpp Require Import base gmap strings list.

Local Open Scope string_scope.
Local Open Scope list_scope.
Local Open Scope stdpp_scope.

(** ** Exceptions and results *)

Inductive exn : Type :=
  | ValueError
  | TypeError
  | KeyError
  | AttributeError
  | RuntimeError
  | ConnectionError
  | TimeoutError
  | RetryError.

Inductive result (A : Type) : Type :=
  | Ok (a : A)
  | Raise (e : exn).
Arguments Ok {A} a.
Arguments Raise {A} e.

Definition is_ok {A} (r : result A) : bool :=
  match r with Ok _ => true | Raise _ => false end.

#[global] Instance exn_eq_dec : EqDecision exn.
Proof. solve_decision. Defined.

(** A parsed [datetime]: its instant in seconds, and whether it carries a
    UTC offset (an aware datetime) or none (a naive one). *)
Record datetime : Type := mkDatetime {
  seconds : Q;
  aware : bool
}.

(** [(a - b).total_seconds()]: Python refuses to subtract an offset-aware
    and an offset-naive datetime. *)
Definition datetime_sub (a b : datetime) : result Q :=
  if Bool.eqb (aware a) (aware b) then Ok (seconds a - seconds b)%Q
  else Raise TypeError.

(** [await v] where [v] is not awaitable, the value a plain [def] has
    returned: Python raises [TypeError]. *)
Definition await_plain {A} (v : A) : result A := Raise TypeError.

(** [l[-n:]] for [n > 0]. *)
Definition last_n {A} (n : nat) (l : list A) : list A :=
  drop (length l - n) l.

(** ** models/context.py *)

Module ContextModel.

Definition MAX_SHORT_TERM_MESSAGES : nat := 50.
Definition MAX_CONTEXT_AGE_HOURS : Z := 24.
Definition EMBEDDING_DIMENSION : nat := 1536.

(** A message is a dict from field names to (string) values. *)
Abbreviation message := (gmap string string).

(** An embedding is a vector of floats. *)
Abbreviation embedding := (list Q).

Record GroupDynamics : Type := mkDynamics {
  participation_metrics : gmap string Z;
  response_times : gmap string (list Q);
  interaction_pairs : gmap string Z;
  topic_flow : list string
}.

Record Context : Type := mkContext {
  chat_id : string;
  short_term_memory : list message;
  embeddings : gmap string embedding;
  group_dynamics : GroupDynamics;
  last_updated : Z
}.

(** [Context.__init__] *)
Definition Context_init (chat : string) (now : Z) : Context :=
  {| chat_id := chat;
     short_term_memory := [];
     embeddings := ∅;
     group_dynamics := mkDynamics ∅ ∅ ∅ [];
     last_updated := now |}.

Definition required_fields : list string :=
  ["message_id"; "sender_id"; "content"; "timestamp"].

(** [all(field in message for field in required_fields)] *)
Definition has_required_fields (m : message) : bool :=
  forallb (fun f => bool_decide (is_Some (m !! f))) required_fields.

Definition set_memory (c : Context) (l : list message) : Context :=
  mkContext (chat_id c) l (embeddings c) (group_dynamics c) (last_updated c).
Definition set_embeddings (c : Context) (e : gmap string embedding) : Context :=
  mkContext (chat_id c) (short_term_memory c) e (group_dynamics c) (last_updated c).
Definition set_dynamics (c : Context) (g : GroupDynamics) : Context :=
  mkContext (chat_id c) (short_term_memory c) (embeddings c) g (last_updated c).
Definition set_last_updated (c : Context) (now : Z) : Context :=
  mkContext (chat_id c) (short_term_memory c) (embeddings c) (group_dynamics c) now.

(** [d[k] = 0 if k not in d; d[k] += 1] *)
Definition bump (k : string) (d : gmap string Z) : gmap string Z :=
  <[k := (default 0 (d !! k) + 1)%Z]> d.

(** The FIFO step of [add_message]: append, then drop the oldest message
    when the bound is passed. *)
Definition fifo (l : list message) (m : message) : list message :=
  if decide (MAX_SHORT_TERM_MESSAGES < length (l ++ [m]))%nat
  then drop 1 (l ++ [m]) else l ++ [m].

(** The ids of the stored messages, and the pruning invariant: every
    embedding belongs to a stored message. *)
Definition stored_ids (c : Context) : list string :=
  omap (fun msg : message => msg !! "message_id") (short_term_memory c).

Definition embeddings_pruned (c : Context) : Prop :=
  forall k, is_Some (embeddings c !! k) -> k ∈ stored_ids c.

Section WithClock.

(** [datetime.fromisoformat]: the parsed datetime, [None] where the library
    raises [ValueError]. *)
Variable fromisoformat : string -> option datetime.

(** [Context.add_message].  The field check raises before anything is
    written; the timestamp is parsed after the append, and the response
    time is taken after the sender has been counted. *)
Definition add_message (now : Z) (c : Context) (m : message)
  : Context * result unit :=
  if negb (has_required_fields m) then (c, Raise ValueError)
  else
    let appended := short_term_memory c ++ [m] in
    let memory :=
      if decide (MAX_SHORT_TERM_MESSAGES < length appended)%nat
      then drop 1 appended else appended in
    let c1 := set_memory c memory in
    let sender_id := default "" (m !! "sender_id") in
    match fromisoformat (default "" (m !! "timestamp")) with
    | None => (c1, Raise ValueError)
    | Some timestamp =>
      let g := group_dynamics c1 in
      let g1 := mkDynamics (bump sender_id (participation_metrics g))
                  (response_times g) (interaction_pairs g) (topic_flow g) in
      let c2 := set_dynamics c1 g1 in
      if decide (1 < length memory)%nat then
        match memory !! (length memory - 2)%nat with
        | None => (c2, Raise KeyError)
        | Some prev_message =>
          match prev_message !! "timestamp" with
          | None => (c2, Raise KeyError)
          | Some prev_ts =>
            match fromisoformat prev_ts with
            | None => (c2, Raise ValueError)
            | Some prev_timestamp =>
              match datetime_sub timestamp prev_timestamp with
              | Raise e => (c2, Raise e)
              | Ok response_time =>
                let rt := <[sender_id :=
                             default [] (response_times g1 !! sender_id)
                               ++ [response_time]]> (response_times g1) in
                match prev_message !! "sender_id" with
                | None => (set_dynamics c2
                             (mkDynamics (participation_metrics g1) rt
                                (interaction_pairs g1) (topic_flow g1)),
                           Raise KeyError)
                | Some prev_sender =>
                  let interaction_key := prev_sender +:+ "-" +:+ sender_id in
                  let g2 := mkDynamics (participation_metrics g1) rt
                              (bump interaction_key (interaction_pairs g1))
                              (topic_flow g1) in
                  (set_last_updated (set_dynamics c2 g2) now, Ok tt)
                end
              end
            end
          end
        end
      else (set_last_updated c2 now, Ok tt)
    end.

(** [{msg['message_id'] for msg in self.short_term_memory}] *)
Definition current_message_ids (c : Context) : option (list string) :=
  mapM (fun msg : message => msg !! "message_id") (short_term_memory c).

(** [Context.update_embeddings] *)
Definition update_embeddings (now : Z) (c : Context) (message_id : string)
  (e : embedding) : Context * result unit :=
  if negb (length e =? EMBEDDING_DIMENSION)%nat then (c, Raise ValueError)
  else
    let c1 := set_last_updated
                (set_embeddings c (<[message_id := e]> (embeddings c))) now in
    match current_message_ids c1 with
    | None => (c1, Raise KeyError)
    | Some ids =>
      (set_embeddings c1
         (filter (fun kv => kv.1 ∈ ids) (embeddings c1)), Ok tt)
    end.

(** [Context.is_stale], ages in seconds. *)
Definition is_stale (now : Z) (c : Context) : bool :=
  bool_decide (MAX_CONTEXT_AGE_HOURS * 3600 < now - last_updated c)%Z.

(** A message the model accepts whole: the four fields are present and the
    timestamp parses. *)
Definition valid_message (m : message) : bool :=
  has_required_fields m &&
  bool_decide (is_Some (fromisoformat (default "" (m !! "timestamp")))).

(** A valid message whose timestamp is aware ([a = true]) or naive
    ([a = false]): timestamps of one kind can be subtracted. *)
Definition zoned_message (a : bool) (m : message) : bool :=
  valid_message m &&
  bool_decide (aware <$> fromisoformat (default "" (m !! "timestamp"))
               = Some a).

(** Successive calls of [add_message]; each call has its own clock reading. *)
Fixpoint add_messages (c : Context) (calls : list (Z * message))
  : Context * list (result unit) :=
  match calls with
  | [] => (c, [])
  | (now, m) :: rest =>
    let '(c1, r) := add_message now c m in
    let '(c2, rs) := add_messages c1 rest in
    (c2, r :: rs)
  end.

End WithClock.

End ContextModel.

(** ** Retrying decorators (tenacity) *)

Module Retry.

(** What [Retrying] is configured with: the number of attempts of
    [stop_after_attempt] and the predicate that selects the exceptions to
    retry on. *)
Record policy : Type := mkPolicy {
  max_attempts : nat;
  should_retry : exn -> bool
}.

(** A keyword argument of [retry(...)] besides [stop]: the wait, a
    predicate under [retry=], or a keyword [Retrying.__init__] does not
    take. *)
Inductive keyword : Type :=
  | wait
  | retry_on (p : exn -> bool)
  | unknown (name : string).

(** tenacity's default predicate: any exception. *)
Definition any_exception (e : exn) : bool := true.

(** [retry(stop=stop_after_attempt(n), **keywords)] applied to a function:
    the keywords are handed to [Retrying.__init__], and Python raises
    [TypeError] for a keyword the constructor does not take. *)
Fixpoint configure (n : nat) (keywords : list keyword) (p : exn -> bool)
  : result policy :=
  match keywords with
  | [] => Ok (mkPolicy n p)
  | wait :: rest => configure n rest p
  | retry_on q :: rest => configure n rest q
  | unknown _ :: _ => Raise TypeError
  end.

Definition retry (n : nat) (keywords : list keyword) : result policy :=
  configure n keywords any_exception.

(** The call is attempted again while it raises an exception the predicate
    selects; when the attempts are used up a [RetryError] is raised.  The
    third component counts the attempts made. *)
Fixpoint attempt {S A : Type} (n : nat) (should_retry : exn -> bool)
  (f : S -> S * result A) (made : nat) (s : S) : S * result A * nat :=
  match n with
  | O => (s, Raise RetryError, made)
  | Datatypes.S n' =>
    let '(s1, r) := f s in
    match r with
    | Ok a => (s1, Ok a, Datatypes.S made)
    | Raise e =>
      if should_retry e then
        match n' with
        | O => (s1, Raise RetryError, Datatypes.S made)
        | _ => attempt n' should_retry f (Datatypes.S made) s1
        end
      else (s1, Raise e, Datatypes.S made)
    end
  end.

Definition retrying {S A : Type} (n : nat) (should_retry : exn -> bool)
  (f : S -> S * result A) (s : S) : S * result A * nat :=
  attempt n should_retry f 0 s.

(** A method under its decorator.  The decorator runs when the class body
    runs: where it raises, the class is not defined and there is no method
    to call; the error is what the program gets, with no attempt made. *)
Definition decorated {S A : Type} (d : result policy)
  (f : S -> S * result A) (s : S) : S * result A * nat :=
  match d with
  | Raise e => (s, Raise e, 0%nat)
  | Ok p => retrying (max_attempts p) (should_retry p) f s
  end.

End Retry.

(** ** context/vector_store.py and context/context_manager.py *)

Module ContextManager.
Import ContextModel.

Definition SIMILARITY_THRESHOLD : Q := 7 # 10.
Definition MAX_RELEVANT_CONTEXTS : nat := 5.
Definition MAX_RETRIES : nat := 3.

(** [Context.EMBEDDING_DIMENSION], as [vector_store.py] writes it: the
    constant is a name of the module [models/context.py]; the class
    [Context] has no attribute of that name. *)
Definition Context_EMBEDDING_DIMENSION : result nat := Raise AttributeError.

(** One hit of the index: the stored fields and the similarity. *)
Record hit : Type := mkHit {
  hit_message_id : string;
  hit_chat_id : string;
  hit_score : Q
}.

(** [VectorStore]: the connection flag and the counters it keeps. *)
Record VectorStore : Type := mkStore {
  connected : bool;
  inserts : Z;
  searches : Z
}.

(** The [options] dict of [get_relevant_context]. *)
Record options : Type := mkOptions {
  opt_limit : option nat;
  opt_threshold : option Q
}.

(** [{**msg, 'relevance_score': similar['score']}]: the stored message
    together with the score attached to it. *)
Record relevant : Type := mkRelevant {
  rel_message : message;
  relevance_score : Q
}.

Section WithServices.

(** The collaborators: the clock, the embedding provider and the Milvus
    collection.  [World] is whatever state they have. *)
Variable World : Type.
Variable utcnow : World -> Z.
Variable fromisoformat : string -> option datetime.
Variable generate_embedding : World -> string -> World * result embedding.
Variable collection_insert :
  World -> string -> string -> embedding -> World * result unit.
Variable collection_flush : World -> World * result unit.
(** [collection.search(data, limit=limit, expr='chat_id == ...')] *)
Variable collection_search :
  World -> embedding -> string -> nat -> World * result (list hit).

Record System : Type := mkSystem {
  active_contexts : gmap string Context;
  vector_store : VectorStore;
  world : World
}.

Definition set_contexts (s : System) (m : gmap string Context) : System :=
  mkSystem m (vector_store s) (world s).
Definition set_store (s : System) (v : VectorStore) : System :=
  mkSystem (active_contexts s) v (world s).
Definition set_world (s : System) (w : World) : System :=
  mkSystem (active_contexts s) (vector_store s) w.

(** [VectorStore.store_embedding]: everything raised inside the [try] is
    logged and turned into [False]; the first statement of the [try]
    reads [Context.EMBEDDING_DIMENSION].  (The method's own decorator
    retries on [MilvusException] only, which cannot leave the [try].) *)
Definition store_embedding (s : System) (message_id chat : string)
  (e : embedding) (batch_mode : bool) : System * result bool :=
  if negb (connected (vector_store s)) then (s, Raise RuntimeError)
  else
    match Context_EMBEDDING_DIMENSION with
    | Raise _ => (s, Ok false)
    | Ok dimension =>
      if negb (length e =? dimension)%nat then (s, Ok false)
      else
        let '(w1, r) := collection_insert (world s) message_id chat e in
        match r with
        | Raise _ => (set_world s w1, Ok false)
        | Ok _ =>
          let '(w2, r2) :=
            if batch_mode then (w1, Ok tt) else collection_flush w1 in
          match r2 with
          | Raise _ => (set_world s w2, Ok false)
          | Ok _ =>
            let v := vector_store s in
            (set_store (set_world s w2)
               (mkStore (connected v) (inserts v + 1) (searches v)), Ok true)
          end
        end
    end.

(** [VectorStore.search_similar]: hits below the threshold are dropped; an
    exception inside the [try] gives the empty list, and the first
    statement of the [try] reads [Context.EMBEDDING_DIMENSION]. *)
Definition search_similar (s : System) (query_embedding : embedding)
  (chat : string) (limit : nat) (score_threshold : Q)
  : System * result (list hit) :=
  if negb (connected (vector_store s)) then (s, Raise RuntimeError)
  else
    match Context_EMBEDDING_DIMENSION with
    | Raise _ => (s, Ok [])
    | Ok dimension =>
      if negb (length query_embedding =? dimension)%nat then (s, Ok [])
      else
        let '(w1, r) :=
          collection_search (world s) query_embedding chat limit in
        match r with
        | Raise _ => (set_world s w1, Ok [])
        | Ok hits =>
          let similar_messages :=
            List.filter (fun h => Qle_bool score_threshold (hit_score h))
              hits in
          let v := vector_store s in
          (set_store (set_world s w1)
             (mkStore (connected v) (inserts v) (searches v + 1)),
           Ok similar_messages)
        end
    end.

(** [ContextManager._get_or_create_context] *)
Definition _get_or_create_context (s : System) (chat : string)
  : System * Context :=
  match active_contexts s !! chat with
  | Some c => (s, c)
  | None =>
    let c := Context_init chat (utcnow (world s)) in
    (set_contexts s (<[chat := c]> (active_contexts s)), c)
  end.

(** The context object lives in [_active_contexts]: a mutation of it is a
    write to the map. *)
Definition put_context (s : System) (chat : string) (c : Context) : System :=
  set_contexts s (<[chat := c]> (active_contexts s)).

(** Body of [ContextManager.add_message_to_context]: one attempt.  The
    provider is awaited; [store_embedding] is a plain method, and the body
    awaits the bool it returns. *)
Definition add_message_to_context_body (chat : string) (m : message)
  (batch_mode : bool) (s : System) : System * result unit :=
  let '(s1, context) := _get_or_create_context s chat in
  let '(c1, r) := add_message fromisoformat (utcnow (world s1)) context m in
  let s2 := put_context s1 chat c1 in
  match r with
  | Raise e => (s2, Raise e)
  | Ok _ =>
    match m !! "content", m !! "message_id" with
    | Some content, Some message_id =>
      let '(w3, re) := generate_embedding (world s2) content in
      let s3 := set_world s2 w3 in
      match re with
      | Raise e => (s3, Raise e)
      | Ok e =>
        let '(s4, rs) := store_embedding s3 message_id chat e batch_mode in
        match rs with
        | Raise ex => (s4, Raise ex)
        | Ok stored =>
          match await_plain stored with
          | Raise ex => (s4, Raise ex)
          | Ok _ =>
            let '(c2, ru) :=
              update_embeddings (utcnow (world s4)) c1 message_id e in
            (put_context s4 chat c2, ru)
          end
        end
      end
    | _, _ => (s2, Raise KeyError)
    end
  end.

(** The decorator of [add_message_to_context]:
    [retry(stop=stop_after_attempt(MAX_RETRIES), wait=wait_exponential(...),
     retry_if_exception_type=(ConnectionError, TimeoutError))].  The two
    exception types are passed under a keyword of their own, not as
    [retry=retry_if_exception_type(...)]. *)
Definition add_message_to_context_decorator : result Retry.policy :=
  Retry.retry MAX_RETRIES
    [Retry.wait; Retry.unknown "retry_if_exception_type"].

(** [ContextManager.add_message_to_context] under its decorator. *)
Definition add_message_to_context (s : System) (chat : string) (m : message)
  (batch_mode : bool) : System * result unit * nat :=
  Retry.decorated add_message_to_context_decorator
    (add_message_to_context_body chat m batch_mode) s.

(** The inner loop of [get_relevant_context]: the first stored message with
    the wanted id; a stored message without an id raises [KeyError]. *)
Fixpoint find_message (message_id : string) (l : list message)
  : result (option message) :=
  match l with
  | [] => Ok None
  | msg :: rest =>
    match msg !! "message_id" with
    | None => Raise KeyError
    | Some i =>
      if decide (i = message_id) then Ok (Some msg)
      else find_message message_id rest
    end
  end.

(** The outer loop: one entry per hit whose message is still stored. *)
Fixpoint join_messages (memory : list message) (similar : list hit)
  : result (list relevant) :=
  match similar with
  | [] => Ok []
  | h :: rest =>
    match find_message (hit_message_id h) memory with
    | Raise e => Raise e
    | Ok found =>
      match join_messages memory rest with
      | Raise e => Raise e
      | Ok messages =>
        match found with
        | Some msg => Ok (mkRelevant msg (hit_score h) :: messages)
        | None => Ok messages
        end
      end
    end
  end.

(** Body of [ContextManager.get_relevant_context]: one attempt.  With
    [options=None] the lookup [options.get] raises; [search_similar] is a
    plain method, and the body awaits the list it returns. *)
Definition get_relevant_context_body (chat query : string)
  (opts : option options) (s : System) : System * result (list relevant) :=
  let '(w1, re) := generate_embedding (world s) query in
  let s1 := set_world s w1 in
  match re with
  | Raise e => (s1, Raise e)
  | Ok query_embedding =>
    match opts with
    | None => (s1, Raise AttributeError)
    | Some o =>
      let limit := default MAX_RELEVANT_CONTEXTS (opt_limit o) in
      let threshold := default SIMILARITY_THRESHOLD (opt_threshold o) in
      let '(s2, rs) := search_similar s1 query_embedding chat limit threshold in
      match rs with
      | Raise e => (s2, Raise e)
      | Ok found =>
        match await_plain found with
        | Raise e => (s2, Raise e)
        | Ok similar_messages =>
          let '(s3, context) := _get_or_create_context s2 chat in
          (s3, join_messages (short_term_memory context) similar_messages)
        end
      end
    end
  end.

(** The decorator of [get_relevant_context]:
    [retry(stop=stop_after_attempt(MAX_RETRIES), wait=wait_exponential(...))],
    again after any exception. *)
Definition get_relevant_context_decorator : result Retry.policy :=
  Retry.retry MAX_RETRIES [Retry.wait].

(** [ContextManager.get_relevant_context] under its decorator. *)
Definition get_relevant_context (s : System) (chat query : string)
  (opts : option options) : System * result (list relevant) * nat :=
  Retry.decorated get_relevant_context_decorator
    (get_relevant_context_body chat query opts) s.

(** The context a conversation has, as [_get_or_create_context] gives it. *)
Definition context_of (s : System) (chat : string) : Context :=
  (_get_or_create_context s chat).2.

(** [ContextManager._periodic_cleanup]: one sweep. *)
Definition cleanup (s : System) : System :=
  set_contexts s
    (filter (fun kc => is_stale (utcnow (world s)) kc.2 = false)
       (active_contexts s)).

End WithServices.

End ContextManager.

(** ** Float helpers *)

(** Python's [min(a, b)] and [max(a, b)]: the first argument wins ties. *)
Definition py_min (a b : Q) : Q := if Qlt_le_dec b a then b else a.
Definition py_max (a b : Q) : Q := if Qlt_le_dec a b then b else a.

(** [sum(l)] and [sum(l) / len(l)]. *)
Definition Qsum (l : list Q) : Q := foldr Qplus 0%Q l.
Definition Qmean (l : list Q) : Q := (Qsum l / inject_Z (Z.of_nat (length l)))%Q.

(** An opaque key-value payload ([preference_data], [context_data]). *)
Abbreviation payload := (gmap string string).

(** ** models/preference.py *)

Module Preference.

Definition MIN_CONFIDENCE_SCORE : Q := 0.
Definition MAX_CONFIDENCE_SCORE : Q := 1.

Record PreferenceHistoryEntry : Type := mkEntry {
  timestamp : Z;
  data : payload;
  entry_confidence_score : Q;
  entry_version : Z
}.

Record PreferenceModel : Type := mkModel {
  user_id : string;
  preference_type : string;
  preference_data : payload;
  history : list PreferenceHistoryEntry;
  confidence_score : Q;
  created_at : Z;
  last_updated : Z;
  version : Z
}.

(** The field defaults of the class. *)
Definition PreferenceModel_default (user type : string) (now : Z)
  : PreferenceModel :=
  mkModel user type ∅ [] (1 # 2) now now 0.

(** [PreferenceHistoryEntry(...)]: the field constraints
    [ge=MIN_CONFIDENCE_SCORE, le=MAX_CONFIDENCE_SCORE] and [ge=0]. *)
Definition new_entry (now : Z) (d : payload) (confidence : Q) (v : Z)
  : result PreferenceHistoryEntry :=
  if Qle_bool MIN_CONFIDENCE_SCORE confidence
     && Qle_bool confidence MAX_CONFIDENCE_SCORE
     && (0 <=? v)%Z
  then Ok (mkEntry now d confidence v)
  else Raise ValueError.

Section WithLimit.

(** [settings.PREFERENCE_HISTORY_LIMIT], a field with [gt=0]. *)
Variable MAX_HISTORY_LENGTH : positive.

(** [PreferenceModel.update_preference] *)
Definition update_preference (now : Z) (m : PreferenceModel)
  (new_data : payload) (new_confidence : option Q) (force_update : bool)
  : PreferenceModel * result bool :=
  match new_entry now (preference_data m) (confidence_score m) (version m) with
  | Raise e => (m, Raise e)
  | Ok history_entry =>
    let kept :=
      if decide (Pos.to_nat MAX_HISTORY_LENGTH <= length (history m))%nat
      then drop 1 (history m) else history m in
    let confidence :=
      match new_confidence with
      | None => confidence_score m
      | Some c =>
        py_max MIN_CONFIDENCE_SCORE (py_min c MAX_CONFIDENCE_SCORE)
      end in
    (mkModel (user_id m) (preference_type m) new_data
       (kept ++ [history_entry]) confidence (created_at m) now
       (version m + 1)%Z,
     Ok true)
  end.

(** One call: the clock reading and the arguments. *)
Record call : Type := mkCall {
  call_now : Z;
  call_data : payload;
  call_confidence : option Q
}.

(** Successive calls; the models met before each call are collected. *)
Fixpoint update_all (m : PreferenceModel) (calls : list call)
  : PreferenceModel * list PreferenceModel * list (result bool) :=
  match calls with
  | [] => (m, [], [])
  | c :: rest =>
    let '(m1, r) :=
      update_preference (call_now c) m (call_data c) (call_confidence c)
        false in
    let '(m2, before, rs) := update_all m1 rest in
    (m2, m :: before, r :: rs)
  end.

End WithLimit.

(** The model a constructor or an update leaves: a confidence between 0
    and 1 and a version that is not negative. *)
Definition well_formed (m : PreferenceModel) : Prop :=
  (0 <= confidence_score m)%Q /\ (confidence_score m <= 1)%Q /\
  (0 <= version m)%Z.

(** The entry a call made at [now] records for the model it finds. *)
Definition snapshot (m : PreferenceModel) (c : call) : PreferenceHistoryEntry :=
  mkEntry (call_now c) (preference_data m) (confidence_score m) (version m).

End Preference.

(** *** Construction and history queries *)

Module PreferenceQueries.
Import Preference.

Definition PREFERENCE_TYPES : list string :=
  ["chat"; "ai_agent"; "ui"; "notification"; "language"; "accessibility";
   "privacy"].

(** [PreferenceModel.validate_preference_type] *)
Definition validate_preference_type (v : string) : result string :=
  if bool_decide (v ∈ PREFERENCE_TYPES) then Ok v else Raise ValueError.

(** [PreferenceModel(user_id=..., preference_type=..., preference_data=...,
    confidence_score=...)]: the validator of the type and the bounds of
    the confidence field. *)
Definition PreferenceModel_new (user type : string) (d : payload)
  (confidence : Q) (now : Z) : result PreferenceModel :=
  match validate_preference_type type with
  | Raise e => Raise e
  | Ok type =>
    if Qle_bool MIN_CONFIDENCE_SCORE confidence
       && Qle_bool confidence MAX_CONFIDENCE_SCORE
    then Ok (mkModel user type d [] confidence now now 0)
    else Raise ValueError
  end.

(** [l[-k:]] for any integer [k]. *)
Definition slice_last {A} (k : Z) (l : list A) : list A :=
  if (0 <? k)%Z then last_n (Z.to_nat k) l else drop (Z.to_nat (- k)) l.

(** [PreferenceModel.get_history] *)
Definition get_history (m : PreferenceModel) (limit : option Z)
  (start_date end_date : option Z) (min_confidence : option Q)
  : list PreferenceHistoryEntry :=
  let filtered_history := history m in
  let dated :=
    match start_date, end_date with
    | None, None => filtered_history
    | _, _ =>
      List.filter
        (fun entry =>
           match start_date with
           | Some s => (s <=? timestamp entry)%Z | None => true end
           && match end_date with
              | Some e => (timestamp entry <=? e)%Z | None => true end)
        filtered_history
    end in
  let confident :=
    match min_confidence with
    | Some q =>
      List.filter (fun entry => Qle_bool q (entry_confidence_score entry))
        dated
    | None => dated
    end in
  match limit with
  | None => confident
  | Some k => if (k =? 0)%Z then confident else slice_last k confident
  end.

(** What the filters of [get_history] ask of an entry. *)
Definition passes (start_date end_date : option Z)
  (min_confidence : option Q) (entry : PreferenceHistoryEntry) : Prop :=
  (forall s, start_date = Some s -> (s <= timestamp entry)%Z) /\
  (forall e, end_date = Some e -> (timestamp entry <= e)%Z) /\
  (forall q, min_confidence = Some q -> (q <= entry_confidence_score entry)%Q).

End PreferenceQueries.

(** ** models/user_profile.py *)

Module Profile.

(** [config/settings.py] *)
Definition SUPPORTED_PREFERENCE_TYPES : list string :=
  ["content"; "interaction"; "time"; "location"].

(** [LEARNING_THRESHOLDS] *)
Definition min_confidence : Q := 6 # 10.
Definition min_samples : Z := 5.
Definition pattern_weight : Q := 3 # 10.
Definition recency_weight : Q := 4 # 10.
Definition consistency_weight : Q := 3 # 10.

(** One record of [interaction_history]. *)
Record interaction : Type := mkInteraction {
  i_timestamp : Z;
  i_data : payload;
  i_confidence : Q;
  i_context : payload
}.

(** A value stored under a key of [temporal_patterns]: the analysis stores
    one histogram per granularity; the prediction loop reads numbers. *)
Inductive pattern_value : Type :=
  | Count (n : Z)
  | Histogram (h : gmap Z Z).

Record confidence_interval : Type := mkInterval {
  lower : Q;
  upper : Q;
  mean : Q
}.

(** One value of [learning_patterns]. *)
Record learning_pattern : Type := mkPattern {
  consistency_score : Q;
  temporal_patterns : gmap string pattern_value;
  preference_stability : Q;
  pattern_interval : option confidence_interval;
  pattern_last_analysis : option Z
}.

(** One value of [pattern_metrics]. *)
Record pattern_metric : Type := mkMetric {
  last_analysis : Z;
  sample_count : Z;
  pattern_strength : Q
}.

Record UserProfile : Type := mkProfile {
  user_id : string;
  preferences : gmap string payload;
  learning_patterns : gmap string learning_pattern;
  interaction_history : gmap string (list interaction);
  created_at : Z;
  last_updated : Z;
  confidence_scores : gmap string Q;
  pattern_metrics : gmap string pattern_metric
}.

(** The loop of [UserProfile.__init__] for one type. *)
Definition init_type (now : Z) (p : UserProfile) (t : string) : UserProfile :=
  match preferences p !! t with
  | Some _ => p
  | None =>
    mkProfile (user_id p)
      (<[t := ∅]> (preferences p))
      (<[t := mkPattern 0 ∅ 0 None None]> (learning_patterns p))
      (<[t := []]> (interaction_history p))
      (created_at p) (last_updated p)
      (<[t := 0%Q]> (confidence_scores p))
      (<[t := mkMetric now 0 0]> (pattern_metrics p))
  end.

(** [UserProfile.__init__] on the fields pydantic has filled in. *)
Definition UserProfile_init (now : Z) (p : UserProfile) : UserProfile :=
  foldl (init_type now) p SUPPORTED_PREFERENCE_TYPES.

(** [UserProfile(user_id=user_id)] *)
Definition UserProfile_new (user : string) (now : Z) : UserProfile :=
  UserProfile_init now (mkProfile user ∅ ∅ ∅ now now ∅ ∅).

(** The dict [get_preference_history] returns. *)
Record history_view : Type := mkView {
  view_preference_type : string;
  view_history : list interaction;
  view_total_entries : nat;
  view_date_range : Z * Z;
  view_metrics : pattern_metric
}.

(** The dict [analyze_learning_patterns] returns. *)
Record analysis : Type := mkAnalysis {
  a_preference_type : string;
  a_temporal_patterns : gmap string pattern_value;
  a_stability_score : Q;
  a_confidence_interval : confidence_interval;
  a_sample_count : Z;
  a_analysis_timestamp : Z
}.

(** The dict [update_preference] returns. *)
Record update_status : Type := mkStatus {
  status_preference_type : string;
  status_confidence_score : Q;
  status_pattern_score : Q;
  status_updated_at : Z
}.

Definition supported (t : string) : bool :=
  bool_decide (t ∈ SUPPORTED_PREFERENCE_TYPES).

(** [UserProfile._calculate_pattern_consistency] on the stored entries. *)
Definition pattern_consistency (entries : list interaction)
  (new_data : payload) : Q :=
  match entries with
  | [] => 1 # 2
  | _ =>
    let recent_entries := last_n 5 entries in
    let consistency_count :=
      length (List.filter (fun e => bool_decide (i_data e = new_data))
                recent_entries) in
    (inject_Z (Z.of_nat consistency_count)
       / inject_Z (Z.of_nat (length recent_entries)))%Q
  end.

Definition _calculate_pattern_consistency (p : UserProfile) (t : string)
  (new_data : payload) : result Q :=
  match interaction_history p !! t with
  | None => Raise KeyError
  | Some entries => Ok (pattern_consistency entries new_data)
  end.

(** [UserProfile.get_preference_history] *)
Definition get_preference_history (now : Z) (p : UserProfile) (t : string)
  (limit : option nat) (start_date end_date : option Z)
  (filter_options : list (string * string)) : result history_view :=
  if negb (supported t) then Raise ValueError
  else
    match interaction_history p !! t, pattern_metrics p !! t with
    | Some h, Some metrics =>
      let dated :=
        List.filter
          (fun e =>
             match start_date with
             | Some s => (s <=? i_timestamp e)%Z | None => true end
             && match end_date with
                | Some d => (i_timestamp e <=? d)%Z | None => true end) h in
      let filtered :=
        foldl (fun acc kv =>
                 List.filter
                   (fun e => bool_decide (i_context e !! kv.1 = Some kv.2)) acc)
          dated filter_options in
      let limited :=
        match limit with
        | Some (S n) => last_n (S n) filtered
        | _ => filtered
        end in
      Ok (mkView t limited (length limited)
            (default (created_at p) start_date, default now end_date) metrics)
    | _, _ => Raise KeyError
    end.

Section WithCalendar.

(** [datetime.hour], [datetime.weekday()] and [datetime.isocalendar()[1]]. *)
Variable hour weekday isoweek : Z -> Z.
(** [settings.PREFERENCE_HISTORY_LIMIT] *)
Variable PREFERENCE_HISTORY_LIMIT : positive.

Definition tally (k : Z) (d : gmap Z Z) : gmap Z Z :=
  <[k := (default 0 (d !! k) + 1)%Z]> d.

(** [UserProfile._analyze_temporal_patterns] *)
Definition _analyze_temporal_patterns (entries : list interaction)
  : gmap string pattern_value :=
  let '(hourly, daily, weekly) :=
    foldl (fun acc e =>
             let '(h, d, w) := acc in
             (tally (hour (i_timestamp e)) h,
              tally (weekday (i_timestamp e)) d,
              tally (isoweek (i_timestamp e)) w))
      (∅, ∅, ∅) entries in
  <["hourly" := Histogram hourly]>
    (<["daily" := Histogram daily]> {["weekly" := Histogram weekly]}).

(** [UserProfile._calculate_preference_stability]: one minus the share of
    distinct serialisations.  [json_dumps] gives for an entry the text
    [json.dumps(entry["data"])]: it follows the order in which the keys of
    the dict were inserted, which a map does not record, so two entries
    with equal data may serialise differently. *)
Definition _calculate_preference_stability
  (json_dumps : interaction -> string) (entries : list interaction) : Q :=
  match entries with
  | [] => 0
  | _ =>
    let unique_values := length (remove_dups (json_dumps <$> entries)) in
    (1 - inject_Z (Z.of_nat unique_values)
           / inject_Z (Z.of_nat (length entries)))%Q
  end.

(** [UserProfile._calculate_confidence_interval] *)
Definition _calculate_confidence_interval (entries : list interaction)
  : confidence_interval :=
  match entries with
  | [] => mkInterval 0 0 0
  | _ =>
    let mean_confidence := Qmean (i_confidence <$> entries) in
    mkInterval (py_max 0 (mean_confidence - (1 # 10)))
      (py_min 1 (mean_confidence + (1 # 10))) mean_confidence
  end.

(** The keys of the dict [get_preference_history] returns. *)
Definition view_keys (v : history_view) : list string :=
  ["preference_type"; "history"; "total_entries"; "date_range"; "metrics"].

(** A helper of the analysis run over items that are strings.  The loops
    of the three helpers subscript each item ([entry["timestamp"]],
    [entry["data"]], [entry["confidence"]]), which raises [TypeError] on a
    [str]; with no item a helper returns its value for an empty
    history. *)
Definition over_items {A} (items : list string) (empty : A) : result A :=
  match items with
  | [] => Ok empty
  | _ :: _ => Raise TypeError
  end.

(** [UserProfile.analyze_learning_patterns].  The helpers are handed the
    dict that [get_preference_history] returned, not its ['history']
    entry: iterating the dict gives its keys, and [len(history)] is the
    number of keys. *)
Definition analyze_learning_patterns (now : Z) (p : UserProfile) (t : string)
  : UserProfile * result analysis :=
  if negb (supported t) then (p, Raise ValueError)
  else
    match get_preference_history now p t None
            (Some (now - 30 * 86400)%Z) None [] with
    | Raise e => (p, Raise e)
    | Ok history =>
      match over_items (view_keys history) (_analyze_temporal_patterns []) with
      | Raise e => (p, Raise e)
      | Ok temporal =>
        match over_items (view_keys history) 0%Q with
        | Raise e => (p, Raise e)
        | Ok stability_score =>
          match over_items (view_keys history) (mkInterval 0 0 0) with
          | Raise e => (p, Raise e)
          | Ok interval =>
            let sample_count := Z.of_nat (length (view_keys history)) in
            match learning_patterns p !! t, pattern_metrics p !! t with
            | Some lp, Some pm =>
              let lp' := mkPattern (consistency_score lp) temporal
                           stability_score (Some interval) (Some now) in
              let pm' := mkMetric now sample_count stability_score in
              (mkProfile (user_id p) (preferences p)
                 (<[t := lp']> (learning_patterns p)) (interaction_history p)
                 (created_at p) (last_updated p) (confidence_scores p)
                 (<[t := pm']> (pattern_metrics p)),
               Ok (mkAnalysis t temporal stability_score interval
                     sample_count now))
            | _, _ => (p, Raise KeyError)
            end
          end
        end
      end
    end.

(** [UserProfile.update_preference].  The local preference model is built
    by the validating constructor, [PreferenceModel(user_id=...,
    preference_type=...)], and the bool its plain [update_preference]
    returns is awaited.  After that the profile records the interaction,
    the consistency score and the weighted confidence, and runs the
    analysis when the stored sample count has reached [min_samples]. *)
Definition update_preference (now : Z) (p : UserProfile) (t : string)
  (preference_data : payload) (confidence : Q) (context_data : option payload)
  : UserProfile * result update_status :=
  if negb (supported t) then (p, Raise ValueError)
  else
  match PreferenceQueries.PreferenceModel_new (user_id p) t ∅ (1 # 2) now with
  | Raise e => (p, Raise e)
  | Ok pref_model =>
    match _calculate_pattern_consistency p t preference_data with
    | Raise e => (p, Raise e)
    | Ok pattern_score =>
      let weighted_confidence :=
        (confidence * pattern_weight + pattern_score * consistency_weight)%Q in
      match Preference.update_preference PREFERENCE_HISTORY_LIMIT now
              pref_model preference_data (Some weighted_confidence) false with
      | (_, Raise e) => (p, Raise e)
      | (_, Ok updated) =>
      match await_plain updated with
      | Raise e => (p, Raise e)
      | Ok _ =>
        let interaction_entry :=
          mkInteraction now preference_data weighted_confidence
            (default ∅ context_data) in
        let entries := default [] (interaction_history p !! t) in
        let p1 := mkProfile (user_id p) (preferences p) (learning_patterns p)
                    (<[t := entries ++ [interaction_entry]]>
                       (interaction_history p))
                    (created_at p) (last_updated p) (confidence_scores p)
                    (pattern_metrics p) in
        match learning_patterns p1 !! t with
        | None => (p1, Raise KeyError)
        | Some lp =>
          let lp' := mkPattern pattern_score (temporal_patterns lp)
                       (preference_stability lp) (pattern_interval lp)
                       (pattern_last_analysis lp) in
          let p2 := mkProfile (user_id p1) (preferences p1)
                      (<[t := lp']> (learning_patterns p1))
                      (interaction_history p1) (created_at p1) now
                      (<[t := weighted_confidence]> (confidence_scores p1))
                      (pattern_metrics p1) in
          match pattern_metrics p2 !! t with
          | None => (p2, Raise KeyError)
          | Some pm =>
            if (min_samples <=? sample_count pm)%Z then
              match analyze_learning_patterns now p2 t with
              | (p3, Raise e) => (p3, Raise e)
              | (p3, Ok _) =>
                (p3, Ok (mkStatus t weighted_confidence pattern_score
                           (last_updated p3)))
              end
            else
              (p2, Ok (mkStatus t weighted_confidence pattern_score now))
          end
        end
      end
      end
    end
  end.

(** Successive updates of one type on one profile. *)
Fixpoint update_all (p : UserProfile) (t : string)
  (calls : list (Z * payload * Q)) : UserProfile :=
  match calls with
  | [] => p
  | (now, d, c) :: rest =>
    update_all (update_preference now p t d c None).1 t rest
  end.

End WithCalendar.

(** What the profile holds for a type. *)
Definition sample_count_of (p : UserProfile) (t : string) : option Z :=
  sample_count <$> pattern_metrics p !! t.
Definition history_length (p : UserProfile) (t : string) : option Z :=
  (fun l => Z.of_nat (length l)) <$> interaction_history p !! t.

End Profile.

(** ** A Redis cache with expiry *)

Module Cache.

(** [setex(key, ttl, value)] and [get(key)]: a value is kept with the time
    it expires at. *)
Definition setex {V} (now : Z) (key : string) (ttl : Z) (v : V)
  (c : gmap string (Z * V)) : gmap string (Z * V) :=
  <[key := ((now + ttl)%Z, v)]> c.

Definition get {V} (now : Z) (key : string) (c : gmap string (Z * V))
  : option V :=
  match c !! key with
  | Some (expires, v) => if (now <? expires)%Z then Some v else None
  | None => None
  end.

End Cache.

(** ** services/learning_service.py *)

Module Learning.

Definition MIN_SAMPLES_REQUIRED : Z := 5.
Definition PREDICTION_CACHE_TTL : Z := 3600.
Definition MODEL_VERSION : string := "1.0.0".
Definition CACHE_KEY_PREFIX : string := "pref_pred_".

Record prediction : Type := mkPrediction {
  pattern_type : string;
  confidence : Q;
  predicted_value : Z
}.

(** The dict [get_preference_predictions] builds. *)
Record response : Type := mkResponse {
  response_user_id : string;
  response_preference_type : string;
  predictions : list prediction;
  confidence_score : Q;
  model_version : string;
  response_timestamp : Z
}.

(** What is stored under a prediction key: the entry [learn_preferences]
    writes has a ['version'] key, the response stored by
    [get_preference_predictions] has none. *)
Inductive cached : Type :=
  | LearnedPatterns (patterns : list Profile.analysis) (confidence : Q)
      (timestamp : Z) (version : string)
  | PredictionResponse (r : response).

Record Service : Type := mkService {
  cache : gmap string (Z * cached);
  _model_version : string
}.

Definition cache_key (user t : string) : string :=
  CACHE_KEY_PREFIX +:+ user +:+ ":" +:+ t.

(** The loop over [temporal_patterns.items()]: a value that is not a number
    cannot be compared and raises. *)
Fixpoint generate_predictions (items : list (string * Profile.pattern_value))
  (stability : Q) : result (list prediction) :=
  match items with
  | [] => Ok []
  | (k, Profile.Histogram _) :: _ => Raise TypeError
  | (k, Profile.Count n) :: rest =>
    match generate_predictions rest stability with
    | Raise e => Raise e
    | Ok ps =>
      if (MIN_SAMPLES_REQUIRED <=? n)%Z then
        Ok (mkPrediction k
              (py_min (inject_Z n / inject_Z MIN_SAMPLES_REQUIRED)%Q stability)
              n :: ps)
      else Ok ps
    end
  end.

(** [sum(p['confidence'] for p in predictions) / len(predictions)
     if predictions else 0.0] *)
Definition overall_confidence (ps : list prediction) : Q :=
  match ps with
  | [] => 0
  | _ => Qmean (confidence <$> ps)
  end.

(** The part of [get_preference_predictions] after the cache has been
    asked, from the entry [learning_patterns.get(preference_type, {})] of
    the profile on: the prediction loop, the overall confidence and the
    write to the cache.  The items of the table are taken in the order of
    the map. *)
Definition recompute_predictions (now : Z) (s : Service) (user t : string)
  (learning_patterns : option Profile.learning_pattern)
  : Service * result cached :=
  match learning_patterns with
  | None =>
    (s, Ok (PredictionResponse
              (mkResponse user t [] 0 (_model_version s) now)))
  | Some lp =>
    match generate_predictions
            (map_to_list (Profile.temporal_patterns lp))
            (Profile.preference_stability lp) with
    | Raise e => (s, Raise e)
    | Ok ps =>
      let r := mkResponse user t ps (overall_confidence ps)
                 (_model_version s) now in
      (mkService
         (Cache.setex now (cache_key user t) PREDICTION_CACHE_TTL
            (PredictionResponse r) (cache s))
         (_model_version s),
       Ok (PredictionResponse r))
    end
  end.

(** [PreferenceLearningService.get_preference_predictions]: the cache is
    asked first; otherwise the patterns are those of
    [UserProfile(user_id=user_id)], a profile made by the call. *)
Definition get_preference_predictions (now : Z) (s : Service)
  (user t : string) : Service * result cached :=
  let key := cache_key user t in
  let recompute :=
    let user_profile := Profile.UserProfile_new user now in
    recompute_predictions now s user t
      (Profile.learning_patterns user_profile !! t) in
  match Cache.get now key (cache s) with
  | Some (LearnedPatterns ps c ts v) =>
    if decide (v = _model_version s)
    then (s, Ok (LearnedPatterns ps c ts v))
    else recompute
  | Some (PredictionResponse _) => (s, Raise KeyError)
  | None => recompute
  end.

(** The table the recomputation reads: that of the profile it builds for
    the user. *)
Definition consulted_buckets (user t : string) (now : Z)
  : list (string * Profile.pattern_value) :=
  match Profile.learning_patterns (Profile.UserProfile_new user now) !! t with
  | Some lp => map_to_list (Profile.temporal_patterns lp)
  | None => []
  end.

(** A table of plain counts. *)
Definition counts (buckets : list (string * Z))
  : list (string * Profile.pattern_value) :=
  (fun kn => (kn.1, Profile.Count kn.2)) <$> buckets.

(** The call does not answer from the cache. *)
Definition cache_miss (now : Z) (s : Service) (user t : string) : Prop :=
  match Cache.get now (cache_key user t) (cache s) with
  | None => True
  | Some (LearnedPatterns _ _ _ v) => v ≠ _model_version s
  | Some (PredictionResponse _) => False
  end.



End Learning.

(** ** services/recommendation_service.py *)

Module Recommendation.

Definition RECOMMENDATION_CACHE_TTL : Z := 1800.
Definition MIN_CONFIDENCE_SCORE : Q := 7 # 10.
Definition MAX_RECOMMENDATIONS : nat := 10.
Definition SUPPORTED_RECOMMENDATION_TYPES : list string :=
  ["ai_agent"; "chat_group"; "content"].
Definition CACHE_RETRY_ATTEMPTS : nat := 3.

(** [SCORE_WEIGHTS] *)
Definition weight_preference : Q := 6 # 10.
Definition weight_context : Q := 3 # 10.
Definition weight_diversity : Q := 1 # 10.

(** The values a recommendation item or a preference dict holds. *)
Inductive atom : Type :=
  | ANum (q : Q)
  | AStr (s : string)
  | ABool (b : bool).

Inductive value : Type :=
  | VAtom (a : atom)
  | VList (l : list atom)
  | VDict (d : gmap string atom).

Abbreviation item := (gmap string value).

(** [user_preferences]: the feature entries and the ['history'] entry. *)
Record user_preferences : Type := mkPreferences {
  features : gmap string value;
  recommendation_history : option (list item)
}.

(** [group_dynamics]: the ['active_users'] entry. *)
Record group_dynamics : Type := mkGroup {
  active_users : option (list string)
}.

(** Python's [==] on these values: floats by value, and a bool as the
    number 1 or 0. *)
Definition bool_number (b : bool) : Q := if b then 1 else 0.

Definition atom_eqb (a b : atom) : bool :=
  match a, b with
  | ANum x, ANum y => Qeq_bool x y
  | ANum x, ABool y => Qeq_bool x (bool_number y)
  | ABool x, ANum y => Qeq_bool (bool_number x) y
  | AStr x, AStr y => bool_decide (x = y)
  | ABool x, ABool y => bool_decide (x = y)
  | _, _ => false
  end.

Fixpoint atoms_eqb (l1 l2 : list atom) : bool :=
  match l1, l2 with
  | [], [] => true
  | a :: r1, b :: r2 => atom_eqb a b && atoms_eqb r1 r2
  | _, _ => false
  end.

Definition dict_eqb (d1 d2 : gmap string atom) : bool :=
  bool_decide (dom d1 = dom d2) &&
  forallb (fun ka =>
             match d2 !! ka.1 with
             | Some b => atom_eqb ka.2 b
             | None => false
             end) (map_to_list d1).

Definition value_eqb (v w : value) : bool :=
  match v, w with
  | VAtom a, VAtom b => atom_eqb a b
  | VList l1, VList l2 => atoms_eqb l1 l2
  | VDict d1, VDict d2 => dict_eqb d1 d2
  | _, _ => false
  end.

(** Truth value of an object: empty containers, [0] and [False] are false. *)
Definition truthy (v : value) : bool :=
  match v with
  | VAtom (ANum q) => negb (Qeq_bool q 0)
  | VAtom (AStr s) => negb (bool_decide (s = ""))
  | VAtom (ABool b) => b
  | VList l => negb (bool_decide (l = []))
  | VDict d => negb (bool_decide (d = ∅))
  end.

(** One scored recommendation, and the dict [_cache_recommendations]
    stores. *)
Record recommendation : Type := mkRecommendation {
  rec_item : item;
  rec_score : Q;
  rec_confidence : Q;
  rec_timestamp : Z
}.

Record cache_data : Type := mkCacheData {
  cached_recommendations : list recommendation;
  cached_timestamp : Z;
  cached_version : string
}.

(** What [get_recommendations] hands back: the list it computed, or
    whatever the cache lookup gave. *)
Inductive returned : Type :=
  | PyNone
  | PyList (l : list recommendation)
  | PyDict (d : cache_data).

(** [if cached_data:] *)
Definition returned_truthy (r : returned) : bool :=
  match r with
  | PyNone => false
  | PyList l => negb (bool_decide (l = []))
  | PyDict _ => true
  end.

Record Service : Type := mkService {
  _learning_service : Learning.Service;
  _cache : gmap string (Z * cache_data);
  hits : Z;
  misses : Z;
  error_count : Z;
  (** how many times candidates have been generated *)
  generated : nat
}.

(** [sorted(l, key=score, reverse=True)]: stable, best score first. *)
Fixpoint insert_by_score (x : recommendation) (l : list recommendation)
  : list recommendation :=
  match l with
  | [] => [x]
  | y :: rest =>
    if Qle_bool (rec_score y) (rec_score x)
    then x :: y :: rest
    else y :: insert_by_score x rest
  end.

Definition sorted_by_score (l : list recommendation) : list recommendation :=
  foldr insert_by_score [] l.

Section WithLibraries.

Variable fromisoformat : string -> option datetime.
(** [np.dot(u, v) / (np.linalg.norm(u) * np.linalg.norm(v))] on the values
    of two feature dicts; numpy raises on values it cannot multiply. *)
Variable np_cosine : list atom -> list atom -> result Q.

(** [_calculate_feature_match]; an absent feature is [None] here and [{}]
    in the source, both false. *)
Definition _calculate_feature_match (user_feature item_feature : option value)
  : Q :=
  match user_feature, item_feature with
  | Some u, Some i =>
    if negb (truthy u) || negb (truthy i) then 0
    else
      match u, i with
      | VDict du, VDict di =>
        match np_cosine (snd <$> map_to_list du) (snd <$> map_to_list di) with
        | Ok q => q
        | Raise _ => 0
        end
      | _, _ => 0
      end
  | _, _ => 0
  end.

(** [set(x)] for the values the intersection is taken with. *)
Definition as_set (v : value) : result (list string) :=
  match v with
  | VList l =>
    Ok (omap (fun a => match a with AStr s => Some s | _ => None end) l)
  | VDict d => Ok (fst <$> map_to_list d)
  | VAtom (AStr s) =>
    Ok ((fun c => String c EmptyString) <$> String.list_ascii_of_string s)
  | VAtom _ => Raise TypeError
  end.

(** [_calculate_context_relevance] *)
Definition _calculate_context_relevance (context : payload) (i : item)
  (g : group_dynamics) : result Q :=
  let time_scores : result (list Q) :=
    match context !! "timestamp", i !! "valid_period" with
    | Some ts, Some period =>
      match period with
      | VDict d =>
        match d !! "start" with
        | Some (AStr start) =>
          match fromisoformat ts, fromisoformat start with
          | Some a, Some b =>
            match datetime_sub a b with
            | Raise e => Raise e
            | Ok difference =>
              let time_diff := Qabs difference in
              Ok [(1 / (1 + time_diff / 86400))%Q]
            end
          | _, _ => Raise ValueError
          end
        | Some _ => Raise TypeError
        | None => Raise KeyError
        end
      | _ => Raise TypeError
      end
    | _, _ => Ok []
    end in
  match time_scores with
  | Raise e => Raise e
  | Ok ts =>
    let group_scores : result (list Q) :=
      match active_users g with
      | Some (u :: us) =>
        match as_set (default (VList []) (i !! "target_users")) with
        | Raise e => Raise e
        | Ok targets =>
          let common :=
            List.filter (fun x => bool_decide (x ∈ u :: us))
              (remove_dups targets) in
          Ok [(inject_Z (Z.of_nat (length common))
                 / inject_Z (Z.of_nat (length (u :: us))))%Q]
        end
      | _ => Ok []
      end in
    match group_scores with
    | Raise e => Raise e
    | Ok gs =>
      match ts ++ gs with
      | [] => Ok (1 # 2)
      | relevance_scores => Ok (Qmean relevance_scores)
      end
    end
  end.

(** Share of the common keys on which two items agree; [None] when they
    have no key in common. *)
Definition item_similarity (i hist_item : item) : option Q :=
  let common_keys :=
    List.filter (fun k => bool_decide (is_Some (hist_item !! k)))
      (fst <$> map_to_list i) in
  match common_keys with
  | [] => None
  | _ =>
    let same :=
      List.filter
        (fun k => match i !! k, hist_item !! k with
                  | Some v, Some w => value_eqb v w
                  | _, _ => false
                  end) common_keys in
    Some (inject_Z (Z.of_nat (length same))
            / inject_Z (Z.of_nat (length common_keys)))%Q
  end.

(** [_calculate_diversity_score] *)
Definition _calculate_diversity_score (i : item) (history : list item) : Q :=
  match history with
  | [] => 1
  | _ =>
    let similarity_scores :=
      omap (item_similarity i) (last_n 10 history) in
    match similarity_scores with
    | [] => 1 - 0
    | _ => 1 - Qmean similarity_scores
    end
  end.

(** [_calculate_feature_match(user_preferences.get(feature, {}), ...)].
    Under the key ['history'] the preferences hold a list: it is empty, or
    it has no [values()]; the match is [0.0] both ways. *)
Definition feature_match (u : user_preferences) (feature : string)
  (item_feature : value) : Q :=
  if decide (feature = "history") then 0
  else _calculate_feature_match (features u !! feature) (Some item_feature).

(** [calculate_recommendation_score].  [np.mean] of no feature at all is
    not a number; [max(0.0, min(1.0, nan))] is [1.0].  Whatever is raised
    inside is logged and answered with [0.0]. *)
Definition calculate_recommendation_score (u : user_preferences)
  (context_data : payload) (recommendation_item : item) (g : group_dynamics)
  : Q :=
  let matches :=
    (fun kv => feature_match u kv.1 kv.2) <$> map_to_list recommendation_item in
  match _calculate_context_relevance context_data recommendation_item g with
  | Raise _ => 0
  | Ok context_score =>
    let diversity_score :=
      _calculate_diversity_score recommendation_item
        (default [] (recommendation_history u)) in
    match matches with
    | [] => 1
    | _ =>
      let preference_score := Qmean matches in
      let final_score :=
        (preference_score * weight_preference
         + context_score * weight_context
         + diversity_score * weight_diversity)%Q in
      py_max 0 (py_min 1 final_score)
    end
  end.

(** What [get_recommendations] calls and the repository does not define:
    the cache lookup [_get_from_cache], [get_group_dynamics] of the profile
    and the three candidate generators.  The lookup may raise: a method
    that does not exist raises [AttributeError]. *)
Variable _get_from_cache :
  Z -> gmap string (Z * cache_data) -> string -> result returned.
Variable get_group_dynamics : Profile.UserProfile -> group_dynamics.
Variable _generate_agent_candidates :
  user_preferences -> Learning.cached -> option payload -> list item.
Variable _generate_group_candidates :
  string -> user_preferences -> option payload -> list item.
Variable _generate_content_candidates :
  user_preferences -> Learning.cached -> option payload -> list item.

(** [RecommendationService._generate_candidates] *)
Definition _generate_candidates (user t : string) (u : user_preferences)
  (predictions : Learning.cached) (context : option payload) : list item :=
  if decide (t = "ai_agent") then _generate_agent_candidates u predictions context
  else if decide (t = "chat_group") then _generate_group_candidates user u context
  else if decide (t = "content") then _generate_content_candidates u predictions context
  else [].

(** [RecommendationService._update_cache_stats].  The counter is found
    under the key [f"{result}s"]; the dict has the keys ['hits'],
    ['misses'] and ['last_reset'], the last one a datetime. *)
Definition _update_cache_stats (result_name : string) (s : Service)
  : Service * result unit :=
  let key := result_name +:+ "s" in
  let counted (h m : Z) : Service * result unit :=
    let total := (h + m)%Z in
    if (0 <? total)%Z && (10000 <? total)%Z
    then (mkService (_learning_service s) (_cache s) 0 0 (error_count s)
            (generated s), Ok tt)
    else (mkService (_learning_service s) (_cache s) h m (error_count s)
            (generated s), Ok tt) in
  if decide (key = "hits") then counted (hits s + 1)%Z (misses s)
  else if decide (key = "misses") then counted (hits s) (misses s + 1)%Z
  else if decide (key = "last_reset") then (s, Raise TypeError)
  else (s, Raise KeyError).

(** [RecommendationService._cache_recommendations] *)
Definition _cache_recommendations (now : Z) (key : string)
  (recommendations : list recommendation) (s : Service) : Service :=
  mkService (_learning_service s)
    (Cache.setex now key RECOMMENDATION_CACHE_TTL
       (mkCacheData recommendations now "1.0.0") (_cache s))
    (hits s) (misses s) (error_count s) (generated s).

Definition rec_key (user t : string) : string := "rec_" +:+ user +:+ ":" +:+ t.

(** [predictions.get('confidence_score', 0.5)] *)
Definition prediction_confidence (c : Learning.cached) : Q :=
  match c with
  | Learning.PredictionResponse r => Learning.confidence_score r
  | Learning.LearnedPatterns _ _ _ _ => 1 # 2
  end.

Definition note_error (s : Service) : Service :=
  mkService (_learning_service s) (_cache s) (hits s) (misses s)
    (error_count s + 1)%Z (generated s).

(** [PreferenceModel.get_history(user_id=user_id, limit=100)]: the method
    is called on the class, with a keyword it does not have. *)
Definition PreferenceModel_get_history : result user_preferences :=
  Raise TypeError.

(** Body of [RecommendationService.get_recommendations]: one attempt.
    Whatever is raised inside is counted and raised again.  The statistics
    are told ['hit'] or ['miss']. *)
Definition get_recommendations_body (now : Z) (user t : string)
  (context : option payload) (refresh_cache : bool) (s : Service)
  : Service * result returned :=
  if negb (bool_decide (t ∈ SUPPORTED_RECOMMENDATION_TYPES))
  then (note_error s, Raise ValueError)
  else
    let lookup :=
      if refresh_cache then Ok PyNone
      else _get_from_cache now (_cache s) (rec_key user t) in
    match lookup with
    | Raise e => (note_error s, Raise e)
    | Ok cached_data =>
      if returned_truthy cached_data
      then
        match _update_cache_stats "hit" s with
        | (s1, Raise e) => (note_error s1, Raise e)
        | (s1, Ok _) => (s1, Ok cached_data)
        end
      else
        match _update_cache_stats "miss" s with
        | (s1, Raise e) => (note_error s1, Raise e)
        | (s1, Ok _) =>
          let user_profile := Profile.UserProfile_new user now in
          match PreferenceModel_get_history with
          | Raise e => (note_error s1, Raise e)
          | Ok preferences =>
            let '(l1, rp) :=
              Learning.get_preference_predictions now (_learning_service s1)
                user t in
            let s2 := mkService l1 (_cache s1) (hits s1) (misses s1)
                        (error_count s1) (generated s1) in
            match rp with
            | Raise e => (note_error s2, Raise e)
            | Ok predictions =>
              let candidates :=
                _generate_candidates user t preferences predictions context in
              let s3 := mkService (_learning_service s2) (_cache s2) (hits s2)
                          (misses s2) (error_count s2) (S (generated s2)) in
              let scored_recommendations :=
                omap (fun candidate =>
                        let score :=
                          calculate_recommendation_score preferences
                            (default ∅ context) candidate
                            (get_group_dynamics user_profile) in
                        if Qle_bool MIN_CONFIDENCE_SCORE score
                        then Some (mkRecommendation candidate score
                                     (prediction_confidence predictions) now)
                        else None) candidates in
              let recommendations :=
                take MAX_RECOMMENDATIONS
                  (sorted_by_score scored_recommendations) in
              (_cache_recommendations now (rec_key user t) recommendations s3,
               Ok (PyList recommendations))
            end
          end
        end
    end.

(** [RecommendationService.get_recommendations] under its decorator: up to
    [CACHE_RETRY_ATTEMPTS] attempts, again after any exception. *)
Definition get_recommendations (now : Z) (s : Service) (user t : string)
  (context : option payload) (refresh_cache : bool)
  : Service * result returned * nat :=
  Retry.retrying CACHE_RETRY_ATTEMPTS Retry.any_exception
    (get_recommendations_body now user t context refresh_cache) s.

End WithLibraries.

End Recommendation.

(** ** Concrete collaborators and inputs *)

Module Scenario.
Import ContextModel.

Definition digit (c : ascii) : option Z :=
  let n := Z.of_nat (nat_of_ascii c) in
  if (48 <=? n)%Z && (n <=? 57)%Z then Some (n - 48)%Z else None.

Definition two (a b : ascii) : option Z :=
  match digit a, digit b with
  | Some x, Some y => Some (10 * x + y)%Z
  | _, _ => None
  end.

(** Days from 1970-01-01 to a civil date. *)
Definition days_from_civil (y m d : Z) : Z :=
  let y' := if (m <=? 2)%Z then (y - 1)%Z else y in
  let era := (y' / 400)%Z in
  let yoe := (y' - era * 400)%Z in
  let mp := if (2 <? m)%Z then (m - 3)%Z else (m + 9)%Z in
  let doy := ((153 * mp + 2) / 5 + d - 1)%Z in
  let doe := (yoe * 365 + yoe / 4 - yoe / 100 + doy)%Z in
  (era * 146097 + doe - 719468)%Z.

(** [datetime.fromisoformat] on strings [YYYY-MM-DDTHH:MM:SS], with or
    without a final [Z]: the seconds since 1970-01-01T00:00:00; with the
    [Z] the datetime is aware. *)
Definition iso_seconds (s : string) : option datetime :=
  match String.list_ascii_of_string s with
  | y1 :: y2 :: y3 :: y4 :: s1 :: m1 :: m2 :: s2 :: d1 :: d2 :: t
      :: h1 :: h2 :: c1 :: n1 :: n2 :: c2 :: e1 :: e2 :: rest =>
    if bool_decide (s1 = "-"%char ∧ s2 = "-"%char ∧ t = "T"%char
                    ∧ c1 = ":"%char ∧ c2 = ":"%char
                    ∧ (rest = [] ∨ rest = ["Z"%char]))
    then
      match two y1 y2, two y3 y4, two m1 m2, two d1 d2,
            two h1 h2, two n1 n2, two e1 e2 with
      | Some ya, Some yb, Some m, Some d, Some h, Some n, Some e =>
        if (1 <=? m)%Z && (m <=? 12)%Z && (1 <=? d)%Z && (d <=? 31)%Z
           && (h <? 24)%Z && (n <? 60)%Z && (e <? 60)%Z
        then Some (mkDatetime
                     (inject_Z
                        (days_from_civil (100 * ya + yb) m d * 86400
                         + h * 3600 + n * 60 + e))
                     (bool_decide (rest = ["Z"%char])))
        else None
      | _, _, _, _, _, _, _ => None
      end
    else None
  | _ => None
  end.

Definition two_digits (i : nat) : string :=
  String (ascii_of_nat (48 + i / 10))
    (String (ascii_of_nat (48 + i mod 10)) EmptyString).

(** The messages of the test suite: [msg_i], senders in rotation, one
    second apart. *)
Definition test_message (i : nat) : message :=
  <["message_id" := "msg_" +:+ two_digits i]>
    (<["sender_id" := "user_" +:+ two_digits (i mod 3)]>
       (<["content" := "test message"]>
          {["timestamp" := "2023-01-01T00:00:" +:+ two_digits i]})).

Definition test_calls (n : nat) : list (Z * message) :=
  (fun i => (Z.of_nat i, test_message i)) <$> seq 0 n.

(** A message without its [content]. *)
Definition malformed_message : message :=
  <["message_id" := "msg_99"]>
    (<["sender_id" := "user_00"]> {["timestamp" := "2023-01-01T00:00:00"]}).

Definition zero_embedding : embedding := repeat 0%Q EMBEDDING_DIMENSION.

(** A message is added, then its embedding is recorded. *)
Definition ingest (c : Context) (i : nat) : Context :=
  let c1 := (add_message iso_seconds (Z.of_nat i) c (test_message i)).1 in
  (update_embeddings (Z.of_nat i) c1 ("msg_" +:+ two_digits i)
     zero_embedding).1.

(** Fifty messages with their embeddings, then the append of one more. *)
Definition full_context : Context :=
  foldl ingest (Context_init "c1" 0) (seq 0 50).

Definition after_eviction : Context :=
  (add_message iso_seconds 50 full_context (test_message 50)).1.

(** Collaborators that always answer: a fixed clock, a provider that
    returns the zero vector, an index that holds one vector for [msg_00]
    of conversation [c1], at similarity 0.5 to every query. *)
Definition fixed_clock (w : unit) : Z := 0.
Definition embed_zero (w : unit) (text : string)
  : unit * result embedding := (w, Ok zero_embedding).
Definition insert_ok (w : unit) (message_id chat : string) (e : embedding)
  : unit * result unit := (w, Ok tt).
Definition flush_ok (w : unit) : unit * result unit := (w, Ok tt).
Definition single_hit_search (w : unit) (q : embedding) (chat : string)
  (limit : nat) : unit * result (list ContextManager.hit) :=
  (w, Ok (take limit [ContextManager.mkHit "msg_00" "c1" (1 # 2)])).

(** Conversation [c1] after its first message. *)
Definition greeting_system : ContextManager.System unit :=
  ContextManager.mkSystem unit
    {["c1" := ingest (Context_init "c1" 0) 0]}
    (ContextManager.mkStore true 1 0) tt.

(** [{threshold: 0.9}] *)
Definition strict_options : ContextManager.options :=
  ContextManager.mkOptions None (Some (9 # 10)).

(** [get_relevant_context("c1", "greeting", {threshold: 0.9})] *)
Definition greeting_call
  : ContextManager.System unit * result (list ContextManager.relevant) * nat :=
  ContextManager.get_relevant_context unit fixed_clock embed_zero
    single_hit_search greeting_system "c1" "greeting" (Some strict_options).

(** Preference updates: twelve calls against a history limit of ten, as in
    the test configuration. *)
Definition test_limit : positive := 10.

Definition dark_theme : payload := {["theme" := "dark"]}.
Definition light_theme : payload := {["theme" := "light"]}.

Definition chat_model : Preference.PreferenceModel :=
  Preference.PreferenceModel_default "u1" "chat" 0.

Definition twelve_updates : list Preference.call :=
  (fun i => Preference.mkCall (Z.of_nat i)
              (if Nat.even i then dark_theme else light_theme)
              (if Nat.even i then Some (8 # 10) else None)) <$> seq 1 12.

(** The calendar of a UTC instant given in seconds since 1970-01-01:
    hour of the day, weekday (Monday is 0) and ISO week number. *)
Definition utc_hour (t : Z) : Z := ((t / 3600) mod 24)%Z.
Definition utc_weekday (t : Z) : Z := ((t / 86400 + 3) mod 7)%Z.

Definition civil_year (days : Z) : Z :=
  let z := (days + 719468)%Z in
  let era := (z / 146097)%Z in
  let doe := (z - era * 146097)%Z in
  let yoe := ((doe - doe / 1460 + doe / 36524 - doe / 146096) / 365)%Z in
  let doy := (doe - (365 * yoe + yoe / 4 - yoe / 100))%Z in
  let mp := ((5 * doy + 2) / 153)%Z in
  let m := if (mp <? 10)%Z then (mp + 3)%Z else (mp - 9)%Z in
  (yoe + era * 400 + (if (m <=? 2)%Z then 1 else 0))%Z.

Definition weeks_in_year (y : Z) : Z :=
  let p := fun y => ((y + y / 4 - y / 100 + y / 400) mod 7)%Z in
  if (p y =? 4)%Z || (p (y - 1) =? 3)%Z then 53%Z else 52%Z.

Definition utc_isoweek (t : Z) : Z :=
  let days := (t / 86400)%Z in
  let y := civil_year days in
  let doy := (days - days_from_civil y 1 1 + 1)%Z in
  let w := ((doy - (utc_weekday t + 1) + 10) / 7)%Z in
  if (w <? 1)%Z then weeks_in_year (y - 1)
  else if (weeks_in_year y <? w)%Z then 1%Z
  else w.

(** A new profile, and its first update. *)
Definition new_profile : Profile.UserProfile := Profile.UserProfile_new "u1" 0.

Definition first_update
  : Profile.UserProfile * result Profile.update_status :=
  Profile.update_preference utc_hour utc_weekday utc_isoweek test_limit
    100 new_profile "content" dark_theme (8 # 10) None.

(** A learning service with nothing cached. *)
Definition idle_learning : Learning.Service :=
  Learning.mkService ∅ Learning.MODEL_VERSION.

(** A table of counts for the prediction loop, and learning patterns
    that hold it, with stability 0.9. *)
Definition sample_buckets : list (string * Z) :=
  [("evening", 7%Z); ("monday", 3%Z); ("week_12", 5%Z)].


(** The inputs of the score test: an item, a context without timestamp,
    no preferences and no group. *)
Definition test_item : Recommendation.item :=
  <["content" := Recommendation.VDict
       (<["type" := Recommendation.AStr "technical"]>
          {["level" := Recommendation.AStr "advanced"]})]>
    (<["format" := Recommendation.VDict
          (<["type" := Recommendation.AStr "article"]>
             {["length" := Recommendation.AStr "long"]})]>
       {["topics" := Recommendation.VList
           [Recommendation.AStr "python"; Recommendation.AStr "testing";
            Recommendation.AStr "devops"]]}).

Definition test_context : payload :=
  <["time" := "2023-01-01T00:00:00"]>
    (<["activity" := "coding"]> {["platform" := "desktop"]}).

Definition no_preferences : Recommendation.user_preferences :=
  Recommendation.mkPreferences ∅ None.

Definition no_group : Recommendation.group_dynamics :=
  Recommendation.mkGroup None.

(** Stand-ins for the parts of the recommendation service the repository
    does not define: a cache lookup that hands back the stored list, a
    profile without group, generators with nothing to propose, and a cosine
    that refuses its arguments. *)
Definition stored_recommendations (now : Z)
  (c : gmap string (Z * Recommendation.cache_data)) (key : string)
  : result Recommendation.returned :=
  match Cache.get now key c with
  | Some d =>
    Ok (Recommendation.PyList (Recommendation.cached_recommendations d))
  | None => Ok Recommendation.PyNone
  end.

(** The lookup as the repository has it: there is no such method. *)
Definition no_lookup (now : Z)
  (c : gmap string (Z * Recommendation.cache_data)) (key : string)
  : result Recommendation.returned := Raise AttributeError.
Definition group_of_nobody (p : Profile.UserProfile)
  : Recommendation.group_dynamics := no_group.
Definition propose_nothing (u : Recommendation.user_preferences)
  (predictions : Learning.cached) (context : option payload)
  : list Recommendation.item := [].
Definition propose_no_group (user : string)
  (u : Recommendation.user_preferences) (context : option payload)
  : list Recommendation.item := [].
Definition refuse_cosine (u v : list Recommendation.atom) : result Q :=
  Raise TypeError.

Definition idle_service : Recommendation.Service :=
  Recommendation.mkService idle_learning ∅ 0 0 0 0.

(** [get_recommendations(u, "content")], twice, ten seconds apart. *)
Definition recommend (now : Z) (s : Recommendation.Service)
  : Recommendation.Service * result Recommendation.returned * nat :=
  Recommendation.get_recommendations iso_seconds refuse_cosine
    stored_recommendations group_of_nobody propose_nothing
    propose_no_group propose_nothing now s "u1" "content" None false.

Definition first_call := recommend 0 idle_service.
Definition second_call := recommend 10 first_call.1.1.

End Scenario.

(** ** Further parts of the sources *)

(** Sum of the counters of a dict, [sum(d.values())]. *)
Definition total {K} `{Countable K} (d : gmap K Z) : Z :=
  map_fold (fun _ v acc => (v + acc)%Z) 0%Z d.

(** *** models/context.py: reading the context *)

Module ContextReading.
Import ContextModel.

(** [Context.get_recent_context].  The slice [memory[-limit:]] takes the
    last [limit] messages for a positive [limit], everything for 0, and
    drops the first [-limit] messages for a negative [limit]. *)
Definition get_recent_context (limit : Z) (c : Context)
  : result (list message * gmap string embedding) :=
  let memory := short_term_memory c in
  let limit := Z.min limit (Z.of_nat (length memory)) in
  let recent_messages :=
    if (0 <? limit)%Z then last_n (Z.to_nat limit) memory
    else drop (Z.to_nat (- limit)) memory in
  match mapM (fun msg : message => msg !! "message_id") recent_messages with
  | None => Raise KeyError
  | Some ids =>
    Ok (recent_messages, filter (fun kv => kv.1 ∈ ids) (embeddings c))
  end.

End ContextReading.

(** *** context/context_manager.py: group dynamics *)

Module Dynamics.
Import ContextModel ContextManager.

(** The dict [get_group_dynamics] returns. *)
Record dynamics : Type := mkDynamicsView {
  view_participation : gmap string Z;
  avg_response_times : gmap string Q;
  interaction_strength : gmap string Q;
  active_users : nat;
  total_messages : Z
}.

(** The metrics computed from the accumulator of one context. *)
Definition dynamics_of (g : GroupDynamics) : dynamics :=
  let total_interactions := total (interaction_pairs g) in
  mkDynamicsView
    (participation_metrics g)
    (Qmean <$> filter (fun kv => kv.2 <> []) (response_times g))
    (if (0 <? total_interactions)%Z
     then (fun count => (inject_Z count / inject_Z total_interactions)%Q)
            <$> interaction_pairs g
     else ∅)
    (size (participation_metrics g))
    (total (participation_metrics g)).

Section WithServices.

Variable World : Type.
Variable utcnow : World -> Z.

(** [ContextManager.get_group_dynamics] *)
Definition get_group_dynamics (s : System World) (chat : string)
  : System World * result dynamics :=
  let '(s1, context) := _get_or_create_context World utcnow s chat in
  (s1, Ok (dynamics_of (group_dynamics context))).

(** [ContextManager.close] *)
Definition close (s : System World) : System World :=
  mkSystem World ∅ (vector_store World s) (world World s).

End WithServices.

End Dynamics.

(** *** services/learning_service.py: learning *)

Module LearningMore.
Import Learning.

(** [learn_preferences] can also fail with a division by zero. *)
Inductive failure : Type :=
  | Exception (e : exn)
  | ZeroDivisionError.

Inductive outcome (A : Type) : Type :=
  | Returned (a : A)
  | Failed (f : failure).
Arguments Returned {A} a.
Arguments Failed {A} f.

(** The dict [learn_preferences] returns. *)
Record learning : Type := mkLearning {
  learning_user_id : string;
  learning_preference_type : string;
  learning_results : list Profile.analysis;
  learning_confidence_score : Q;
  learning_model_version : string;
  learning_timestamp : Z
}.

(** [l[i:i + size] for i in range(0, len(l), size)], for [size > 0];
    [n] bounds the number of slices. *)
Fixpoint batches {A} (n size : nat) (l : list A) : list (list A) :=
  match n, l with
  | O, _ | _, [] => []
  | S n', _ => take size l :: batches n' size (drop size l)
  end.

Section WithCalendar.

Variable hour weekday isoweek : Z -> Z.

(** The loop over the batches: each batch triggers the analysis of the
    profile. *)
Fixpoint analyse_batches (now : Z) (p : Profile.UserProfile) (t : string)
  (bs : list (list Profile.interaction))
  : result (list Profile.analysis) :=
  match bs with
  | [] => Ok []
  | batch :: rest =>
    let temporal_patterns :=
      Profile._analyze_temporal_patterns hour weekday isoweek batch in
    match Profile.analyze_learning_patterns hour weekday isoweek now p t with
    | (_, Raise e) => Raise e
    | (p1, Ok pattern_update) =>
      match analyse_batches now p1 t rest with
      | Raise e => Raise e
      | Ok results => Ok (pattern_update :: results)
      end
    end
  end.

(** [PreferenceLearningService.learn_preferences]; [batch_size] is the
    [_batch_size] of the service, and a missing user or type is the empty
    string. *)
Definition learn_preferences (now : Z) (s : Service) (batch_size : nat)
  (user t : string) : Service * outcome learning :=
  if bool_decide (user = "") || bool_decide (t = "")
  then (s, Failed (Exception ValueError))
  else
    let user_profile := Profile.UserProfile_new user now in
    match Profile.get_preference_history now user_profile t None
            (Some (now - 30 * 86400)%Z) None [] with
    | Raise e => (s, Failed (Exception e))
    | Ok history =>
      let entries := Profile.view_history history in
      match batch_size with
      | O =>
        (s, Failed (Exception ValueError))
      | S _ =>
        match analyse_batches now user_profile t
                (batches (length entries) batch_size entries) with
        | Raise e => (s, Failed (Exception e))
        | Ok results =>
          match results with
          | [] => (s, Failed ZeroDivisionError)
          | _ =>
            let avg_confidence := Qmean (Profile.a_stability_score <$> results) in
            (mkService
               (Cache.setex now (cache_key user t) PREDICTION_CACHE_TTL
                  (LearnedPatterns results avg_confidence now
                     (_model_version s)) (cache s))
               (_model_version s),
             Returned (mkLearning user t results avg_confidence
                         (_model_version s) now))
          end
        end
      end
    end.

End WithCalendar.

End LearningMore.

(** *** Further concrete inputs *)

Module Examples.
Import ContextModel.

(** A provider that is never reachable. *)
Definition embed_unreachable (w : unit) (text : string)
  : unit * result embedding := (w, Raise ConnectionError).

(** An index that cannot be searched. *)
Definition search_fails (w : unit) (q : embedding) (chat : string)
  (limit : nat) : unit * result (list ContextManager.hit) :=
  (w, Raise RuntimeError).

(** A message whose timestamp is not a date. *)
Definition undated_message : message :=
  <["message_id" := "msg_98"]>
    (<["sender_id" := "user_00"]>
       (<["content" := "no date"]> {["timestamp" := "yesterday"]})).

(** Three messages of conversation [c1] with their embeddings. *)
Definition small_context : Context :=
  foldl Scenario.ingest (Context_init "c1" 0) (seq 0 3).

Definition small_system : ContextManager.System unit :=
  ContextManager.mkSystem unit
    (<["c1" := small_context]>
       {["c0" := Context_init "c0" (-100000)%Z]})
    (ContextManager.mkStore true 3 0) tt.

(** A model after three updates. *)
Definition three_updates : list Preference.call :=
  (fun i => Preference.mkCall (Z.of_nat i)
              (if Nat.even i then Scenario.dark_theme
               else Scenario.light_theme)
              (Some (inject_Z (Z.of_nat i) / 2)%Q)) <$> seq 1 3.

Definition updated_model : Preference.PreferenceModel :=
  (Preference.update_all Scenario.test_limit Scenario.chat_model
     three_updates).1.1.

(** Interactions of one type. *)
Definition dark (t : Z) (c : Q) : Profile.interaction :=
  Profile.mkInteraction t Scenario.dark_theme c ∅.
Definition light (t : Z) (c : Q) : Profile.interaction :=
  Profile.mkInteraction t Scenario.light_theme c ∅.

Definition mixed_history : list Profile.interaction :=
  [light 0 (2 # 10); dark 3600 (4 # 10); dark 7200 (6 # 10);
   dark 90000 (6 # 10); dark 180000 (8 # 10); dark 200000 (8 # 10)].

(** A serialisation of the data of an entry that writes its pairs in the
    order of the keys. *)
Definition dumps_sorted (e : Profile.interaction) : string :=
  String.concat ", "
    ((fun kv => kv.1 +:+ ": " +:+ kv.2) <$> map_to_list (Profile.i_data e)).

(** A profile that holds these interactions under [content]. *)
Definition seasoned_profile : Profile.UserProfile :=
  let p := Scenario.new_profile in
  Profile.mkProfile (Profile.user_id p) (Profile.preferences p)
    (Profile.learning_patterns p)
    (<["content" := mixed_history]> (Profile.interaction_history p))
    (Profile.created_at p) (Profile.last_updated p)
    (Profile.confidence_scores p) (Profile.pattern_metrics p).

(** An item with a validity period and target users, a context with a
    timestamp, and a group. *)
Definition dated_item : Recommendation.item :=
  <["valid_period" := Recommendation.VDict
       {["start" := Recommendation.AStr "2023-01-02T00:00:00"]}]>
    (<["target_users" := Recommendation.VList
          [Recommendation.AStr "u1"; Recommendation.AStr "u3"]]>
       Scenario.test_item).

Definition dated_context : payload :=
  {["timestamp" := "2023-01-01T00:00:00"]}.

Definition small_group : Recommendation.group_dynamics :=
  Recommendation.mkGroup (Some ["u1"; "u2"]).

(** A generator with two proposals, and preferences with a history. *)
Definition propose_two (u : Recommendation.user_preferences)
  (predictions : Learning.cached) (context : option payload)
  : list Recommendation.item := [Scenario.test_item; dated_item].

Definition seen_preferences : Recommendation.user_preferences :=
  Recommendation.mkPreferences ∅ (Some [Scenario.test_item]).

End Examples.

(** * Properties *)

(** ** Lists and floats *)

Lemma last_n_app_last_n {A} (n : nat) (l k : list A) :
  last_n n (last_n n l ++ k) = last_n n (l ++ k).
Proof.
  unfold last_n. rewrite !length_app, length_drop.
  destruct (decide (length l <= n)%nat) as [Hle|Hgt].
  - assert (length l - n = 0)%nat as -> by lia. rewrite drop_0.
    f_equal. lia.
  - rewrite <- (drop_app_le l k (length l - n)) by lia.
    rewrite drop_drop. f_equal. lia.
Qed.

Lemma last_n_short {A} (n : nat) (l : list A) :
  (length l <= n)%nat -> last_n n l = l.
Proof.
  intros H. unfold last_n.
  by replace (length l - n)%nat with 0%nat by lia.
Qed.

Lemma last_n_length {A} (n : nat) (l : list A) :
  length (last_n n l) = (length l `min` n)%nat.
Proof. unfold last_n. rewrite length_drop. lia. Qed.

Lemma py_min_spec (a b : Q) :
  (py_min a b <= a)%Q /\ (py_min a b <= b)%Q /\
  (py_min a b = a \/ py_min a b = b).
Proof.
  unfold py_min. destruct (Qlt_le_dec b a) as [H|H].
  - split; [by apply Qlt_le_weak|]. split; [apply Qle_refl|by right].
  - split; [apply Qle_refl|]. split; [done|by left].
Qed.

Lemma py_max_spec (a b : Q) :
  (a <= py_max a b)%Q /\ (b <= py_max a b)%Q /\
  (py_max a b = a \/ py_max a b = b).
Proof.
  unfold py_max. destruct (Qlt_le_dec a b) as [H|H].
  - split; [by apply Qlt_le_weak|]. split; [apply Qle_refl|by right].
  - split; [apply Qle_refl|]. split; [done|by left].
Qed.

(** [max(0, min(c, 1))] lies between 0 and 1. *)
Lemma clamp_unit (c : Q) :
  (0 <= py_max 0 (py_min c 1))%Q /\ (py_max 0 (py_min c 1) <= 1)%Q.
Proof.
  destruct (py_max_spec 0 (py_min c 1)) as (H0 & _ & [E|E]).
  - split; [done|]. rewrite E. done.
  - split; [done|]. rewrite E. by destruct (py_min_spec c 1) as (_ & ? & _).
Qed.

Lemma Qsum_nonneg (l : list Q) :
  Forall (fun q => (0 <= q)%Q) l -> (0 <= Qsum l)%Q.
Proof.
  induction 1 as [|q l Hq _ IH]; simpl; [done|].
  change 0%Q with (0 + 0)%Q. by apply Qplus_le_compat.
Qed.

Lemma Qmean_nonneg (l : list Q) :
  Forall (fun q => (0 <= q)%Q) l -> (0 <= Qmean l)%Q.
Proof.
  intros H. unfold Qmean. destruct l as [|q l]; [done|].
  apply Qle_shift_div_l.
  - rewrite <- (Zlt_Qlt 0). simpl. lia.
  - rewrite Qmult_0_l. by apply Qsum_nonneg.
Qed.

Lemma Qsum_zero (l : list Q) :
  Forall (fun q => (q == 0)%Q) l -> (Qsum l == 0)%Q.
Proof.
  induction 1 as [|q l Hq _ IH]; simpl; [reflexivity|].
  rewrite Hq, IH. reflexivity.
Qed.

Lemma Qmean_zero (l : list Q) :
  Forall (fun q => (q == 0)%Q) l -> (Qmean l == 0)%Q.
Proof.
  intros H. unfold Qmean, Qdiv. rewrite (Qsum_zero l H). apply Qmult_0_l.
Qed.

(** ** Short-term memory *)

Module ContextFacts.
Import ContextModel.

Section WithClock.

Variable fromisoformat : string -> option datetime.

Lemma fifo_last_n (l : list message) (m : message) :
  (length l <= MAX_SHORT_TERM_MESSAGES)%nat ->
  fifo l m = last_n MAX_SHORT_TERM_MESSAGES (l ++ [m]).
Proof.
  intros Hl. unfold fifo, last_n. rewrite length_app. simpl.
  case_decide as Hd.
  - replace (length l + 1 - MAX_SHORT_TERM_MESSAGES)%nat with 1%nat; [done|].
    unfold MAX_SHORT_TERM_MESSAGES in *. lia.
  - replace (length l + 1 - MAX_SHORT_TERM_MESSAGES)%nat with 0%nat; [done|].
    unfold MAX_SHORT_TERM_MESSAGES in *. lia.
Qed.

Lemma fifo_length (l : list message) (m : message) :
  (length l <= MAX_SHORT_TERM_MESSAGES)%nat ->
  (length (fifo l m) <= MAX_SHORT_TERM_MESSAGES)%nat.
Proof.
  intros Hl. unfold fifo.
  case_decide as Hd; rewrite ?length_drop, !length_app in *; simpl in *;
    unfold MAX_SHORT_TERM_MESSAGES in *; lia.
Qed.

(** What holds of the old messages and of the new one holds of the
    memory after the append. *)
Lemma fifo_forallb (f : message -> bool) (l : list message) (m : message) :
  forallb f l = true -> f m = true -> forallb f (fifo l m) = true.
Proof.
  intros Hall Hm. apply forallb_forall. intros x Hx%list_elem_of_In.
  unfold fifo in Hx.
  assert (x ∈ l ++ [m]) as Hin.
  { case_decide; [|done].
    apply list_elem_of_lookup in Hx as [i Hi]. rewrite lookup_drop in Hi.
    apply list_elem_of_lookup. eauto. }
  apply elem_of_app in Hin as [Hin|Hin].
  - rewrite forallb_forall in Hall. apply Hall. by apply list_elem_of_In.
  - apply list_elem_of_singleton in Hin. by subst.
Qed.

Lemma valid_fields (m : message) :
  valid_message fromisoformat m = true ->
  has_required_fields m = true /\
  (exists ts t, m !! "timestamp" = Some ts /\ fromisoformat ts = Some t) /\
  (exists s, m !! "sender_id" = Some s).
Proof.
  unfold valid_message. intros [Hreq Hts]%andb_true_iff.
  split; [done|].
  unfold has_required_fields in Hreq. simpl in Hreq.
  repeat (apply andb_true_iff in Hreq as [?%bool_decide_eq_true Hreq]).
  apply bool_decide_eq_true in Hts.
  destruct (m !! "timestamp") as [ts|] eqn:E; [|by destruct H1 as [? ?]].
  simpl in Hts. destruct Hts as [t Ht].
  split; [by exists ts, t|]. destruct H0 as [s Hs]. by exists s.
Qed.

Lemma zoned_fields (a : bool) (m : message) :
  zoned_message fromisoformat a m = true ->
  has_required_fields m = true /\
  (exists ts t, m !! "timestamp" = Some ts /\ fromisoformat ts = Some t /\
                aware t = a) /\
  (exists s, m !! "sender_id" = Some s).
Proof.
  unfold zoned_message. intros [Hvalid Hzone]%andb_true_iff.
  destruct (valid_fields m Hvalid) as (Hreq & (ts & t & Hts & Ht) & Hs).
  split; [done|]. split; [|done]. exists ts, t.
  apply bool_decide_eq_true in Hzone. rewrite Hts in Hzone. simpl in Hzone.
  rewrite Ht in Hzone. simpl in Hzone. by simplify_eq.
Qed.

Lemma zoned_valid (a : bool) (m : message) :
  zoned_message fromisoformat a m = true ->
  valid_message fromisoformat m = true.
Proof. unfold zoned_message. by intros [? _]%andb_true_iff. Qed.

(** A message that has the four fields is appended, whatever becomes of
    the call afterwards; the embeddings are not touched. *)
Lemma add_message_memory (now : Z) (c : Context) (m : message) :
  has_required_fields m = true ->
  short_term_memory (add_message fromisoformat now c m).1
  = fifo (short_term_memory c) m /\
  chat_id (add_message fromisoformat now c m).1 = chat_id c /\
  embeddings (add_message fromisoformat now c m).1 = embeddings c.
Proof.
  intros Hreq. unfold add_message. rewrite Hreq. cbn [negb].
  fold (fifo (short_term_memory c) m).
  repeat first [ done | case_match | case_decide ].
Qed.

(** A message appended to messages of its kind is accepted. *)
Lemma add_message_valid (a : bool) (now : Z) (c : Context) (m : message) :
  forallb (zoned_message fromisoformat a) (short_term_memory c) = true ->
  zoned_message fromisoformat a m = true ->
  exists c',
    add_message fromisoformat now c m = (c', Ok tt) /\
    short_term_memory c' = fifo (short_term_memory c) m /\
    chat_id c' = chat_id c /\ embeddings c' = embeddings c.
Proof.
  intros Hall Hm.
  pose proof (fifo_forallb _ _ _ Hall Hm) as Hmem.
  rewrite forallb_forall in Hmem.
  destruct (zoned_fields a m Hm) as (Hreq & (ts & t & Hts & Ht & Ha) & (s & Hs)).
  unfold add_message. rewrite Hreq. simpl.
  rewrite Hts. simpl. rewrite Ht.
  fold (fifo (short_term_memory c) m).
  set (memory := fifo (short_term_memory c) m) in *.
  case_decide as Hlen.
  - destruct (memory !! (length memory - 2)%nat) as [prev|] eqn:Hprev.
    + assert (zoned_message fromisoformat a prev = true) as Hv.
      { apply Hmem. apply list_elem_of_In, list_elem_of_lookup. eauto. }
      destruct (zoned_fields a prev Hv)
        as (_ & (pts & pt & Hpts & Hpt & Hpa) & (ps & Hps)).
      rewrite Hpts, Hpt. unfold datetime_sub. rewrite Ha, Hpa, eqb_reflx.
      rewrite Hps. eexists. split; [reflexivity|]. done.
    + apply lookup_ge_None in Hprev. lia.
  - eexists. split; [reflexivity|]. done.
Qed.

(** Any run of messages that have the four fields leaves the last fifty
    of everything that was appended. *)
Lemma add_messages_last_n (calls : list (Z * message)) :
  forall c : Context,
  (length (short_term_memory c) <= MAX_SHORT_TERM_MESSAGES)%nat ->
  forallb (fun call => has_required_fields call.2) calls = true ->
  short_term_memory (add_messages fromisoformat c calls).1
  = last_n MAX_SHORT_TERM_MESSAGES (short_term_memory c ++ calls.*2).
Proof.
  induction calls as [|[now m] rest IH]; intros c Hlen Hcalls.
  - simpl. rewrite app_nil_r. unfold last_n.
    by replace (length (short_term_memory c) - MAX_SHORT_TERM_MESSAGES)%nat
      with 0%nat by lia.
  - simpl in Hcalls. apply andb_true_iff in Hcalls as [Hm Hrest].
    destruct (add_message_memory now c m Hm) as (Hmem & _).
    cbn [add_messages].
    destruct (add_message fromisoformat now c m) as [c1 r] eqn:Hadd.
    cbn [fst] in Hmem.
    destruct (add_messages fromisoformat c1 rest) as [c2 rs] eqn:Hrun.
    specialize (IH c1). rewrite Hrun in IH. cbn [fst] in *.
    rewrite IH; [|rewrite Hmem; by apply fifo_length|done].
    rewrite Hmem, fifo_last_n by done.
    rewrite last_n_app_last_n. by rewrite <- app_assoc.
Qed.

(** Any run of messages of one kind succeeds. *)
Lemma add_messages_ok (a : bool) (calls : list (Z * message)) :
  forall c : Context,
  forallb (zoned_message fromisoformat a) (short_term_memory c) = true ->
  forallb (fun call => zoned_message fromisoformat a call.2) calls = true ->
  Forall (fun r => r = Ok tt) (add_messages fromisoformat c calls).2.
Proof.
  induction calls as [|[now m] rest IH]; intros c Hall Hcalls.
  - constructor.
  - simpl in Hcalls. apply andb_true_iff in Hcalls as [Hm Hrest].
    destruct (add_message_valid a now c m Hall Hm) as (c1 & Hadd & Hmem & _).
    cbn [add_messages]. rewrite Hadd.
    destruct (add_messages fromisoformat c1 rest) as [c2 rs] eqn:Hrun.
    specialize (IH c1). rewrite Hrun in IH. cbn [snd] in *.
    constructor; [done|]. apply IH; [|done].
    rewrite Hmem. by apply fifo_forallb.
Qed.

End WithClock.

(** C1. After more than fifty messages that have the required fields have
    been added to a conversation with [add_message], the short-term memory
    holds exactly fifty messages: the fifty added last, in the order they
    were added.  When the timestamps are well formed and of one kind (all
    with an offset or all without), every call has succeeded. *)
Theorem add_message_bounded_memory
  (fromisoformat : string -> option datetime) (c : Context)
  (calls : list (Z * message)) :
  (length (short_term_memory c) <= MAX_SHORT_TERM_MESSAGES)%nat ->
  forallb (fun call => has_required_fields call.2) calls = true ->
  (MAX_SHORT_TERM_MESSAGES < length calls)%nat ->
  length (short_term_memory (add_messages fromisoformat c calls).1)
  = MAX_SHORT_TERM_MESSAGES /\
  short_term_memory (add_messages fromisoformat c calls).1
  = drop (length calls - MAX_SHORT_TERM_MESSAGES) calls.*2 /\
  (forall a : bool,
     forallb (zoned_message fromisoformat a) (short_term_memory c) = true ->
     forallb (fun call => zoned_message fromisoformat a call.2) calls = true ->
     Forall (fun r => r = Ok tt) (add_messages fromisoformat c calls).2).
Proof.
  intros Hlen Hcalls Hmany.
  pose proof (add_messages_last_n fromisoformat calls c Hlen Hcalls) as Hmem.
  assert (short_term_memory (add_messages fromisoformat c calls).1
          = drop (length calls - MAX_SHORT_TERM_MESSAGES) calls.*2) as ->.
  { rewrite Hmem. unfold last_n. rewrite length_app, length_fmap.
    rewrite drop_app_ge by lia. f_equal. lia. }
  split; [rewrite length_drop, length_fmap; lia|]. split; [done|].
  intros a Hall Hzoned. by eapply add_messages_ok.
Qed.

Lemma add_message_bounded_memory_witness :
  length (short_term_memory
            (add_messages Scenario.iso_seconds (Context_init "c1" 0)
               (Scenario.test_calls 51)).1) = 50%nat /\
  short_term_memory
    (add_messages Scenario.iso_seconds (Context_init "c1" 0)
       (Scenario.test_calls 51)).1
  = drop 1 (Scenario.test_calls 51).*2 /\
  Forall (fun r => r = Ok tt)
    (add_messages Scenario.iso_seconds (Context_init "c1" 0)
       (Scenario.test_calls 51)).2.
Proof.
  destruct (add_message_bounded_memory Scenario.iso_seconds
              (Context_init "c1" 0) (Scenario.test_calls 51))
    as (Hlen & Hmem & Hok).
  - simpl. unfold MAX_SHORT_TERM_MESSAGES. lia.
  - vm_compute. reflexivity.
  - vm_compute. lia.
  - split; [exact Hlen|]. split; [exact Hmem|].
    apply (Hok false); vm_compute; reflexivity.
Defined.

End ContextFacts.

(** ** Embedding pruning *)

Module EmbeddingFacts.
Import ContextModel.

Lemma mapM_omap {A B} (f : A -> option B) (l : list A) (k : list B) :
  mapM f l = Some k -> omap f l = k.
Proof.
  intros H%mapM_Some. induction H as [|a b l k Hab _ IH]; [done|].
  simpl. rewrite Hab. simpl. by f_equal.
Qed.

(** C9, as amended.  When [update_embeddings] returns, every key of the
    embeddings map is the id of a message still held in the short-term
    memory. *)
Theorem update_embeddings_prunes (now : Z) (c c' : Context)
  (message_id : string) (e : embedding) :
  update_embeddings now c message_id e = (c', Ok tt) ->
  embeddings_pruned c'.
Proof.
  unfold update_embeddings. intros H.
  destruct (negb (length e =? EMBEDDING_DIMENSION)%nat); [done|].
  destruct (current_message_ids _) as [ids|] eqn:Hids; [|done].
  simplify_eq. intros k [v Hv]. simpl in *.
  apply map_lookup_filter_Some in Hv as [_ Hk]. simpl in Hk.
  unfold stored_ids. simpl.
  unfold current_message_ids in Hids. simpl in Hids.
  by rewrite (mapM_omap _ _ _ Hids).
Qed.

Lemma update_embeddings_prunes_witness :
  embeddings_pruned
    (update_embeddings 50 Scenario.after_eviction "msg_50"
       Scenario.zero_embedding).1.
Proof.
  apply (update_embeddings_prunes 50 Scenario.after_eviction _ "msg_50"
           Scenario.zero_embedding).
  vm_compute. reflexivity.
Defined.

(** C9, as stated, fails between the eviction and the next
    [update_embeddings]: after fifty messages with their embeddings, the
    append of one more message evicts [msg_00] and leaves its embedding. *)
Lemma eviction_leaves_embedding :
  length (short_term_memory Scenario.after_eviction) = 50%nat /\
  ("msg_00" ∉ stored_ids Scenario.after_eviction) /\
  is_Some (embeddings Scenario.after_eviction !! "msg_00") /\
  ~ embeddings_pruned Scenario.after_eviction.
Proof.
  assert (Hout : "msg_00" ∉ stored_ids Scenario.after_eviction).
  { apply (bool_decide_eq_false_1 _). vm_compute. reflexivity. }
  assert (Hin : is_Some (embeddings Scenario.after_eviction !! "msg_00")).
  { apply (bool_decide_eq_true_1 _). vm_compute. reflexivity. }
  split; [vm_compute; reflexivity|].
  split; [done|]. split; [done|].
  intros Hpruned. apply Hout. by apply Hpruned.
Qed.

End EmbeddingFacts.

(** ** The context manager *)

Module ManagerFacts.
Import ContextModel ContextManager.

Lemma filter_sublist {A} (f : A -> bool) (l : list A) :
  List.filter f l `sublist_of` l.
Proof.
  induction l as [|x l IH]; simpl; [constructor|].
  destruct (f x); by constructor.
Qed.

Lemma find_message_elem (message_id : string) (l : list message)
  (msg : message) :
  find_message message_id l = Ok (Some msg) -> msg ∈ l.
Proof.
  induction l as [|m l IH]; simpl; [done|].
  destruct (m !! "message_id") as [i|]; [|done].
  case_decide.
  - intros; simplify_eq. by left.
  - intros H'. right. by apply IH.
Qed.

(** The join keeps the order of the hits, attaches their scores and takes
    the messages from the memory. *)
Lemma join_messages_spec (memory : list message) (similar : list hit) :
  forall entries,
  join_messages memory similar = Ok entries ->
  relevance_score <$> entries `sublist_of` hit_score <$> similar /\
  Forall (fun e => rel_message e ∈ memory) entries.
Proof.
  induction similar as [|h rest IH]; intros entries H; simpl in H.
  - simplify_eq. split; constructor.
  - destruct (find_message (hit_message_id h) memory) as [found|] eqn:Hf;
      [|done].
    destruct (join_messages memory rest) as [messages|]; [|done].
    destruct (IH messages eq_refl) as [Hsub Hall].
    destruct found as [msg|]; simplify_eq; simpl.
    + split; [by constructor|]. constructor; [|done].
      simpl. by eapply find_message_elem.
    + split; [by constructor|done].
Qed.

Section WithServices.

Variable World : Type.
Variable utcnow : World -> Z.
Variable fromisoformat : string -> option datetime.
Variable generate_embedding : World -> string -> World * result embedding.
Variable collection_insert :
  World -> string -> string -> embedding -> World * result unit.
Variable collection_flush : World -> World * result unit.
Variable collection_search :
  World -> embedding -> string -> nat -> World * result (list hit).

Lemma context_of_created (s s1 : System World) (chat : string) (c : Context) :
  _get_or_create_context World utcnow s chat = (s1, c) ->
  context_of World utcnow s1 chat = c /\ context_of World utcnow s chat = c.
Proof.
  unfold context_of, _get_or_create_context.
  destruct (active_contexts World s !! chat) as [c0|] eqn:Hc; intros H;
    simplify_eq; simpl.
  - by rewrite Hc.
  - by rewrite lookup_insert_eq.
Qed.

(** The vector store never reaches the index: the read of
    [Context.EMBEDDING_DIMENSION] fails inside the [try]. *)
Lemma search_similar_result (s : System World) (q : embedding)
  (chat : string) (limit : nat) (threshold : Q) :
  search_similar World collection_search s q chat limit threshold
  = (s, if connected (vector_store World s) then Ok []
        else Raise RuntimeError).
Proof. unfold search_similar. by destruct (connected _). Qed.

Lemma store_embedding_result (s : System World) (message_id chat : string)
  (e : embedding) (batch_mode : bool) :
  store_embedding World collection_insert collection_flush s message_id chat
    e batch_mode
  = (s, if connected (vector_store World s) then Ok false
        else Raise RuntimeError).
Proof. unfold store_embedding. by destruct (connected _). Qed.

(** One attempt of [get_relevant_context] asks the provider and raises. *)
Lemma get_relevant_context_body_raises (s : System World)
  (chat query : string) (opts : option options) :
  exists e,
    get_relevant_context_body World utcnow generate_embedding
      collection_search chat query opts s
    = (set_world World s (generate_embedding (world World s) query).1,
       Raise e).
Proof.
  unfold get_relevant_context_body.
  destruct (generate_embedding (world World s) query) as [w1 [q|e]];
    [|eexists; reflexivity].
  destruct opts as [o|]; [|eexists; reflexivity].
  rewrite search_similar_result. cbn [set_world vector_store].
  destruct (connected (vector_store World s)); eexists; reflexivity.
Qed.

(** C5 fails on the code: [get_relevant_context] returns no list at all.
    Whatever the options, each of the three attempts asks the provider
    for the embedding and then raises: [search_similar] returns [[]]
    without searching (or raises when the store is not connected), and
    the manager awaits that list.  The call ends with [RetryError]; the
    contexts and the vector store are as before. *)
Theorem get_relevant_context_never_returns (s : System World)
  (chat query : string) (opts : option options) :
  let out :=
    get_relevant_context World utcnow generate_embedding collection_search
      s chat query opts in
  out.1.2 = Raise RetryError /\
  out.2 = 3%nat /\
  active_contexts World out.1.1 = active_contexts World s /\
  vector_store World out.1.1 = vector_store World s /\
  (forall q limit threshold,
     connected (vector_store World s) = true ->
     search_similar World collection_search s q chat limit threshold
     = (s, Ok [])).
Proof.
  intros out. subst out.
  unfold get_relevant_context, get_relevant_context_decorator, MAX_RETRIES.
  cbn [Retry.retry Retry.configure Retry.decorated Retry.retrying
       Retry.max_attempts Retry.should_retry Retry.attempt].
  destruct (get_relevant_context_body_raises s chat query opts) as [e1 ->].
  cbn [Retry.any_exception].
  set (s1 := set_world World s _).
  destruct (get_relevant_context_body_raises s1 chat query opts) as [e2 ->].
  set (s2 := set_world World s1 _).
  destruct (get_relevant_context_body_raises s2 chat query opts) as [e3 ->].
  repeat (split; [done|]).
  intros q limit threshold Hconnected.
  by rewrite search_similar_result, Hconnected.
Qed.

(** One attempt of the body on a message that lacks a required field:
    [Context.add_message] raises before anything is written. *)
Lemma add_message_to_context_body_rejects (s : System World) (chat : string)
  (m : message) (batch_mode : bool) :
  has_required_fields m = false ->
  let attempt :=
    add_message_to_context_body World utcnow fromisoformat generate_embedding
      collection_insert collection_flush chat m batch_mode s in
  attempt.2 = Raise ValueError /\
  context_of World utcnow attempt.1 chat = context_of World utcnow s chat.
Proof.
  intros Hmissing attempt. subst attempt.
  unfold add_message_to_context_body.
  destruct (_get_or_create_context World utcnow s chat) as [s1 c] eqn:Hctx.
  apply context_of_created in Hctx as [_ Hc].
  unfold add_message. rewrite Hmissing. simpl.
  split; [done|].
  unfold context_of at 1. unfold _get_or_create_context, put_context.
  simpl. rewrite lookup_insert_eq. simpl. by rewrite Hc.
Qed.

(** C6 fails on the code: the decorator of [add_message_to_context] is
    given the two exception types under a keyword [Retrying] does not
    take, so it raises [TypeError] when the class body runs; a call
    cannot raise a validation error, and makes no attempt.  The body of
    the method, run once on a message that lacks a required field, does
    raise [ValueError] and leaves memory, embeddings and group
    dynamics as they were. *)
Theorem add_message_to_context_not_defined (s : System World)
  (chat : string) (m : message) (batch_mode : bool) :
  add_message_to_context_decorator = Raise TypeError /\
  add_message_to_context World utcnow fromisoformat generate_embedding
    collection_insert collection_flush s chat m batch_mode
  = (s, Raise TypeError, 0%nat) /\
  (has_required_fields m = false ->
   let attempt :=
     add_message_to_context_body World utcnow fromisoformat
       generate_embedding collection_insert collection_flush chat m
       batch_mode s in
   attempt.2 = Raise ValueError /\
   short_term_memory (context_of World utcnow attempt.1 chat)
   = short_term_memory (context_of World utcnow s chat) /\
   embeddings (context_of World utcnow attempt.1 chat)
   = embeddings (context_of World utcnow s chat) /\
   group_dynamics (context_of World utcnow attempt.1 chat)
   = group_dynamics (context_of World utcnow s chat)).
Proof.
  split; [reflexivity|]. split; [reflexivity|].
  intros Hmissing attempt.
  destruct (add_message_to_context_body_rejects s chat m batch_mode Hmissing)
    as [Hraise Hsame].
  fold attempt in Hraise, Hsame. by rewrite Hsame.
Qed.

End WithServices.

(** The scenario of the specification,
    [get_relevant_context("c1", "greeting", {threshold: 0.9})] with one
    stored vector at similarity 0.5, and the malformed message: neither
    call returns. *)
Lemma greeting_call_raises :
  Scenario.greeting_call.1.2 = Raise RetryError /\
  Scenario.greeting_call.2 = 3%nat.
Proof. vm_compute. done. Qed.

Lemma malformed_message_call_raises :
  add_message_to_context unit Scenario.fixed_clock Scenario.iso_seconds
    Scenario.embed_zero Scenario.insert_ok Scenario.flush_ok
    Scenario.greeting_system "c1" Scenario.malformed_message false
  = (Scenario.greeting_system, Raise TypeError, 0%nat).
Proof. reflexivity. Qed.

End ManagerFacts.

(** ** The preference model *)

Module PreferenceFacts.
Import Preference.

Section WithLimit.

Variable L : positive.

Lemma update_preference_step (m : PreferenceModel) (c : call) :
  well_formed m ->
  (length (history m) <= Pos.to_nat L)%nat ->
  exists m1,
    update_preference L (call_now c) m (call_data c) (call_confidence c) false
    = (m1, Ok true) /\
    history m1 = last_n (Pos.to_nat L) (history m ++ [snapshot m c]) /\
    version m1 = (version m + 1)%Z /\
    preference_data m1 = call_data c /\
    well_formed m1.
Proof.
  intros (Hlo & Hhi & Hv) Hlen. unfold update_preference, new_entry.
  assert (Qle_bool MIN_CONFIDENCE_SCORE (confidence_score m)
          && Qle_bool (confidence_score m) MAX_CONFIDENCE_SCORE
          && (0 <=? version m)%Z = true) as ->.
  { rewrite !andb_true_iff, !Qle_bool_iff, Z.leb_le. done. }
  eexists. split; [reflexivity|]. simpl.
  split; [|split; [done|split; [done|]]].
  - unfold last_n, snapshot. rewrite length_app. simpl. case_decide as Hd.
    + assert (length (history m) = Pos.to_nat L) as Heq by lia.
      replace (length (history m) + 1 - Pos.to_nat L)%nat with 1%nat by lia.
      rewrite drop_app_le by lia. done.
    + replace (length (history m) + 1 - Pos.to_nat L)%nat with 0%nat by lia.
      done.
  - unfold well_formed. simpl. destruct (call_confidence c) as [q|].
    + destruct (clamp_unit q) as [? ?]. split; [done|]. split; [done|lia].
    + split; [done|]. split; [done|lia].
Qed.

(** Any run of updates: every call succeeds, the version counts the calls,
    and the history is the last [L] of the snapshots taken. *)
Lemma update_all_history (calls : list call) :
  forall m : PreferenceModel,
  well_formed m ->
  (length (history m) <= Pos.to_nat L)%nat ->
  Forall (fun r => r = Ok true) (update_all L m calls).2 /\
  length (update_all L m calls).1.2 = length calls /\
  version (update_all L m calls).1.1 = (version m + Z.of_nat (length calls))%Z /\
  history (update_all L m calls).1.1
  = last_n (Pos.to_nat L)
      (history m ++ zip_with snapshot (update_all L m calls).1.2 calls) /\
  (forall (i : nat) b, (update_all L m calls).1.2 !! i = Some b ->
                       version b = (version m + Z.of_nat i)%Z).
Proof.
  induction calls as [|c rest IH]; intros m Hwf Hlen.
  - simpl. split; [constructor|]. split; [done|]. split; [lia|].
    split; [by rewrite app_nil_r, last_n_short|]. intros i b H. done.
  - destruct (update_preference_step m c Hwf Hlen)
      as (m1 & Hstep & Hhist & Hver & _ & Hwf1).
    simpl. rewrite Hstep.
    destruct (update_all L m1 rest) as [[m2 before] rs] eqn:Hrun.
    specialize (IH m1 Hwf1). rewrite Hrun in IH. simpl in *.
    destruct IH as (IHok & IHlen & IHver & IHhist & IHbefore).
    { rewrite Hhist, last_n_length. lia. }
    split; [by constructor|]. split; [by rewrite IHlen|].
    split; [lia|]. split.
    + rewrite IHhist, Hhist, last_n_app_last_n. by rewrite <- app_assoc.
    + intros [|i] b Hb; simpl in Hb.
      * simplify_eq. lia.
      * rewrite (IHbefore i b Hb). lia.
Qed.

End WithLimit.

(** C2. [K] calls of [update_preference] on a new model, with [K] above
    the history limit [L]: every call succeeds, the history has [L]
    entries, the version is [K], and the history is made of the snapshots
    (data, confidence, version) of the models the calls found, the oldest
    dropped; the model the [i]-th call found had version [i - 1]. *)
Theorem update_preference_history (L : positive) (m : PreferenceModel)
  (calls : list call) :
  history m = [] ->
  version m = 0%Z ->
  (0 <= confidence_score m)%Q /\ (confidence_score m <= 1)%Q ->
  (Pos.to_nat L < length calls)%nat ->
  let final := (update_all L m calls).1.1 in
  let before := (update_all L m calls).1.2 in
  Forall (fun r => r = Ok true) (update_all L m calls).2 /\
  length (history final) = Pos.to_nat L /\
  version final = Z.of_nat (length calls) /\
  history final
  = drop (length calls - Pos.to_nat L) (zip_with snapshot before calls) /\
  (forall (i : nat) b, before !! i = Some b -> version b = Z.of_nat i).
Proof.
  intros Hhist Hver [Hlo Hhi] Hmany final before.
  destruct (update_all_history L calls m) as (Hok & Hlen & Hv & Hh & Hb).
  { unfold well_formed. rewrite Hver. done. }
  { rewrite Hhist. simpl. lia. }
  fold final before in Hlen, Hv, Hh, Hb.
  rewrite Hhist in Hh. simpl in Hh. rewrite Hver in Hv.
  assert (length (zip_with snapshot before calls) = length calls) as Hz.
  { rewrite length_zip_with. lia. }
  split; [done|]. split.
  { rewrite Hh, last_n_length, Hz. lia. }
  split; [by rewrite Hv|]. split.
  { rewrite Hh. unfold last_n. by rewrite Hz. }
  intros i b H. rewrite (Hb i b H), Hver. lia.
Qed.

Lemma update_preference_history_witness :
  let final :=
    (update_all Scenario.test_limit Scenario.chat_model
       Scenario.twelve_updates).1.1 in
  let before :=
    (update_all Scenario.test_limit Scenario.chat_model
       Scenario.twelve_updates).1.2 in
  length (history final) = 10%nat /\
  version final = 12%Z /\
  history final = drop 2 (zip_with snapshot before Scenario.twelve_updates).
Proof.
  destruct (update_preference_history Scenario.test_limit
              Scenario.chat_model Scenario.twelve_updates)
    as (_ & Hlen & Hver & Hhist & _).
  - reflexivity.
  - reflexivity.
  - split; vm_compute; discriminate.
  - vm_compute. lia.
  - split; [exact Hlen|]. split; [exact Hver|exact Hhist].
Defined.

End PreferenceFacts.

(** ** The user profile *)

Module ProfileFacts.
Import Profile.

Lemma ratio_unit (a b : nat) :
  (a <= b)%nat -> (0 < b)%nat ->
  (0 <= inject_Z (Z.of_nat a) / inject_Z (Z.of_nat b))%Q /\
  (inject_Z (Z.of_nat a) / inject_Z (Z.of_nat b) <= 1)%Q.
Proof.
  intros Hab Hb.
  assert (0 < inject_Z (Z.of_nat b))%Q as Hpos.
  { rewrite <- (Zlt_Qlt 0). lia. }
  split.
  - apply Qle_shift_div_l; [done|]. rewrite Qmult_0_l.
    rewrite <- (Zle_Qle 0). lia.
  - apply Qle_shift_div_r; [done|]. rewrite Qmult_1_l.
    rewrite <- Zle_Qle. lia.
Qed.

(** The consistency score is a share: it lies between 0 and 1. *)
Lemma pattern_consistency_unit (entries : list interaction) (d : payload) :
  (0 <= pattern_consistency entries d)%Q /\
  (pattern_consistency entries d <= 1)%Q.
Proof.
  unfold pattern_consistency. destruct entries as [|e entries]; [done|].
  apply ratio_unit.
  - etrans; [apply sublist_length, ManagerFacts.filter_sublist|done].
  - rewrite last_n_length. simpl. lia.
Qed.

(** The validator of the preference model knows none of the types the
    profile supports. *)
Lemma validator_rejects_supported (t user : string) (d : payload) (c : Q)
  (now : Z) :
  supported t = true ->
  PreferenceQueries.PreferenceModel_new user t d c now = Raise ValueError.
Proof.
  intros Hsupported. apply bool_decide_eq_true in Hsupported.
  unfold SUPPORTED_PREFERENCE_TYPES in Hsupported.
  repeat (apply elem_of_cons in Hsupported as [->|Hsupported]; [done|]).
  by apply elem_of_nil in Hsupported.
Qed.

(** The constructor of the profile leaves alone what it holds for a type
    it does not initialise. *)
Lemma init_type_other (now : Z) (p : UserProfile) (t0 t : string) :
  t <> t0 ->
  sample_count_of (init_type now p t0) t = sample_count_of p t /\
  history_length (init_type now p t0) t = history_length p t.
Proof.
  intros Hne. unfold sample_count_of, history_length, init_type.
  destruct (preferences p !! t0); [done|].
  cbn [pattern_metrics interaction_history]. by rewrite !lookup_insert_ne.
Qed.

(** A new profile holds no interaction and a sample count of 0 for each
    type it supports, and nothing for any other type. *)
Lemma new_profile_counts (user t : string) (now : Z) :
  sample_count_of (UserProfile_new user now) t
  = history_length (UserProfile_new user now) t.
Proof.
  destruct (supported t) eqn:Hsupported.
  - apply bool_decide_eq_true in Hsupported.
    unfold SUPPORTED_PREFERENCE_TYPES in Hsupported.
    repeat (apply elem_of_cons in Hsupported as [->|Hsupported]; [done|]).
    by apply elem_of_nil in Hsupported.
  - apply bool_decide_eq_false in Hsupported.
    unfold UserProfile_new, UserProfile_init. revert Hsupported.
    generalize SUPPORTED_PREFERENCE_TYPES as types.
    assert (forall types (p : UserProfile),
               t ∉ types ->
               sample_count_of (foldl (init_type now) p types) t
               = sample_count_of p t /\
               history_length (foldl (init_type now) p types) t
               = history_length p t) as Hfold.
    { induction types as [|t0 types IH]; intros p Hout; [done|].
      apply not_elem_of_cons in Hout as [Hne Hout]. simpl.
      destruct (IH (init_type now p t0) Hout) as [-> ->].
      by apply init_type_other. }
    intros types Hout.
    by destruct (Hfold types (mkProfile user ∅ ∅ ∅ now now ∅ ∅) Hout)
      as [-> ->].
Qed.

Section WithCalendar.

Variable hour weekday isoweek : Z -> Z.
Variable L : positive.

(** Every call of [update_preference] raises [ValueError] and leaves the
    profile as it was: a type that is not supported is refused by the
    method, a supported one by the validator of the preference model the
    method constructs first. *)
Lemma update_preference_raises (now : Z) (p : UserProfile) (t : string)
  (d : payload) (c : Q) (ctx : option payload) :
  update_preference hour weekday isoweek L now p t d c ctx
  = (p, Raise ValueError).
Proof.
  unfold update_preference.
  destruct (supported t) eqn:Hsupported; [|done]. cbn [negb].
  by rewrite validator_rejects_supported.
Qed.

Lemma update_all_unchanged (calls : list (Z * payload * Q)) :
  forall (p : UserProfile) (t : string),
  update_all hour weekday isoweek L p t calls = p.
Proof.
  induction calls as [|[[now d] c] rest IH]; intros p t; [done|].
  simpl. rewrite update_preference_raises. apply IH.
Qed.

(** C3. After any call of [update_preference] the sample count of a type
    equals the number of interactions recorded for it: a call changes
    neither, whatever its arguments, and on a profile reached from a new
    one by any run of calls both are 0 (and absent for a type the profile
    does not support).  The call itself raises [ValueError]. *)
Theorem update_preference_sample_count (user : string) (created : Z)
  (t t' : string) (calls : list (Z * payload * Q)) :
  let p := update_all hour weekday isoweek L (UserProfile_new user created)
             t calls in
  sample_count_of p t' = history_length p t' /\
  (forall (q : UserProfile) (now : Z) (d : payload) (c : Q)
          (ctx : option payload),
     let out := update_preference hour weekday isoweek L now q t d c ctx in
     out.2 = Raise ValueError /\
     sample_count_of out.1 t' = sample_count_of q t' /\
     history_length out.1 t' = history_length q t' /\
     (sample_count_of q t' = history_length q t' ->
      sample_count_of out.1 t' = history_length out.1 t')).
Proof.
  intros p. subst p. rewrite update_all_unchanged.
  split; [apply new_profile_counts|].
  intros q now d c ctx out. subst out. by rewrite update_preference_raises.
Qed.

(** C10 fails on the code: no call of [update_preference] records a
    confidence.  For a supported type the first statement after the type
    check constructs a [PreferenceModel] of that type, and the validator
    of the model refuses it; the call raises [ValueError] and
    [confidence_scores] and [interaction_history] are as before. *)
Theorem update_preference_records_nothing (now : Z) (p : UserProfile)
  (t : string) (d : payload) (c : Q) (ctx : option payload) :
  let out := update_preference hour weekday isoweek L now p t d c ctx in
  out.2 = Raise ValueError /\
  confidence_scores out.1 = confidence_scores p /\
  interaction_history out.1 = interaction_history p /\
  (supported t = true ->
   PreferenceQueries.PreferenceModel_new (user_id p) t ∅ (1 # 2) now
   = Raise ValueError).
Proof.
  intros out. subst out. rewrite update_preference_raises.
  repeat (split; [done|]). apply validator_rejects_supported.
Qed.

End WithCalendar.

(** The first update of a new profile, with confidence 0.8: the
    specification has 0.3 * 0.8 + 0.3 * 0.5 = 0.39 recorded; the call
    raises and the recorded confidence is still 0, with no interaction. *)
Lemma first_update_raises :
  Scenario.first_update.2 = Raise ValueError /\
  confidence_scores Scenario.first_update.1 !! "content" = Some 0%Q /\
  interaction_history Scenario.first_update.1 !! "content" = Some [] /\
  ~ (0 == (3 # 10) * (8 # 10) + (3 # 10) * (1 # 2))%Q.
Proof. vm_compute. repeat split; discriminate. Qed.

End ProfileFacts.

(** ** Predictions *)

Module LearningFacts.
Import Learning.



Example sample_predictions :
  generate_predictions (counts Scenario.sample_buckets) (9 # 10)
  = Ok [mkPrediction "evening" (9 # 10) 7; mkPrediction "week_12" (9 # 10) 5].
Proof. reflexivity. Qed.

(** The profile built for the recomputation has an empty table for every
    type it knows. *)
Lemma new_profile_table (user : string) (now : Z) :
  map_Forall
    (fun _ lp => Profile.temporal_patterns lp = ∅
                 /\ Profile.preference_stability lp = 0%Q)
    (Profile.learning_patterns (Profile.UserProfile_new user now)).
Proof.
  apply map_Forall_to_list. vm_compute. repeat constructor.
Qed.

Lemma consulted_buckets_new (user t : string) (now : Z) :
  consulted_buckets user t now = [].
Proof.
  unfold consulted_buckets.
  destruct (Profile.learning_patterns _ !! t) as [lp|] eqn:Hlp; [|done].
  apply (new_profile_table user now) in Hlp as [-> _].
  apply map_to_list_empty.
Qed.



End LearningFacts.

(** ** Recommendations *)

Module RecommendationFacts.
Import Recommendation.

(** C4 fails on the code at the input of the repository's own score test:
    with no preferences the preference part is 0, but the context part is
    the neutral 0.5 and the diversity part is 1.0, so the score is
    [0.3 * 0.5 + 0.1 * 1.0 = 0.25], not 0.0. *)
Theorem empty_preferences_score (fromisoformat : string -> option datetime)
  (np_cosine : list atom -> list atom -> result Q) :
  (calculate_recommendation_score fromisoformat np_cosine
     Scenario.no_preferences Scenario.test_context Scenario.test_item
     Scenario.no_group == 1 # 4)%Q /\
  ~ (calculate_recommendation_score fromisoformat np_cosine
       Scenario.no_preferences Scenario.test_context Scenario.test_item
       Scenario.no_group == 0)%Q.
Proof.
  assert (calculate_recommendation_score fromisoformat np_cosine
            Scenario.no_preferences Scenario.test_context Scenario.test_item
            Scenario.no_group = 1500 # 6000) as ->
    by (vm_compute; reflexivity).
  split; [reflexivity|]. intros H. discriminate H.
Qed.

Lemma time_score_nonneg (d : Q) :
  (0 <= 1 / (1 + Qabs d / 86400))%Q.
Proof.
  pose proof (Qabs_nonneg d) as Habs.
  assert (0 <= Qabs d / 86400)%Q as Hz.
  { apply Qle_shift_div_l; [reflexivity|]. by rewrite Qmult_0_l. }
  revert Hz. generalize (Qabs d / 86400)%Q. intros z Hz.
  apply Qle_shift_div_l; [lra|]. rewrite Qmult_0_l. discriminate.
Qed.

(** The context relevance, when it is computed, is not negative. *)
Lemma context_relevance_nonneg (fromisoformat : string -> option datetime)
  (context : payload) (i : item) (g : group_dynamics) (cs : Q) :
  _calculate_context_relevance fromisoformat context i g = Ok cs ->
  (0 <= cs)%Q.
Proof.
  unfold _calculate_context_relevance.
  set (times := match context !! "timestamp" with Some _ => _ | None => _ end).
  assert (forall ts, times = Ok ts -> Forall (fun q => (0 <= q)%Q) ts)
    as Htimes.
  { subst times. intros ts.
    destruct (context !! "timestamp") as [stamp|];
      [|intros; simplify_eq; constructor].
    destruct (i !! "valid_period") as [[a|l|d]|];
      try done; [|intros; simplify_eq; constructor].
    destruct (d !! "start") as [[q|start|b]|]; try done.
    destruct (fromisoformat stamp) as [x|]; [|done].
    destruct (fromisoformat start) as [y|]; [|done].
    destruct (datetime_sub x y) as [difference|]; [|done].
    intros [= <-]. constructor; [|constructor]. apply time_score_nonneg. }
  destruct times as [ts|e]; [|done]. specialize (Htimes ts eq_refl).
  set (groups := match active_users g with Some _ => _ | None => _ end).
  assert (forall gs, groups = Ok gs -> Forall (fun q => (0 <= q)%Q) gs)
    as Hgroups.
  { subst groups. intros gs.
    destruct (active_users g) as [[|u us]|];
      try (intros; simplify_eq; constructor).
    destruct (as_set _) as [targets|e]; [|done].
    intros; simplify_eq. constructor; [|constructor].
    apply Qle_shift_div_l.
    - rewrite <- (Zlt_Qlt 0). simpl. lia.
    - rewrite Qmult_0_l, <- (Zle_Qle 0). lia. }
  destruct groups as [gs|e]; [|done]. specialize (Hgroups gs eq_refl).
  destruct (ts ++ gs) as [|q rest] eqn:Hall.
  - intros; simplify_eq. done.
  - intros; simplify_eq. apply Qmean_nonneg. rewrite <- Hall.
    by apply Forall_app.
Qed.

(** With no preferences at all, an item with at least one feature never
    scores 0.0 when its context relevance is computed: the diversity part
    alone contributes 0.1. *)
Lemma empty_preferences_score_at_least
  (fromisoformat : string -> option datetime)
  (np_cosine : list atom -> list atom -> result Q)
  (context : payload) (i : item) (g : group_dynamics) :
  i <> ∅ ->
  is_ok (_calculate_context_relevance fromisoformat context i g) = true ->
  (1 # 10 <= calculate_recommendation_score fromisoformat np_cosine
               (mkPreferences ∅ None) context i g)%Q.
Proof.
  intros Hitem Hok. unfold calculate_recommendation_score.
  destruct (_calculate_context_relevance fromisoformat context i g)
    as [cs|e] eqn:Hcs; [|done].
  apply context_relevance_nonneg in Hcs.
  set (matches := _ <$> map_to_list i).
  assert (Forall (fun q => (q == 0)%Q) matches) as Hzero.
  { subst matches. apply Forall_fmap, Forall_true. intros [k v]. simpl.
    unfold feature_match. case_decide; [reflexivity|]. simpl.
    rewrite lookup_empty. reflexivity. }
  destruct matches as [|q rest] eqn:Hm.
  { subst matches. apply fmap_nil_inv in Hm.
    by apply map_to_list_empty_iff in Hm. }
  apply Qmean_zero in Hzero. simpl.
  set (final := (_ + _ + _)%Q).
  assert (1 # 10 <= final)%Q as Hfinal.
  { subst final. unfold weight_preference, weight_context, weight_diversity.
    rewrite Hzero. lra. }
  assert (1 # 10 <= py_min 1 final)%Q as Hmin.
  { destruct (py_min_spec 1 final) as (_ & _ & [E|E]); rewrite E;
      [discriminate|done]. }
  destruct (py_max_spec 0 (py_min 1 final)) as (_ & Hge & _).
  by eapply Qle_trans.
Qed.

Section WithLibraries.

Variable fromisoformat : string -> option datetime.
Variable np_cosine : list atom -> list atom -> result Q.
Variable _get_from_cache :
  Z -> gmap string (Z * cache_data) -> string -> result returned.
Variable get_group_dynamics : Profile.UserProfile -> group_dynamics.
Variable _generate_agent_candidates :
  user_preferences -> Learning.cached -> option payload -> list item.
Variable _generate_group_candidates :
  string -> user_preferences -> option payload -> list item.
Variable _generate_content_candidates :
  user_preferences -> Learning.cached -> option payload -> list item.

Local Abbreviation body :=
  (get_recommendations_body fromisoformat np_cosine _get_from_cache
     get_group_dynamics _generate_agent_candidates
     _generate_group_candidates _generate_content_candidates).
Local Abbreviation call :=
  (get_recommendations fromisoformat np_cosine _get_from_cache
     get_group_dynamics _generate_agent_candidates
     _generate_group_candidates _generate_content_candidates).

(** A miss is reported as ['miss']: the key is ['misss'], which the
    statistics do not have. *)
Lemma _update_cache_stats_miss (s : Service) :
  _update_cache_stats "miss" s = (s, Raise KeyError).
Proof. reflexivity. Qed.

Lemma _update_cache_stats_frame (result_name : string) (s : Service) :
  let out := _update_cache_stats result_name s in
  _cache out.1 = _cache s /\ generated out.1 = generated s.
Proof.
  unfold _update_cache_stats.
  repeat first [ done | case_decide | case_match ].
Qed.

(** One attempt stores nothing and generates nothing; what it returns is
    what the lookup handed to it. *)
Lemma body_frame (now : Z) (user t : string) (context : option payload)
  (refresh : bool) (s : Service) :
  let out := body now user t context refresh s in
  _cache out.1 = _cache s /\ generated out.1 = generated s /\
  (forall v, out.2 = Ok v ->
     refresh = false /\
     _get_from_cache now (_cache s) (rec_key user t) = Ok v /\
     returned_truthy v = true) /\
  ((refresh = true \/
    forall v, _get_from_cache now (_cache s) (rec_key user t) = Ok v ->
              returned_truthy v = false) ->
   is_ok out.2 = false).
Proof.
  unfold get_recommendations_body.
  destruct (negb (bool_decide (t ∈ SUPPORTED_RECOMMENDATION_TYPES))).
  { cbn [fst snd note_error _cache generated]. done. }
  destruct refresh.
  { cbn [returned_truthy]. rewrite _update_cache_stats_miss.
    cbn [fst snd note_error _cache generated]. done. }
  destruct (_get_from_cache now (_cache s) (rec_key user t))
    as [v|e] eqn:Hlookup.
  2:{ cbn [fst snd note_error _cache generated]. done. }
  destruct (returned_truthy v) eqn:Htruthy.
  - pose proof (_update_cache_stats_frame "hit" s) as [Hcache Hgenerated].
    destruct (_update_cache_stats "hit" s) as [s1 [u|e]];
      cbn [fst snd note_error _cache generated] in *.
    + split; [done|]. split; [done|]. split.
      * intros w [= <-]. done.
      * intros [Hrefresh|Hfalsy]; [done|].
        rewrite (Hfalsy v eq_refl) in Htruthy. done.
    + done.
  - rewrite _update_cache_stats_miss.
    cbn [fst snd note_error _cache generated]. done.
Qed.

(** C8 fails on the code: no call of [get_recommendations] stores a
    result or generates candidates.  A call returns only what the cache
    lookup hands to it; when the lookup finds nothing (or the cache is to
    be refreshed) each of the three attempts raises, because the miss is
    counted under a key the statistics do not have, and the call ends
    with [RetryError].  So a first call that is not answered by the cache
    returns nothing, and leaves nothing for the second. *)
Theorem get_recommendations_stores_nothing (now : Z) (s : Service)
  (user t : string) (context : option payload) (refresh : bool) :
  let out := call now s user t context refresh in
  _cache out.1.1 = _cache s /\ generated out.1.1 = generated s /\
  (forall v, out.1.2 = Ok v ->
     refresh = false /\
     _get_from_cache now (_cache s) (rec_key user t) = Ok v /\
     returned_truthy v = true) /\
  ((refresh = true \/
    forall v, _get_from_cache now (_cache s) (rec_key user t) = Ok v ->
              returned_truthy v = false) ->
   out.1.2 = Raise RetryError /\ out.2 = 3%nat).
Proof.
  intros out. subst out.
  unfold get_recommendations, Retry.retrying, CACHE_RETRY_ATTEMPTS.
  cbn [Retry.attempt].
  destruct (body_frame now user t context refresh s)
    as (Hc1 & Hg1 & Hok1 & Hmiss1).
  destruct (body now user t context refresh s) as [s1 [v1|e1]];
    cbn [fst snd] in *.
  { split; [done|]. split; [done|]. split.
    - intros v [= <-]. by apply Hok1.
    - intros Hmiss. by specialize (Hmiss1 Hmiss). }
  cbn [Retry.any_exception].
  destruct (body_frame now user t context refresh s1)
    as (Hc2 & Hg2 & Hok2 & Hmiss2).
  rewrite Hc1 in Hok2, Hmiss2.
  destruct (body now user t context refresh s1) as [s2 [v2|e2]];
    cbn [fst snd] in *.
  { split; [congruence|]. split; [congruence|]. split.
    - intros v [= <-]. by apply Hok2.
    - intros Hmiss. by specialize (Hmiss2 Hmiss). }
  destruct (body_frame now user t context refresh s2)
    as (Hc3 & Hg3 & Hok3 & Hmiss3).
  rewrite Hc2, Hc1 in Hok3, Hmiss3.
  destruct (body now user t context refresh s2) as [s3 [v3|e3]];
    cbn [fst snd] in *.
  { split; [congruence|]. split; [congruence|]. split.
    - intros v [= <-]. by apply Hok3.
    - intros Hmiss. by specialize (Hmiss3 Hmiss). }
  split; [congruence|]. split; [congruence|]. split; [done|]. done.
Qed.

End WithLibraries.

(** The two calls of the scenario on a service that has cached nothing,
    with a lookup that reads the cache and with the lookup the repository
    has (none): neither call returns, and nothing is generated. *)
Lemma scenario_calls_raise :
  Scenario.first_call.1.2 = Raise RetryError /\
  Scenario.first_call.2 = 3%nat /\
  Scenario.second_call.1.2 = Raise RetryError /\
  generated Scenario.second_call.1.1 = 0%nat /\
  (get_recommendations Scenario.iso_seconds Scenario.refuse_cosine
     Scenario.no_lookup Scenario.group_of_nobody Scenario.propose_nothing
     Scenario.propose_no_group Scenario.propose_nothing 0
     Scenario.idle_service "u1" "content" None false).1.2
  = Raise RetryError.
Proof. vm_compute. done. Qed.

End RecommendationFacts.

(** ** More on the context model *)

Module ContextMoreFacts.
Import ContextModel ContextReading.

Lemma total_insert_fresh {K} `{Countable K} (k : K) (v : Z) (d : gmap K Z) :
  d !! k = None -> total (<[k := v]> d) = (v + total d)%Z.
Proof.
  intros Hk. unfold total.
  rewrite (map_fold_insert_L (fun _ v acc => (v + acc)%Z)); [done| |done].
  intros. lia.
Qed.

Lemma total_delete {K} `{Countable K} (k : K) (v : Z) (d : gmap K Z) :
  d !! k = Some v -> total d = (v + total (delete k d))%Z.
Proof.
  intros Hk. rewrite <- (insert_delete_id d k v Hk) at 1.
  apply total_insert_fresh, lookup_delete_eq.
Qed.

(** Incrementing one counter adds one to the sum of the counters. *)
Lemma total_increment {K} `{Countable K} (k : K) (d : gmap K Z) :
  total (<[k := (default 0 (d !! k) + 1)%Z]> d) = (total d + 1)%Z.
Proof.
  destruct (d !! k) as [v|] eqn:Hk; simpl.
  - rewrite (total_delete k v d Hk), <- insert_delete_eq.
    rewrite total_insert_fresh by apply lookup_delete_eq. lia.
  - rewrite total_insert_fresh by done. lia.
Qed.

Lemma fifo_nonempty_length (l : list message) (m : message) :
  l <> [] -> (1 < length (fifo l m))%nat.
Proof.
  intros Hl. unfold fifo. destruct l as [|x l]; [done|].
  case_decide as Hd; rewrite ?length_drop, !length_app in *; simpl in *;
    unfold MAX_SHORT_TERM_MESSAGES in *; lia.
Qed.

Lemma fifo_last (l : list message) (m : message) : last (fifo l m) = Some m.
Proof.
  unfold fifo. case_decide as Hd; [|by rewrite last_snoc].
  rewrite length_app in Hd. simpl in Hd.
  destruct l as [|x l]; [simpl in Hd; unfold MAX_SHORT_TERM_MESSAGES in Hd; lia|].
  simpl. rewrite drop_0. by rewrite last_snoc.
Qed.

(** The message before the new one is the last message of the old memory. *)
Lemma fifo_previous (l : list message) (m : message) :
  l <> [] -> fifo l m !! (length (fifo l m) - 2)%nat = last l.
Proof.
  intros Hl. rewrite last_lookup. unfold fifo.
  assert (0 < length l)%nat by (destruct l; [done|simpl; lia]).
  case_decide as Hd; rewrite ?length_drop, !length_app in *; simpl in *.
  - rewrite lookup_drop, lookup_app_l
      by (unfold MAX_SHORT_TERM_MESSAGES in *; lia).
    f_equal. unfold MAX_SHORT_TERM_MESSAGES in *. lia.
  - rewrite lookup_app_l by lia. f_equal. lia.
Qed.

Section WithClock.

Variable fromisoformat : string -> option datetime.

(** The whole effect of a message added to messages of its kind: it is
    accepted. *)
Lemma add_message_accepted (a : bool) (now : Z) (c : Context) (m : message) :
  forallb (zoned_message fromisoformat a) (short_term_memory c) = true ->
  zoned_message fromisoformat a m = true ->
  exists sender ts t,
    m !! "sender_id" = Some sender /\
    m !! "timestamp" = Some ts /\ fromisoformat ts = Some t /\
    let c' := (add_message fromisoformat now c m).1 in
    let g := group_dynamics c in
    let g' := group_dynamics c' in
    (add_message fromisoformat now c m).2 = Ok tt /\
    short_term_memory c' = fifo (short_term_memory c) m /\
    embeddings c' = embeddings c /\
    last_updated c' = now /\
    participation_metrics g' = bump sender (participation_metrics g) /\
    topic_flow g' = topic_flow g /\
    match last (short_term_memory c) with
    | None =>
      response_times g' = response_times g /\
      interaction_pairs g' = interaction_pairs g
    | Some prev =>
      exists prev_sender prev_ts prev_t,
        prev !! "sender_id" = Some prev_sender /\
        prev !! "timestamp" = Some prev_ts /\
        fromisoformat prev_ts = Some prev_t /\
        response_times g'
        = <[sender := default [] (response_times g !! sender)
                        ++ [(seconds t - seconds prev_t)%Q]]>
            (response_times g) /\
        interaction_pairs g'
        = bump (prev_sender +:+ "-" +:+ sender) (interaction_pairs g)
    end.
Proof.
  intros Hall Hm.
  destruct (ContextFacts.zoned_fields fromisoformat a m Hm)
    as (Hreq & (ts & t & Hts & Ht & Ha) & (s & Hs)).
  exists s, ts, t. split; [done|]. split; [done|]. split; [done|].
  unfold add_message. rewrite Hreq. simpl.
  rewrite Hts, Hs. simpl. rewrite Ht.
  fold (fifo (short_term_memory c) m).
  destruct (short_term_memory c) as [|x l] eqn:Hmem.
  - simpl. done.
  - assert (x :: l <> []) as Hne by done.
    rewrite <- Hmem in *.
    pose proof (fifo_nonempty_length _ m Hne) as Hlen.
    pose proof (fifo_previous _ m Hne) as Hprev.
    destruct (last (short_term_memory c)) as [prev|] eqn:Hlast.
    2:{ rewrite Hmem in Hlast. by rewrite last_cons in Hlast;
          destruct (last l). }
    assert (zoned_message fromisoformat a prev = true) as Hv.
    { rewrite forallb_forall in Hall. apply Hall, list_elem_of_In.
      rewrite last_lookup in Hlast. apply list_elem_of_lookup. eauto. }
    destruct (ContextFacts.zoned_fields fromisoformat a prev Hv)
      as (_ & (pts & pt & Hpts & Hpt & Hpa) & (ps & Hps)).
    cbn [set_memory short_term_memory].
    destruct (decide (1 < length (fifo (short_term_memory c) m))%nat);
      [|lia].
    rewrite Hprev, Hpts, Hpt. unfold datetime_sub.
    rewrite Ha, Hpa, eqb_reflx, Hps. simpl.
    repeat (split; [done|]). exists ps, pts, pt. done.
Qed.

(** X1. A message whose timestamp does not parse is kept in the memory
    although its call raises [ValueError]; nothing else is written.  The
    call for the next message, however valid, raises [ValueError] as well,
    after that message has been appended and its sender counted: it parses
    the timestamp of the message before it. *)
Theorem undated_message_is_kept (now now2 : Z) (c : Context)
  (m m2 : message) :
  has_required_fields m = true ->
  fromisoformat (default "" (m !! "timestamp")) = None ->
  valid_message fromisoformat m2 = true ->
  let first := add_message fromisoformat now c m in
  let second := add_message fromisoformat now2 first.1 m2 in
  first.2 = Raise ValueError /\
  short_term_memory first.1 = fifo (short_term_memory c) m /\
  group_dynamics first.1 = group_dynamics c /\
  last_updated first.1 = last_updated c /\
  second.2 = Raise ValueError /\
  short_term_memory second.1 = fifo (short_term_memory first.1) m2 /\
  total (participation_metrics (group_dynamics second.1))
  = (total (participation_metrics (group_dynamics c)) + 1)%Z /\
  last_updated second.1 = last_updated c.
Proof.
  intros Hreq Hbad Hm2 first second.
  assert (first = (set_memory c (fifo (short_term_memory c) m),
                   Raise ValueError)) as Hfirst.
  { subst first. unfold add_message. rewrite Hreq. simpl.
    by rewrite Hbad. }
  subst second. rewrite Hfirst. cbn [fst snd].
  repeat (split; [done|]).
  destruct (ContextFacts.valid_fields fromisoformat m2 Hm2)
    as (Hreq2 & (ts & t & Hts & Ht) & (s & Hs)).
  unfold add_message. rewrite Hreq2. simpl.
  rewrite Hts, Hs. simpl. rewrite Ht.
  fold (fifo (fifo (short_term_memory c) m) m2).
  assert (fifo (short_term_memory c) m <> []) as Hne.
  { intros Hnil. pose proof (fifo_last (short_term_memory c) m) as Hl.
    by rewrite Hnil in Hl. }
  pose proof (fifo_nonempty_length _ m2 Hne) as Hlen.
  pose proof (fifo_previous _ m2 Hne) as Hprev.
  rewrite fifo_last in Hprev.
  destruct (decide (1 < length (fifo (fifo (short_term_memory c) m) m2))%nat);
    [|lia].
  rewrite Hprev.
  assert (exists bad, m !! "timestamp" = Some bad) as [bad Hbadts].
  { unfold has_required_fields in Hreq. simpl in Hreq.
    repeat (apply andb_true_iff in Hreq as [?%bool_decide_eq_true Hreq]).
    match goal with H : is_Some (m !! "timestamp") |- _ =>
      destruct H as [b Hb]; by exists b end. }
  rewrite Hbadts in Hbad |- *. simpl in Hbad. rewrite Hbad. simpl.
  repeat (split; [done|]). split; [|done].
  apply total_increment.
Qed.

End WithClock.

Lemma undated_message_is_kept_witness :
  let first :=
    add_message Scenario.iso_seconds 10 Examples.small_context
      Examples.undated_message in
  let second :=
    add_message Scenario.iso_seconds 11 first.1 (Scenario.test_message 3) in
  first.2 = Raise ValueError /\ second.2 = Raise ValueError /\
  length (short_term_memory second.1) = 5%nat.
Proof.
  destruct (undated_message_is_kept Scenario.iso_seconds 10 11 Examples.small_context
              Examples.undated_message (Scenario.test_message 3))
    as (H1 & _ & _ & _ & H2 & H3 & _).
  - vm_compute. reflexivity.
  - vm_compute. reflexivity.
  - vm_compute. reflexivity.
  - split; [exact H1|]. split; [exact H2|].
    cbv zeta in H3. rewrite H3. vm_compute. reflexivity.
Defined.

End ContextMoreFacts.

Module ContextSequenceFacts.
Import ContextModel ContextReading.

(** X2. Every accepted message is counted once.  After [N] messages
    whose timestamps are well formed and of one kind (all with an offset
    or all without) have been added to a context whose stored messages
    are of that kind, the participation counters sum to [N] more than
    before, and the interaction-pair counters to [N] more, or [N - 1]
    more when the memory was empty (the first message of a conversation
    answers nobody). *)
Theorem add_messages_counts (fromisoformat : string -> option datetime)
  (a : bool) (calls : list (Z * message)) :
  forall c : Context,
  forallb (zoned_message fromisoformat a) (short_term_memory c) = true ->
  forallb (fun call => zoned_message fromisoformat a call.2) calls = true ->
  let g := group_dynamics c in
  let g' := group_dynamics (add_messages fromisoformat c calls).1 in
  total (participation_metrics g')
  = (total (participation_metrics g) + Z.of_nat (length calls))%Z /\
  total (interaction_pairs g')
  = (total (interaction_pairs g)
     + match short_term_memory c with
       | [] => Z.of_nat (Nat.pred (length calls))
       | _ => Z.of_nat (length calls)
       end)%Z.
Proof.
  induction calls as [|[now m] rest IH]; intros c Hall Hcalls.
  { simpl. split; [lia|]. destruct (short_term_memory c); lia. }
  simpl in Hcalls. apply andb_true_iff in Hcalls as [Hm Hrest].
  destruct (ContextMoreFacts.add_message_accepted fromisoformat a now c m
              Hall Hm)
    as (s & ts & t & _ & _ & _ & Hok & Hmem & _ & _ & Hpart & _ & Hpairs).
  cbn [add_messages].
  destruct (add_message fromisoformat now c m) as [c1 r] eqn:Hadd.
  cbn [fst snd] in *.
  destruct (add_messages fromisoformat c1 rest) as [c2 rs] eqn:Hrun.
  specialize (IH c1). rewrite Hrun in IH. cbn [fst snd] in *.
  destruct IH as [IHpart IHpairs].
  { rewrite Hmem. by apply ContextFacts.fifo_forallb. }
  { done. }
  assert (short_term_memory c1 <> []) as Hne.
  { rewrite Hmem. intros Hnil.
    pose proof (ContextMoreFacts.fifo_last (short_term_memory c) m) as Hl.
    by rewrite Hnil in Hl. }
  split.
  - rewrite IHpart, Hpart. unfold bump.
    rewrite ContextMoreFacts.total_increment. simpl length. lia.
  - rewrite IHpairs.
    destruct (short_term_memory c1) as [|y l1] eqn:Hmem1; [done|].
    destruct (short_term_memory c) as [|x l]; simpl in Hpairs.
    + destruct Hpairs as [_ ->]. simpl length. lia.
    + destruct (last (x :: l)) as [prev|] eqn:Hlast.
      * destruct Hpairs as (ps & pts & pt & _ & _ & _ & _ & ->).
        unfold bump. rewrite ContextMoreFacts.total_increment.
        simpl length. lia.
      * rewrite last_cons in Hlast. by destruct (last l).
Qed.

Lemma add_messages_counts_witness :
  let g :=
    group_dynamics
      (add_messages Scenario.iso_seconds (Context_init "c1" 0)
         (Scenario.test_calls 51)).1 in
  total (participation_metrics g) = 51%Z /\
  total (interaction_pairs g) = 50%Z.
Proof.
  destruct (add_messages_counts Scenario.iso_seconds false
              (Scenario.test_calls 51) (Context_init "c1" 0))
    as [Hp Hi].
  - reflexivity.
  - vm_compute. reflexivity.
  - split; [exact Hp|exact Hi].
Defined.

(** X3. A call of [add_message] that returns refreshes the context: it
    is stale at a later time exactly when more than 24 hours have passed
    since the message was added.  A call that raises does not refresh
    it, even where the message has been appended before.  A message
    whose timestamp is well formed and of the kind of the stored ones is
    accepted. *)
Theorem add_message_refreshes (fromisoformat : string -> option datetime)
  (now later : Z) (c : Context) (m : message) :
  let out := add_message fromisoformat now c m in
  (out.2 = Ok tt ->
   last_updated out.1 = now /\
   (is_stale later out.1 = true <-> (24 * 3600 < later - now)%Z)) /\
  (is_ok out.2 = false ->
   last_updated out.1 = last_updated c /\
   is_stale later out.1 = is_stale later c) /\
  (forall a : bool,
     forallb (zoned_message fromisoformat a) (short_term_memory c) = true ->
     zoned_message fromisoformat a m = true ->
     out.2 = Ok tt).
Proof.
  intros out. split; [|split].
  - subst out. unfold add_message, is_stale, MAX_CONTEXT_AGE_HOURS.
    repeat first [ case_match | case_decide ];
      cbn [fst snd last_updated set_last_updated set_dynamics set_memory];
      (let Hout := fresh "Hout" in
       intros Hout; try discriminate Hout);
      by rewrite bool_decide_eq_true.
  - subst out. unfold add_message, is_stale.
    repeat first [ case_match | case_decide ];
      cbn [fst snd last_updated set_last_updated set_dynamics set_memory
           is_ok];
      (let Hout := fresh "Hout" in
       intros Hout; try discriminate Hout); done.
  - intros a Hall Hm.
    by destruct (ContextMoreFacts.add_message_accepted fromisoformat a now
                   c m Hall Hm)
      as (s & ts & t & _ & _ & _ & Hok & _).
Qed.

Lemma mapM_ids (l : list message) :
  Forall (fun msg : message => is_Some (msg !! "message_id")) l ->
  mapM (fun msg : message => msg !! "message_id") l
  = Some (omap (fun msg : message => msg !! "message_id") l).
Proof.
  intros H. apply mapM_Some. induction H as [|msg l [i Hi] _ IH]; simpl.
  - constructor.
  - rewrite Hi. simpl. by constructor.
Qed.

(** X4. [get_recent_context] with a positive limit returns the most recent
    messages, at most [limit] of them, in order, together with exactly
    those stored embeddings that belong to one of them. *)
Theorem get_recent_context_positive (limit : Z) (c : Context) :
  (0 < limit)%Z ->
  Forall (fun msg : message => is_Some (msg !! "message_id"))
    (short_term_memory c) ->
  exists msgs embs,
    get_recent_context limit c = Ok (msgs, embs) /\
    msgs = last_n (Z.to_nat limit) (short_term_memory c) /\
    length msgs = (length (short_term_memory c) `min` Z.to_nat limit)%nat /\
    (forall k e, embs !! k = Some e <->
                 embeddings c !! k = Some e /\
                 k ∈ omap (fun msg : message => msg !! "message_id") msgs).
Proof.
  intros Hpos Hids. unfold get_recent_context.
  set (memory := short_term_memory c) in *.
  assert ((if (0 <? Z.min limit (Z.of_nat (length memory)))%Z
           then last_n (Z.to_nat (Z.min limit (Z.of_nat (length memory))))
                  memory
           else drop (Z.to_nat (- Z.min limit (Z.of_nat (length memory))))
                  memory)
          = last_n (Z.to_nat limit) memory) as ->.
  { destruct (0 <? Z.min limit (Z.of_nat (length memory)))%Z eqn:Hk.
    - apply Z.ltb_lt in Hk. unfold last_n. f_equal. lia.
    - apply Z.ltb_ge in Hk.
      assert (length memory = 0)%nat as Hz by lia.
      apply nil_length_inv in Hz. rewrite Hz. by rewrite !drop_nil. }
  assert (Forall (fun msg : message => is_Some (msg !! "message_id"))
            (last_n (Z.to_nat limit) memory)) as Hsub.
  { unfold last_n. by apply Forall_drop. }
  rewrite (mapM_ids _ Hsub).
  eexists _, _. split; [reflexivity|]. split; [done|].
  split; [apply last_n_length|].
  intros k e. rewrite map_lookup_filter_Some. done.
Qed.

Lemma get_recent_context_positive_witness :
  exists msgs embs,
    get_recent_context 2 Examples.small_context = Ok (msgs, embs) /\
    msgs = [Scenario.test_message 1; Scenario.test_message 2] /\
    length msgs = 2%nat.
Proof.
  destruct (get_recent_context_positive 2 Examples.small_context)
    as (msgs & embs & Hcall & Hmsgs & Hlen & _).
  - lia.
  - apply (bool_decide_eq_true_1 _). vm_compute. reflexivity.
  - exists msgs, embs. split; [exact Hcall|]. split.
    + rewrite Hmsgs. vm_compute. reflexivity.
    + rewrite Hlen. vm_compute. reflexivity.
Defined.

(** X5. With a limit that is not positive [get_recent_context] returns
    the memory from position [-limit] on: the whole memory for limit 0,
    and for a negative limit the memory without its first [-limit]
    messages (nothing when it holds no more than that). *)
Theorem get_recent_context_not_positive (limit : Z) (c : Context) :
  (limit <= 0)%Z ->
  Forall (fun msg : message => is_Some (msg !! "message_id"))
    (short_term_memory c) ->
  exists embs,
    get_recent_context limit c
    = Ok (drop (Z.to_nat (- limit)) (short_term_memory c), embs) /\
    (limit = 0%Z ->
     get_recent_context limit c = Ok (short_term_memory c, embs)).
Proof.
  intros Hneg Hids. unfold get_recent_context.
  replace (Z.min limit (Z.of_nat (length (short_term_memory c))))
    with limit by lia.
  assert ((0 <? limit)%Z = false) as -> by (apply Z.ltb_ge; lia).
  rewrite (mapM_ids _ (Forall_drop _ _ _ Hids)).
  eexists. split; [reflexivity|]. intros ->. done.
Qed.

Lemma get_recent_context_not_positive_witness :
  exists embs,
    get_recent_context 0 Examples.small_context
    = Ok (short_term_memory Examples.small_context, embs).
Proof.
  destruct (get_recent_context_not_positive 0 Examples.small_context)
    as (embs & _ & Hzero).
  - lia.
  - apply (bool_decide_eq_true_1 _). vm_compute. reflexivity.
  - exists embs. by apply Hzero.
Defined.

(** X6. [update_embeddings] with a vector of the right dimension stores
    it only if the message is in the memory: afterwards the embeddings are
    the old ones with the new one added, restricted to the ids of the
    stored messages.  An embedding for a message that is not in the memory
    is dropped at once. *)
Theorem update_embeddings_lookup (now : Z) (c : Context)
  (message_id : string) (e : embedding) :
  length e = EMBEDDING_DIMENSION ->
  Forall (fun msg : message => is_Some (msg !! "message_id"))
    (short_term_memory c) ->
  let out := update_embeddings now c message_id e in
  out.2 = Ok tt /\
  short_term_memory out.1 = short_term_memory c /\
  last_updated out.1 = now /\
  (forall k, embeddings out.1 !! k
             = if decide (k ∈ stored_ids c)
               then (if decide (k = message_id) then Some e
                     else embeddings c !! k)
               else None).
Proof.
  intros Hdim Hids out. subst out. unfold update_embeddings.
  rewrite Hdim, Nat.eqb_refl. cbn [negb].
  unfold current_message_ids. cbn [set_last_updated set_embeddings
    short_term_memory].
  rewrite (mapM_ids _ Hids). cbn [fst snd short_term_memory embeddings
    last_updated].
  repeat (split; [done|]). intros k. unfold stored_ids.
  change (embeddings (set_last_updated
            (set_embeddings c (<[message_id:=e]> (embeddings c))) now))
    with (<[message_id:=e]> (embeddings c)).
  destruct (decide (k ∈ _)) as [Hin|Hout].
  - destruct (decide (k = message_id)) as [->|Hne].
    + apply map_lookup_filter_Some. by rewrite lookup_insert_eq.
    + destruct (embeddings c !! k) as [v|] eqn:Hk.
      * apply map_lookup_filter_Some. by rewrite lookup_insert_ne.
      * apply map_lookup_filter_None. left. by rewrite lookup_insert_ne.
  - apply map_lookup_filter_None. right. intros v _. done.
Qed.

Lemma update_embeddings_lookup_witness :
  let out :=
    update_embeddings 10 Examples.small_context "msg_77"
      Scenario.zero_embedding in
  out.2 = Ok tt /\ embeddings out.1 !! "msg_77" = None /\
  embeddings out.1 !! "msg_01" = Some Scenario.zero_embedding.
Proof.
  destruct (update_embeddings_lookup 10 Examples.small_context "msg_77"
              Scenario.zero_embedding) as (Hok & _ & _ & Hlook).
  - vm_compute. reflexivity.
  - apply (bool_decide_eq_true_1 _). vm_compute. reflexivity.
  - split; [exact Hok|]. split.
    + rewrite Hlook. vm_compute. reflexivity.
    + rewrite Hlook. vm_compute. reflexivity.
Defined.

End ContextSequenceFacts.

(** ** Sums of counters and of floats *)

Module SumFacts.

Lemma total_nonneg {K} `{Countable K} (d : gmap K Z) :
  map_Forall (fun _ v => (0 <= v)%Z) d -> (0 <= total d)%Z.
Proof.
  induction d as [|k v d Hk IH] using map_ind; intros Hall.
  - unfold total. by rewrite map_fold_empty.
  - apply map_Forall_insert in Hall as [Hv Hall]; [|done].
    rewrite ContextMoreFacts.total_insert_fresh by done.
    specialize (IH Hall). lia.
Qed.

Lemma Qsum_le_length (l : list Q) :
  Forall (fun q => (q <= 1)%Q) l ->
  (Qsum l <= inject_Z (Z.of_nat (length l)))%Q.
Proof.
  induction 1 as [|q l Hq _ IH]; simpl length; [done|].
  rewrite Nat2Z.inj_succ, <- Z.add_1_l, inject_Z_plus. simpl Qsum.
  by apply Qplus_le_compat.
Qed.

Lemma Qmean_le_one (l : list Q) :
  l <> [] -> Forall (fun q => (q <= 1)%Q) l -> (Qmean l <= 1)%Q.
Proof.
  intros Hne Hall. unfold Qmean. apply Qle_shift_div_r.
  - rewrite <- (Zlt_Qlt 0). destruct l; [done|]. simpl. lia.
  - rewrite Qmult_1_l. by apply Qsum_le_length.
Qed.

(** A share [a / b] of a part in a whole. *)
Lemma share_unit (a b : nat) :
  (a <= b)%nat -> (0 < b)%nat ->
  (0 <= inject_Z (Z.of_nat a) / inject_Z (Z.of_nat b))%Q /\
  (inject_Z (Z.of_nat a) / inject_Z (Z.of_nat b) <= 1)%Q.
Proof.
  intros Hab Hb.
  assert (0 < inject_Z (Z.of_nat b))%Q as Hpos.
  { rewrite <- (Zlt_Qlt 0). lia. }
  split.
  - apply Qle_shift_div_l; [done|]. rewrite Qmult_0_l.
    rewrite <- (Zle_Qle 0). lia.
  - apply Qle_shift_div_r; [done|]. rewrite Qmult_1_l.
    rewrite <- Zle_Qle. lia.
Qed.

End SumFacts.

(** ** The context manager: dynamics, cleanup and retries *)

Module ManagerMoreFacts.
Import ContextModel ContextManager Dynamics.

Section WithServices.

Variable World : Type.
Variable utcnow : World -> Z.
Variable generate_embedding : World -> string -> World * result embedding.
Variable collection_search :
  World -> embedding -> string -> nat -> World * result (list hit).

Local Abbreviation System := (System World).
Local Abbreviation context_of := (context_of World utcnow).
Local Abbreviation get_group_dynamics := (get_group_dynamics World utcnow).
Local Abbreviation cleanup := (cleanup World utcnow).

(** X7. When at least one interaction is recorded for a conversation,
    [get_group_dynamics] reports one interaction strength per recorded
    pair: the count of the pair divided by the total of the counts.  A
    pair that interacted at least as often as another has at least its
    strength, and where no count is negative every strength lies between
    0 and 1.  [total_messages] is the sum of the participation
    counters. *)
Theorem get_group_dynamics_strengths (s : System) (chat : string) :
  let g := group_dynamics (context_of s chat) in
  (0 < total (interaction_pairs g))%Z ->
  exists d,
    (get_group_dynamics s chat).2 = Ok d /\
    dom (interaction_strength d) = dom (interaction_pairs g) /\
    (forall pair count,
       interaction_pairs g !! pair = Some count ->
       interaction_strength d !! pair
       = Some (inject_Z count / inject_Z (total (interaction_pairs g)))%Q) /\
    (forall pair1 pair2 count1 count2 q1 q2,
       interaction_pairs g !! pair1 = Some count1 ->
       interaction_pairs g !! pair2 = Some count2 ->
       (count1 <= count2)%Z ->
       interaction_strength d !! pair1 = Some q1 ->
       interaction_strength d !! pair2 = Some q2 ->
       (q1 <= q2)%Q) /\
    (map_Forall (fun _ count => (0 <= count)%Z) (interaction_pairs g) ->
     map_Forall (fun _ q => (0 <= q)%Q /\ (q <= 1)%Q)
       (interaction_strength d)) /\
    total_messages d = total (participation_metrics g).
Proof.
  intros g Hpos. subst g. unfold get_group_dynamics, Dynamics.get_group_dynamics.
  unfold context_of, ContextManager.context_of in *.
  destruct (_get_or_create_context World utcnow s chat) as [s1 c].
  cbn [fst snd] in *. eexists. split; [reflexivity|].
  unfold dynamics_of. cbn [interaction_strength total_messages].
  apply Z.ltb_lt in Hpos as Hguard. rewrite Hguard.
  set (pairs := interaction_pairs (group_dynamics c)) in *.
  assert (0 < inject_Z (total pairs))%Q as Hq
    by (rewrite <- (Zlt_Qlt 0); done).
  assert (forall pair count,
             pairs !! pair = Some count ->
             ((fun count => (inject_Z count / inject_Z (total pairs))%Q)
                <$> pairs) !! pair
             = Some (inject_Z count / inject_Z (total pairs))%Q) as Hlookup.
  { intros pair count Hpair. by rewrite lookup_fmap, Hpair. }
  split; [by rewrite dom_fmap_L|]. split; [done|]. split.
  { intros pair1 pair2 count1 count2 q1 q2 H1 H2 Hle Hq1 Hq2.
    rewrite (Hlookup _ _ H1) in Hq1. rewrite (Hlookup _ _ H2) in Hq2.
    simplify_eq. unfold Qdiv. apply Qmult_le_compat_r.
    - by rewrite <- Zle_Qle.
    - apply Qlt_le_weak, Qinv_lt_0_compat. done. }
  split; [|done].
  intros Hnonneg pair q Hpair. rewrite lookup_fmap in Hpair.
  destruct (pairs !! pair) as [count|] eqn:Hcount; [|done].
  simpl in Hpair. simplify_eq.
  pose proof (Hnonneg pair count Hcount) as Hcount0. simpl in Hcount0.
  assert (count <= total pairs)%Z as Hbound.
  { rewrite (ContextMoreFacts.total_delete pair count pairs Hcount).
    pose proof (SumFacts.total_nonneg (delete pair pairs)) as Hrest.
    cut (0 <= total (delete pair pairs))%Z; [lia|]. apply Hrest.
    intros k v Hk. apply lookup_delete_Some in Hk as [_ Hk].
    by apply (Hnonneg k v). }
  split.
  - apply Qle_shift_div_l; [done|]. rewrite Qmult_0_l.
    by rewrite <- (Zle_Qle 0).
  - apply Qle_shift_div_r; [done|]. rewrite Qmult_1_l.
    by rewrite <- Zle_Qle.
Qed.

(** X8. [get_group_dynamics] reads, but it creates the context of a
    conversation it does not know: the answer for such a conversation is
    all empty, and in every case a second request changes nothing and is
    answered as the first. *)
Theorem get_group_dynamics_creates (s : System) (chat : string) :
  let first := get_group_dynamics s chat in
  get_group_dynamics first.1 chat = first /\
  (forall other, other <> chat ->
     active_contexts World first.1 !! other = active_contexts World s !! other) /\
  (active_contexts World s !! chat = None ->
   active_contexts World first.1 !! chat
   = Some (Context_init chat (utcnow (world World s))) /\
   first.2 = Ok (mkDynamicsView ∅ ∅ ∅ 0 0)).
Proof.
  unfold get_group_dynamics, Dynamics.get_group_dynamics,
    _get_or_create_context.
  destruct (active_contexts World s !! chat) as [c|] eqn:Hc; cbn [fst snd].
  - rewrite Hc. done.
  - unfold set_contexts. cbn [active_contexts]. rewrite lookup_insert_eq.
    split; [done|]. split.
    + intros other Hne. by rewrite lookup_insert_ne.
    + intros _. split; [done|]. reflexivity.
Qed.

(** X9. One sweep of the cleanup keeps exactly the conversations whose
    context is not stale, touches neither the index nor the services, and
    a second sweep at the same time removes nothing more; a conversation
    that was stale starts again from an empty context. *)
Theorem cleanup_keeps_fresh (s : System) :
  let now := utcnow (world World s) in
  (forall chat c,
     active_contexts World (cleanup s) !! chat = Some c
     <-> active_contexts World s !! chat = Some c /\ is_stale now c = false) /\
  vector_store World (cleanup s) = vector_store World s /\
  world World (cleanup s) = world World s /\
  cleanup (cleanup s) = cleanup s /\
  (forall chat,
     (forall c, active_contexts World s !! chat = Some c ->
                is_stale now c = true) ->
     context_of (cleanup s) chat = Context_init chat now).
Proof.
  intros now. subst now.
  unfold cleanup, ContextManager.cleanup, set_contexts.
  cbn [active_contexts vector_store world].
  split; [intros chat c; by rewrite map_lookup_filter_Some|].
  split; [done|]. split; [done|]. split.
  - f_equal. apply map_eq. intros chat. apply option_eq. intros c.
    rewrite !map_lookup_filter_Some. tauto.
  - intros chat Hstale.
    unfold context_of, ContextManager.context_of, _get_or_create_context.
    cbn [active_contexts world].
    destruct (filter _ _ !! chat) as [c|] eqn:Hc; [|done].
    apply map_lookup_filter_Some in Hc as [Hc Hfresh]. simpl in Hfresh.
    apply Hstale in Hc. congruence.
Qed.

Lemma get_relevant_context_body_none (s : System) (chat query : string) :
  exists e,
    get_relevant_context_body World utcnow generate_embedding
      collection_search chat query None s
    = (set_world World s (generate_embedding (world World s) query).1,
       Raise e).
Proof.
  unfold get_relevant_context_body.
  destruct (generate_embedding (world World s) query) as [w1 [q|e]];
    eexists; reflexivity.
Qed.

(** X10. [get_relevant_context] called without an options dict never
    answers: each of the three attempts asks the provider for the
    embedding of the query and then fails on [options.get], and the call
    ends with tenacity's [RetryError]; contexts and index are untouched. *)
Theorem get_relevant_context_none_retries (s : System)
  (chat query : string) :
  let out :=
    get_relevant_context World utcnow generate_embedding collection_search
      s chat query None in
  let ask := fun w => (generate_embedding w query).1 in
  out.1.2 = Raise RetryError /\
  out.2 = 3%nat /\
  world World out.1.1 = ask (ask (ask (world World s))) /\
  active_contexts World out.1.1 = active_contexts World s /\
  vector_store World out.1.1 = vector_store World s.
Proof.
  intros out ask. subst out ask.
  unfold get_relevant_context, get_relevant_context_decorator, MAX_RETRIES.
  cbn [Retry.retry Retry.configure Retry.decorated Retry.retrying
       Retry.max_attempts Retry.should_retry Retry.attempt].
  destruct (get_relevant_context_body_none s chat query) as [e1 ->].
  cbn [Retry.any_exception].
  set (s1 := set_world World s _).
  destruct (get_relevant_context_body_none s1 chat query) as [e2 ->].
  set (s2 := set_world World s1 _).
  destruct (get_relevant_context_body_none s2 chat query) as [e3 ->].
  done.
Qed.

End WithServices.

Lemma get_group_dynamics_strengths_witness :
  exists d,
    (get_group_dynamics unit Scenario.fixed_clock Examples.small_system
       "c1").2 = Ok d /\
    interaction_strength d !! "user_00-user_01" = Some (1 / 2)%Q /\
    total_messages d = 3%Z.
Proof.
  destruct (get_group_dynamics_strengths unit Scenario.fixed_clock
              Examples.small_system "c1")
    as (d & Hd & _ & Hstrength & _ & _ & Htotal).
  - vm_compute. reflexivity.
  - exists d. split; [exact Hd|]. split.
    + rewrite (Hstrength "user_00-user_01" 1%Z); [|vm_compute; reflexivity].
      vm_compute. reflexivity.
    + rewrite Htotal. vm_compute. reflexivity.
Defined.

End ManagerMoreFacts.

(** ** Lists: filters and slices *)

Module ListFacts.

Lemma Forall_sublist_of {A} (P : A -> Prop) (l1 l2 : list A) :
  l1 `sublist_of` l2 -> Forall P l2 -> Forall P l1.
Proof.
  rewrite !Forall_forall. intros Hsub Hall x Hx.
  apply Hall. by eapply elem_of_sublist.
Qed.

Lemma List_filter_sublist {A} (f : A -> bool) (l : list A) :
  List.filter f l `sublist_of` l.
Proof.
  induction l as [|x l IH]; simpl; [constructor|].
  destruct (f x); by constructor.
Qed.

Lemma List_filter_Forall {A} (f : A -> bool) (l : list A) :
  Forall (fun x => f x = true) (List.filter f l).
Proof.
  induction l as [|x l IH]; simpl; [constructor|].
  destruct (f x) eqn:Hx; [by constructor|done].
Qed.

Lemma List_filter_length {A} (f : A -> bool) (l : list A) :
  (length (List.filter f l) <= length l)%nat.
Proof. apply sublist_length, List_filter_sublist. Qed.

Lemma last_n_sublist {A} (n : nat) (l : list A) : last_n n l `sublist_of` l.
Proof. apply sublist_drop. Qed.

Lemma remove_dups_length {A} `{EqDecision A} (l : list A) :
  (length (remove_dups l) <= length l)%nat.
Proof.
  induction l as [|x l IH]; simpl; [done|].
  destruct (decide_rel _ x l); simpl; lia.
Qed.

Lemma remove_dups_nonempty {A} `{EqDecision A} (l : list A) :
  l <> [] -> (1 <= length (remove_dups l))%nat.
Proof.
  induction l as [|x l IH]; [done|]. intros _. simpl.
  destruct (decide_rel _ x l) as [Hin|]; [|simpl; lia].
  apply IH. intros ->. by apply elem_of_nil in Hin.
Qed.

Lemma remove_dups_NoDup {A} `{EqDecision A} (l : list A) :
  NoDup l -> remove_dups l = l.
Proof.
  induction 1 as [|x l Hx _ IH]; simpl; [done|].
  destruct (decide_rel _ x l); [done|]. by rewrite IH.
Qed.

Lemma remove_dups_constant {A} `{EqDecision A} (d : A) (l : list A) :
  l <> [] -> Forall (fun x => x = d) l -> remove_dups l = [d].
Proof.
  induction l as [|x l IH]; [done|]. intros _ Hall.
  apply Forall_cons in Hall as [-> Hall]. simpl.
  destruct l as [|y l]; [done|].
  destruct (decide_rel _ d (y :: l)) as [_|Hout]; [by apply IH|].
  apply Forall_cons in Hall as [-> _]. exfalso. apply Hout. by left.
Qed.

End ListFacts.

(** ** The preference model: construction and history queries *)

Module PreferenceMoreFacts.
Import Preference PreferenceQueries.

Lemma slice_last_sublist {A} (k : Z) (l : list A) :
  slice_last k l `sublist_of` l.
Proof. unfold slice_last. destruct (0 <? k)%Z; apply sublist_drop. Qed.

(** X11. [get_history] returns entries of the history, in their order,
    each within the dates and at or above the confidence asked for.  A
    positive limit keeps the last [limit] of these; limit 0 is no limit;
    a negative limit drops the oldest [-limit] of them instead. *)
Theorem get_history_filters (m : PreferenceModel) (limit : option Z)
  (start_date end_date : option Z) (min_confidence : option Q) :
  let found := get_history m limit start_date end_date min_confidence in
  let unlimited := get_history m None start_date end_date min_confidence in
  found `sublist_of` history m /\
  Forall (passes start_date end_date min_confidence) found /\
  (forall k, limit = Some k -> (0 < k)%Z ->
     found = last_n (Z.to_nat k) unlimited /\
     (length found <= Z.to_nat k)%nat) /\
  (limit = Some 0%Z -> found = unlimited) /\
  (forall k, limit = Some k -> (k < 0)%Z ->
     found = drop (Z.to_nat (- k)) unlimited).
Proof.
  intros found unlimited.
  assert (unlimited `sublist_of` history m /\
          Forall (passes start_date end_date min_confidence) unlimited)
    as [Hsub Hall].
  { subst unlimited. unfold get_history.
    set (dated := match start_date, end_date with
                  | None, None => history m
                  | _, _ => List.filter _ (history m)
                  end).
    assert (dated `sublist_of` history m /\
            Forall (fun entry =>
                      (forall s, start_date = Some s ->
                                 (s <= timestamp entry)%Z) /\
                      (forall e, end_date = Some e ->
                                 (timestamp entry <= e)%Z)) dated)
      as [Hd1 Hd2].
    { subst dated. destruct start_date as [s|], end_date as [e|].
      4:{ split; [done|]. apply Forall_forall. intros x _. done. }
      all: split; [apply ListFacts.List_filter_sublist|].
      all: eapply Forall_impl; [apply ListFacts.List_filter_Forall|].
      all: intros entry Hentry; cbv beta iota in Hentry.
      all: apply andb_true_iff in Hentry as [H1 H2].
      all: rewrite ?Z.leb_le in *.
      all: split; intros ? [= <-]; done. }
    destruct min_confidence as [q|].
    - split.
      + etrans; [apply ListFacts.List_filter_sublist|done].
      + apply Forall_forall. intros entry Hentry.
        pose proof (ListFacts.List_filter_Forall
                      (fun entry => Qle_bool q (entry_confidence_score entry))
                      dated) as Hq.
        rewrite Forall_forall in Hq. specialize (Hq entry Hentry).
        apply Qle_bool_iff in Hq.
        pose proof (elem_of_sublist _ _ _ Hentry
                      (ListFacts.List_filter_sublist _ dated)) as Hin.
        rewrite Forall_forall in Hd2. destruct (Hd2 entry Hin) as [? ?].
        split; [done|]. split; [done|]. by intros ? [= <-].
    - split; [done|]. eapply Forall_impl; [exact Hd2|].
      intros entry [? ?]. split; [done|]. split; [done|]. done. }
  assert (found = match limit with
                  | None => unlimited
                  | Some k => if (k =? 0)%Z then unlimited
                              else slice_last k unlimited
                  end) as Hfound.
  { subst found unlimited. unfold get_history. by destruct limit. }
  split.
  { rewrite Hfound. destruct limit as [k|]; [|done].
    destruct (k =? 0)%Z; [done|].
    etrans; [apply slice_last_sublist|done]. }
  split.
  { rewrite Hfound. destruct limit as [k|]; [|done].
    destruct (k =? 0)%Z; [done|].
    eapply ListFacts.Forall_sublist_of; [apply slice_last_sublist|done]. }
  split.
  { intros k -> Hk. rewrite Hfound.
    assert ((k =? 0)%Z = false) as -> by (apply Z.eqb_neq; lia).
    unfold slice_last.
    assert ((0 <? k)%Z = true) as -> by (apply Z.ltb_lt; lia).
    split; [done|]. rewrite last_n_length. lia. }
  split.
  { intros ->. by rewrite Hfound. }
  intros k -> Hk. rewrite Hfound.
  assert ((k =? 0)%Z = false) as -> by (apply Z.eqb_neq; lia).
  unfold slice_last.
  assert ((0 <? k)%Z = false) as -> by (apply Z.ltb_ge; lia).
  done.
Qed.

(** X12. A model that the constructor accepts has one of the seven
    preference types and a confidence between 0 and 1, and every update of
    it succeeds: after [K] updates the version is [K] and the history
    holds [min(K, L)] entries, all of them when [K] is at most the limit
    [L]. *)
Theorem constructed_model_updates (L : positive) (user type : string)
  (d : payload) (confidence : Q) (now : Z) (m : PreferenceModel)
  (calls : list call) :
  PreferenceModel_new user type d confidence now = Ok m ->
  let final := (update_all L m calls).1.1 in
  let before := (update_all L m calls).1.2 in
  type ∈ PREFERENCE_TYPES /\
  (0 <= confidence)%Q /\ (confidence <= 1)%Q /\
  Forall (fun r => r = Ok true) (update_all L m calls).2 /\
  version final = Z.of_nat (length calls) /\
  length (history final) = (length calls `min` Pos.to_nat L)%nat /\
  ((length calls <= Pos.to_nat L)%nat ->
   history final = zip_with snapshot before calls).
Proof.
  intros Hnew final before. unfold PreferenceModel_new in Hnew.
  unfold validate_preference_type in Hnew.
  destruct (bool_decide (type ∈ PREFERENCE_TYPES)) eqn:Htype; [|done].
  apply bool_decide_eq_true in Htype.
  destruct (Qle_bool MIN_CONFIDENCE_SCORE confidence
            && Qle_bool confidence MAX_CONFIDENCE_SCORE) eqn:Hc; [|done].
  apply andb_true_iff in Hc as [Hlo Hhi].
  apply Qle_bool_iff in Hlo, Hhi. injection Hnew as <-.
  destruct (PreferenceFacts.update_all_history L calls
              (mkModel user type d [] confidence now now 0))
    as (Hok & Hlen & Hv & Hh & _).
  { done. }
  { simpl. lia. }
  fold final before in Hlen, Hv, Hh. simpl in Hv, Hh.
  assert (length (zip_with snapshot before calls) = length calls) as Hz.
  { rewrite length_zip_with. lia. }
  split; [done|]. split; [done|]. split; [done|]. split; [done|].
  split; [by rewrite Hv|]. split.
  - by rewrite Hh, last_n_length, Hz.
  - intros Hfew. rewrite Hh. apply last_n_short. by rewrite Hz.
Qed.

Lemma constructed_model_updates_witness :
  let final :=
    (update_all Scenario.test_limit Scenario.chat_model
       Examples.three_updates).1.1 in
  version final = 3%Z /\ length (history final) = 3%nat.
Proof.
  destruct (constructed_model_updates Scenario.test_limit "u1" "chat" ∅
              (1 # 2) 0 Scenario.chat_model Examples.three_updates)
    as (_ & _ & _ & _ & Hv & Hlen & _).
  - reflexivity.
  - split; [exact Hv|exact Hlen].
Defined.

(** X13. The model's validator knows none of the preference types the
    user profile supports: for each of them the constructor raises
    [ValueError], whatever the other arguments. *)
Theorem profile_types_fail_validation (type : string) :
  Profile.supported type = true ->
  forall (user : string) (d : payload) (confidence : Q) (now : Z),
    PreferenceModel_new user type d confidence now = Raise ValueError.
Proof.
  intros Hsupported user d confidence now.
  apply bool_decide_eq_true in Hsupported.
  unfold Profile.SUPPORTED_PREFERENCE_TYPES in Hsupported.
  repeat (apply elem_of_cons in Hsupported as [->|Hsupported]; [done|]).
  by apply elem_of_nil in Hsupported.
Qed.

Lemma profile_types_fail_validation_witness :
  PreferenceModel_new "u1" "content" Scenario.dark_theme (8 # 10) 0
  = Raise ValueError.
Proof.
  apply profile_types_fail_validation. vm_compute. reflexivity.
Defined.

End PreferenceMoreFacts.

(** ** The user profile: consistency, stability, intervals, histograms *)

Module ProfileMoreFacts.
Import Profile.





(** X15. The stability score of a history that is not empty lies between
    0 and [1 - 1/n], [n] the number of entries: it never reaches 1.  It is
    [1 - 1/n] when the data of all entries serialise to the same text and
    0 when no two serialisations are equal, as for two entries whose data
    are equal and were written with their keys in a different order. *)
Theorem preference_stability_bounds (json_dumps : interaction -> string)
  (entries : list interaction) :
  entries <> [] ->
  let n := inject_Z (Z.of_nat (length entries)) in
  let s := _calculate_preference_stability json_dumps entries in
  (0 <= s)%Q /\ (s <= 1 - 1 / n)%Q /\ (s < 1)%Q /\
  (forall text, Forall (fun e => json_dumps e = text) entries ->
                (s == 1 - 1 / n)%Q) /\
  (NoDup (json_dumps <$> entries) -> (s == 0)%Q).
Proof.
  intros Hne n s.
  assert (0 < length entries)%nat as Hlen.
  { destruct entries; [done|simpl; lia]. }
  assert (0 < n)%Q as Hn.
  { subst n. rewrite <- (Zlt_Qlt 0). lia. }
  assert (s = (1 - inject_Z (Z.of_nat
                               (length (remove_dups (json_dumps <$> entries))))
                   / n)%Q) as Hs.
  { subst s n. unfold _calculate_preference_stability. by destruct entries. }
  pose proof (ListFacts.remove_dups_length (json_dumps <$> entries)) as Hup.
  rewrite length_fmap in Hup.
  assert (1 <= length (remove_dups (json_dumps <$> entries)))%nat as Hlow.
  { apply ListFacts.remove_dups_nonempty. by destruct entries. }
  set (u := length (remove_dups (json_dumps <$> entries))) in *.
  assert (inject_Z (Z.of_nat u) / n <= 1)%Q as Hshare.
  { apply Qle_shift_div_r; [done|]. rewrite Qmult_1_l. subst n.
    rewrite <- Zle_Qle. lia. }
  assert (1 / n <= inject_Z (Z.of_nat u) / n)%Q as Hone.
  { apply Qle_shift_div_l; [done|]. unfold Qdiv.
    rewrite <- Qmult_assoc, (Qmult_comm (/ n)), Qmult_inv_r, Qmult_1_r.
    - rewrite <- (Zle_Qle 1). lia.
    - intros Hz. rewrite Hz in Hn. by apply Qlt_irrefl in Hn. }
  assert (0 < 1 / n)%Q as Hinv.
  { apply Qlt_shift_div_l; [done|]. by rewrite Qmult_0_l. }
  rewrite Hs.
  assert ((0 <= 1 - inject_Z (Z.of_nat u) / n)%Q /\
          (1 - inject_Z (Z.of_nat u) / n <= 1 - 1 / n)%Q /\
          (1 - inject_Z (Z.of_nat u) / n < 1)%Q) as (H1 & H2 & H3).
  { revert Hshare Hone Hinv.
    generalize (inject_Z (Z.of_nat u) / n)%Q, (1 / n)%Q.
    intros b a Hb1 Hb2 Ha. split; [lra|]. split; lra. }
  split; [done|]. split; [done|]. split; [done|].
  split.
  - intros text Hall. subst u. rewrite (ListFacts.remove_dups_constant text).
    + reflexivity.
    + by destruct entries.
    + by apply Forall_fmap.
  - intros Hnodup. subst u. rewrite ListFacts.remove_dups_NoDup by done.
    rewrite length_fmap. fold n. unfold Qdiv. rewrite Qmult_inv_r; [ring|].
    intros Hz. rewrite Hz in Hn. by apply Qlt_irrefl in Hn.
Qed.

Lemma preference_stability_bounds_witness :
  (_calculate_preference_stability Examples.dumps_sorted
     Examples.mixed_history < 1)%Q.
Proof.
  destruct (preference_stability_bounds Examples.dumps_sorted
              Examples.mixed_history) as (_ & _ & Hlt & _).
  - discriminate.
  - exact Hlt.
Defined.

(** X16. For a history that is not empty and whose confidences lie
    between 0 and 1, the confidence interval lies around the mean of the
    confidences and within [0, 1]: 0 <= lower <= mean <= upper <= 1, the
    lower bound being 0 or the mean less 0.1 and the upper bound 1 or the
    mean plus 0.1. *)
Theorem confidence_interval_bounds (entries : list interaction) :
  entries <> [] ->
  Forall (fun e => (0 <= i_confidence e)%Q /\ (i_confidence e <= 1)%Q)
    entries ->
  let ci := _calculate_confidence_interval entries in
  mean ci = Qmean (i_confidence <$> entries) /\
  (0 <= lower ci)%Q /\ (lower ci <= mean ci)%Q /\
  (mean ci <= upper ci)%Q /\ (upper ci <= 1)%Q /\
  (lower ci = 0 \/ lower ci = mean ci - (1 # 10))%Q /\
  (upper ci = 1 \/ upper ci = mean ci + (1 # 10))%Q.
Proof.
  intros Hne Hall ci. subst ci.
  unfold _calculate_confidence_interval.
  destruct entries as [|e entries]; [done|].
  set (m := Qmean (i_confidence <$> e :: entries)).
  cbn [mean lower upper].
  assert (0 <= m)%Q as Hlo.
  { apply Qmean_nonneg. apply Forall_fmap.
    eapply Forall_impl; [exact Hall|]. by intros x [? ?]. }
  assert (m <= 1)%Q as Hhi.
  { apply SumFacts.Qmean_le_one; [done|]. apply Forall_fmap.
    eapply Forall_impl; [exact Hall|]. by intros x [? ?]. }
  destruct (py_max_spec 0 (m - (1 # 10))) as (Hmax0 & Hmax1 & Hmax).
  destruct (py_min_spec 1 (m + (1 # 10))) as (Hmin0 & Hmin1 & Hmin).
  generalize dependent (py_max 0 (m - (1 # 10))).
  generalize dependent (py_min 1 (m + (1 # 10))).
  generalize dependent m. intros m Hlo Hhi up Hup0 Hup1 Hup lo Hlo0 Hlo1 Hlow.
  split; [done|]. split; [done|].
  split; [destruct Hlow as [-> | ->]; lra|].
  split; [destruct Hup as [-> | ->]; lra|].
  split; [done|]. split; done.
Qed.

Lemma confidence_interval_bounds_witness :
  let ci := _calculate_confidence_interval Examples.mixed_history in
  (lower ci <= mean ci)%Q /\ (mean ci <= upper ci)%Q.
Proof.
  destruct (confidence_interval_bounds Examples.mixed_history)
    as (_ & _ & Hlow & Hup & _).
  - discriminate.
  - apply Forall_forall. intros e He.
    repeat (apply elem_of_cons in He as [->|He]; [split; discriminate|]).
    by apply elem_of_nil in He.
  - split; [exact Hlow|exact Hup].
Defined.

Section WithCalendar.

Variable hour weekday isoweek : Z -> Z.

(** One histogram of the analysis, by its key. *)
Local Abbreviation histogram key entries :=
  (foldl (fun acc e => tally (key (i_timestamp e)) acc) ∅ entries).

Lemma histogram_total (key : Z -> Z) (entries : list interaction) :
  total (histogram key entries) = Z.of_nat (length entries).
Proof.
  induction entries as [|e entries IH] using rev_ind; [done|].
  rewrite foldl_snoc, length_app. unfold tally at 1.
  rewrite ContextMoreFacts.total_increment, IH. simpl. lia.
Qed.

Lemma histogram_count (key : Z -> Z) (entries : list interaction) (k : Z) :
  default 0%Z (histogram key entries !! k)
  = Z.of_nat (length (List.filter
                        (fun e => bool_decide (key (i_timestamp e) = k))
                        entries)).
Proof.
  induction entries as [|e entries IH] using rev_ind; [done|].
  rewrite foldl_snoc, List.filter_app, length_app. unfold tally at 1.
  destruct (decide (key (i_timestamp e) = k)) as [<-|Hne].
  - rewrite lookup_insert_eq. simpl. rewrite bool_decide_eq_true_2 by done.
    rewrite IH. simpl. lia.
  - rewrite lookup_insert_ne by done. simpl.
    rewrite bool_decide_eq_false_2 by done. rewrite IH. simpl. lia.
Qed.

Lemma temporal_patterns_split (entries : list interaction) :
  _analyze_temporal_patterns hour weekday isoweek entries
  = <["hourly" := Histogram (histogram hour entries)]>
      (<["daily" := Histogram (histogram weekday entries)]>
         {["weekly" := Histogram (histogram isoweek entries)]}).
Proof.
  unfold _analyze_temporal_patterns.
  assert (foldl (fun acc e =>
                   let '(h, d, w) := acc in
                   (tally (hour (i_timestamp e)) h,
                    tally (weekday (i_timestamp e)) d,
                    tally (isoweek (i_timestamp e)) w))
            (∅, ∅, ∅) entries
          = (histogram hour entries, histogram weekday entries,
             histogram isoweek entries)) as ->; [|done].
  induction entries as [|e entries IH] using rev_ind; [done|].
  by rewrite !foldl_snoc, IH.
Qed.

(** X17. The temporal analysis files every entry once under its hour,
    once under its weekday and once under its ISO week: each of the three
    histograms sums to the number of entries, and each bucket holds the
    number of entries that fall into it. *)
Theorem temporal_patterns_count_entries (entries : list interaction) :
  exists hourly daily weekly,
    _analyze_temporal_patterns hour weekday isoweek entries
    = <["hourly" := Histogram hourly]>
        (<["daily" := Histogram daily]> {["weekly" := Histogram weekly]}) /\
    total hourly = Z.of_nat (length entries) /\
    total daily = Z.of_nat (length entries) /\
    total weekly = Z.of_nat (length entries) /\
    (forall k,
       default 0%Z (hourly !! k)
       = Z.of_nat (length (List.filter
                             (fun e => bool_decide (hour (i_timestamp e) = k))
                             entries))) /\
    (forall k,
       default 0%Z (daily !! k)
       = Z.of_nat (length (List.filter
                             (fun e => bool_decide (weekday (i_timestamp e) = k))
                             entries))) /\
    (forall k,
       default 0%Z (weekly !! k)
       = Z.of_nat (length (List.filter
                             (fun e => bool_decide (isoweek (i_timestamp e) = k))
                             entries))).
Proof.
  eexists _, _, _. split; [apply temporal_patterns_split|].
  split; [apply histogram_total|]. split; [apply histogram_total|].
  split; [apply histogram_total|].
  split; [apply histogram_count|]. split; apply histogram_count.
Qed.

End WithCalendar.

Lemma filter_options_spec (opts : list (string * string)) :
  forall acc : list interaction,
  let kept :=
    foldl (fun acc kv =>
             List.filter
               (fun e => bool_decide (i_context e !! kv.1 = Some kv.2)) acc)
      acc opts in
  kept `sublist_of` acc /\
  Forall (fun e => Forall (fun kv => i_context e !! kv.1 = Some kv.2) opts)
    kept.
Proof.
  induction opts as [|kv opts IH]; intros acc; simpl.
  - split; [done|]. apply Forall_forall. intros e _. constructor.
  - destruct (IH (List.filter
                    (fun e => bool_decide (i_context e !! kv.1 = Some kv.2))
                    acc)) as [Hsub Hall].
    split; [etrans; [exact Hsub|apply ListFacts.List_filter_sublist]|].
    apply Forall_forall. intros e He. constructor.
    + pose proof (elem_of_sublist _ _ _ He Hsub) as Hin.
      pose proof (ListFacts.List_filter_Forall
                    (fun e => bool_decide (i_context e !! kv.1 = Some kv.2))
                    acc) as Hf.
      rewrite Forall_forall in Hf. specialize (Hf e Hin).
      by apply bool_decide_eq_true in Hf.
    + rewrite Forall_forall in Hall. by apply Hall.
Qed.

(** X18. For a supported type [get_preference_history] answers with
    entries of the stored history, in their order, each within the dates
    asked for and matching every filter option on its context; a positive
    limit bounds their number, [total_entries] counts what is returned
    (not what is stored), and the metrics are the stored ones. *)
Theorem get_preference_history_view (now : Z) (p : UserProfile) (t : string)
  (limit : option nat) (start_date end_date : option Z)
  (filter_options : list (string * string))
  (h : list interaction) (pm : pattern_metric) :
  supported t = true ->
  interaction_history p !! t = Some h ->
  pattern_metrics p !! t = Some pm ->
  exists view,
    get_preference_history now p t limit start_date end_date filter_options
    = Ok view /\
    view_history view `sublist_of` h /\
    Forall (fun e =>
              (forall s, start_date = Some s -> (s <= i_timestamp e)%Z) /\
              (forall d, end_date = Some d -> (i_timestamp e <= d)%Z) /\
              Forall (fun kv => i_context e !! kv.1 = Some kv.2)
                filter_options)
      (view_history view) /\
    view_total_entries view = length (view_history view) /\
    (forall n, limit = Some n -> (0 < n)%nat ->
               (length (view_history view) <= n)%nat) /\
    view_metrics view = pm.
Proof.
  intros Hsupported Hh Hpm. unfold get_preference_history.
  rewrite Hsupported, Hh, Hpm. cbn [negb].
  eexists. split; [reflexivity|].
  cbn [view_history view_total_entries view_metrics].
  set (by_date := fun e : interaction =>
         match start_date with
         | Some s => (s <=? i_timestamp e)%Z | None => true end
         && match end_date with
            | Some d => (i_timestamp e <=? d)%Z | None => true end).
  set (dated := List.filter by_date h).
  destruct (filter_options_spec filter_options dated) as [Hsub Hopts].
  set (filtered := foldl _ dated filter_options) in *.
  set (limited := match limit with
                  | Some (S n) => last_n (S n) filtered
                  | _ => filtered
                  end).
  assert (limited `sublist_of` filtered) as Hlimited.
  { subst limited. destruct limit as [[|n]|]; [done| |done].
    apply ListFacts.last_n_sublist. }
  split.
  { etrans; [exact Hlimited|]. etrans; [exact Hsub|].
    apply ListFacts.List_filter_sublist. }
  split.
  { apply Forall_forall. intros e He.
    pose proof (elem_of_sublist _ _ _ He Hlimited) as Hin.
    pose proof (elem_of_sublist _ _ _ Hin Hsub) as Hdated.
    pose proof (ListFacts.List_filter_Forall by_date h) as Hf.
    rewrite Forall_forall in Hf. specialize (Hf e Hdated).
    unfold by_date in Hf. apply andb_true_iff in Hf as [H1 H2].
    split; [intros s ->; by apply Z.leb_le|].
    split; [intros d ->; by apply Z.leb_le|].
    rewrite Forall_forall in Hopts. by apply Hopts. }
  split; [done|]. split; [|done].
  intros n -> Hn. subst limited. destruct n as [|n]; [lia|].
  rewrite last_n_length. lia.
Qed.

Lemma get_preference_history_view_witness :
  exists view,
    get_preference_history 200000 Examples.seasoned_profile "content"
      (Some 2%nat) (Some 3600%Z) None [] = Ok view /\
    (length (view_history view) <= 2)%nat /\
    view_total_entries view = length (view_history view).
Proof.
  destruct (get_preference_history_view 200000 Examples.seasoned_profile
              "content" (Some 2%nat) (Some 3600%Z) None []
              Examples.mixed_history (mkMetric 0 0 0))
    as (view & Hcall & _ & _ & Htotal & Hlimit & _).
  - vm_compute. reflexivity.
  - vm_compute. reflexivity.
  - vm_compute. reflexivity.
  - exists view. split; [exact Hcall|]. split; [|exact Htotal].
    apply (Hlimit 2%nat); [reflexivity|lia].
Defined.

End ProfileMoreFacts.

(** ** The learning service: its cache and the learning run *)

Module LearningMoreFacts.
Import Learning LearningMore.

(** The profile the service builds knows the supported types, with empty
    tables and an empty history, and no other type. *)
Lemma new_profile_supported (user t : string) (now : Z) :
  Profile.supported t = true ->
  Profile.learning_patterns (Profile.UserProfile_new user now) !! t
  = Some (Profile.mkPattern 0 ∅ 0 None None) /\
  Profile.interaction_history (Profile.UserProfile_new user now) !! t
  = Some [] /\
  Profile.pattern_metrics (Profile.UserProfile_new user now) !! t
  = Some (Profile.mkMetric now 0 0).
Proof.
  intros Hsupported. apply bool_decide_eq_true in Hsupported.
  unfold Profile.SUPPORTED_PREFERENCE_TYPES in Hsupported.
  repeat (apply elem_of_cons in Hsupported as [->|Hsupported]; [done|]).
  by apply elem_of_nil in Hsupported.
Qed.

Lemma init_type_keeps_patterns (now : Z) (p : Profile.UserProfile)
  (t0 t : string) :
  t <> t0 ->
  Profile.learning_patterns (Profile.init_type now p t0) !! t
  = Profile.learning_patterns p !! t.
Proof.
  intros Hne. unfold Profile.init_type.
  destruct (Profile.preferences p !! t0); [done|].
  cbn [Profile.learning_patterns]. by rewrite lookup_insert_ne.
Qed.

Lemma new_profile_unsupported (user t : string) (now : Z) :
  Profile.supported t = false ->
  Profile.learning_patterns (Profile.UserProfile_new user now) !! t = None.
Proof.
  intros Hunsupported. apply bool_decide_eq_false in Hunsupported.
  unfold Profile.UserProfile_new, Profile.UserProfile_init.
  revert Hunsupported.
  generalize Profile.SUPPORTED_PREFERENCE_TYPES as types.
  assert (forall types (p : Profile.UserProfile),
             t ∉ types ->
             Profile.learning_patterns (foldl (Profile.init_type now) p types)
             !! t = Profile.learning_patterns p !! t) as Hfold.
  { induction types as [|t0 types IH]; intros p Hout; [done|].
    apply not_elem_of_cons in Hout as [Hne Hout]. simpl.
    rewrite IH by done. by apply init_type_keeps_patterns. }
  intros types Hout. by rewrite Hfold.
Qed.

(** X19. A call that is not answered from the cache consults a profile
    made on the spot, so its predictions are empty and its confidence is
    0.  For a type the profile supports this response is cached for an
    hour, and until it expires every further call for the same user and
    type raises [KeyError]: the stored response has no ['version'] entry.
    For any other type nothing is stored. *)
Theorem get_preference_predictions_own_cache (now : Z) (s : Service)
  (user t : string) :
  cache_miss now s user t ->
  let first := get_preference_predictions now s user t in
  let empty :=
    PredictionResponse (mkResponse user t [] 0 (_model_version s) now) in
  first.2 = Ok empty /\
  (Profile.supported t = true ->
   cache first.1
   = Cache.setex now (cache_key user t) PREDICTION_CACHE_TTL empty (cache s) /\
   forall later, (later < now + PREDICTION_CACHE_TTL)%Z ->
     get_preference_predictions later first.1 user t
     = (first.1, Raise KeyError)) /\
  (Profile.supported t = false -> first.1 = s).
Proof.
  intros Hmiss first empty. unfold cache_miss in Hmiss.
  assert (forall x : Service * result cached,
             match Cache.get now (cache_key user t) (cache s) with
             | Some (LearnedPatterns ps c ts v) =>
               if decide (v = _model_version s)
               then (s, Ok (LearnedPatterns ps c ts v)) else x
             | Some (PredictionResponse _) => (s, Raise KeyError)
             | None => x
             end = x) as Hrecompute.
  { intros x.
    destruct (Cache.get now (cache_key user t) (cache s))
      as [[ps c ts v|r]|]; [by case_decide|done|done]. }
  destruct (Profile.supported t) eqn:Hsupported.
  - assert (first
            = (mkService
                 (Cache.setex now (cache_key user t) PREDICTION_CACHE_TTL
                    empty (cache s)) (_model_version s), Ok empty)) as ->.
    { subst first empty. unfold get_preference_predictions.
      rewrite Hrecompute.
      destruct (new_profile_supported user t now Hsupported) as (-> & _ & _).
      unfold recompute_predictions.
      cbn [Profile.temporal_patterns Profile.preference_stability].
      by rewrite map_to_list_empty. }
    cbn [fst snd cache]. split; [done|]. split; [|done].
    intros _. split; [done|]. intros later Hlater.
    unfold get_preference_predictions. cbn [cache].
    unfold Cache.get, Cache.setex. rewrite lookup_insert_eq.
    apply Z.ltb_lt in Hlater. by rewrite Hlater.
  - assert (first = (s, Ok empty)) as ->.
    { subst first empty. unfold get_preference_predictions.
      rewrite Hrecompute.
      by rewrite (new_profile_unsupported user t now Hsupported). }
    done.
Qed.

Lemma get_preference_predictions_own_cache_witness :
  let first :=
    get_preference_predictions 0 Scenario.idle_learning "u1" "content" in
  get_preference_predictions 3599 first.1 "u1" "content"
  = (first.1, Raise KeyError).
Proof.
  destruct (get_preference_predictions_own_cache 0 Scenario.idle_learning
              "u1" "content") as (_ & Hsupported & _).
  - vm_compute. exact I.
  - destruct Hsupported as [_ Hlater]; [reflexivity|].
    apply Hlater. reflexivity.
Defined.

Section WithCalendar.

Variable hour weekday isoweek : Z -> Z.

(** X20. [learn_preferences] never returns.  It reads the history of a
    profile made on the spot, which is empty, so no batch is analysed and
    the average over no result divides by zero; with a missing user or
    type, a type that is not supported or a batch size of 0 it raises
    [ValueError] before.  Nothing is written to the cache. *)
Theorem learn_preferences_never_returns (now : Z) (s : Service)
  (batch_size : nat) (user t : string) :
  learn_preferences hour weekday isoweek now s batch_size user t
  = (s, Failed
          (if bool_decide (user = "") || bool_decide (t = "")
              || negb (Profile.supported t) || (batch_size =? 0)%nat
           then Exception ValueError
           else ZeroDivisionError)).
Proof.
  unfold learn_preferences.
  destruct (bool_decide (user = "") || bool_decide (t = "")); [done|].
  cbn [orb]. unfold Profile.get_preference_history.
  destruct (Profile.supported t) eqn:Hsupported; [|done]. cbn [negb orb].
  destruct (new_profile_supported user t now Hsupported) as (_ & -> & ->).
  cbn [List.filter foldl Profile.view_history length].
  by destruct batch_size.
Qed.

End WithCalendar.

End LearningMoreFacts.

(** ** Scoring of recommendations *)

Module RecommendationMoreFacts.
Import Recommendation.





(** The similarity of two items is a share. *)
Lemma item_similarity_unit (i hist_item : item) (q : Q) :
  item_similarity i hist_item = Some q -> (0 <= q)%Q /\ (q <= 1)%Q.
Proof.
  unfold item_similarity.
  set (common := List.filter _ (fst <$> map_to_list i)).
  destruct common as [|k common'] eqn:Hcommon; [done|].
  intros [= <-]. apply SumFacts.share_unit.
  - exact (ListFacts.List_filter_length
             (fun k => match i !! k, hist_item !! k with
                       | Some v, Some w => value_eqb v w
                       | _, _ => false
                       end) (k :: common')).
  - simpl. lia.
Qed.


Lemma diversity_score_unit (i : item) (history : list item) :
  (0 <= _calculate_diversity_score i history)%Q /\
  (_calculate_diversity_score i history <= 1)%Q.
Proof.
  unfold _calculate_diversity_score.
  destruct history as [|h history]; [done|].
  set (scores := omap (item_similarity i) (last_n 10 (h :: history))).
  assert (Forall (fun q => (0 <= q)%Q /\ (q <= 1)%Q) scores) as Hall.
  { apply Forall_forall. intros q Hq.
    apply list_elem_of_omap in Hq as (x & _ & Hx).
    by eapply item_similarity_unit. }
  destruct scores as [|q rest] eqn:Hscores; [done|].
  assert (0 <= Qmean (q :: rest))%Q as Hlo.
  { apply Qmean_nonneg. eapply Forall_impl; [exact Hall|]. by intros x [? ?]. }
  assert (Qmean (q :: rest) <= 1)%Q as Hhi.
  { apply SumFacts.Qmean_le_one; [done|].
    eapply Forall_impl; [exact Hall|]. by intros x [? ?]. }
  revert Hlo Hhi. generalize (Qmean (q :: rest)). intros m Hlo Hhi.
  split; lra.
Qed.


Section WithLibraries.

Variable fromisoformat : string -> option datetime.
Variable np_cosine : list atom -> list atom -> result Q.

Local Abbreviation relevance := (_calculate_context_relevance fromisoformat).
Local Abbreviation score :=
  (calculate_recommendation_score fromisoformat np_cosine).

Lemma time_score_le_one (d : Q) : (1 / (1 + Qabs d / 86400) <= 1)%Q.
Proof.
  pose proof (Qabs_nonneg d) as Habs.
  assert (0 <= Qabs d / 86400)%Q as Hz.
  { apply Qle_shift_div_l; [reflexivity|]. by rewrite Qmult_0_l. }
  revert Hz. generalize (Qabs d / 86400)%Q. intros z Hz.
  apply Qle_shift_div_r; lra.
Qed.

Lemma context_relevance_le_one (context : payload) (i : item)
  (g : group_dynamics) (cs : Q) :
  relevance context i g = Ok cs -> (cs <= 1)%Q.
Proof.
  unfold _calculate_context_relevance.
  set (times := match context !! "timestamp" with Some _ => _ | None => _ end).
  assert (forall ts, times = Ok ts -> Forall (fun q => (q <= 1)%Q) ts)
    as Htimes.
  { subst times. intros ts.
    destruct (context !! "timestamp") as [stamp|];
      [|intros; simplify_eq; constructor].
    destruct (i !! "valid_period") as [[a|l|d]|];
      try done; [|intros; simplify_eq; constructor].
    destruct (d !! "start") as [[q|start|b]|]; try done.
    destruct (fromisoformat stamp) as [x|]; [|done].
    destruct (fromisoformat start) as [y|]; [|done].
    destruct (datetime_sub x y) as [difference|]; [|done].
    intros [= <-]. constructor; [|constructor]. apply time_score_le_one. }
  destruct times as [ts|e]; [|done]. specialize (Htimes ts eq_refl).
  set (groups := match active_users g with Some _ => _ | None => _ end).
  assert (forall gs, groups = Ok gs -> Forall (fun q => (q <= 1)%Q) gs)
    as Hgroups.
  { subst groups. intros gs.
    destruct (active_users g) as [[|u us]|];
      try (intros; simplify_eq; constructor).
    destruct (as_set _) as [targets|e]; [|done].
    intros; simplify_eq. constructor; [|constructor].
    apply SumFacts.share_unit; [|simpl; lia].
    apply (submseteq_length _ (u :: us)), NoDup_submseteq.
    - eapply sublist_NoDup; [apply NoDup_remove_dups|].
      apply ListFacts.List_filter_sublist.
    - intros x Hx.
      pose proof (ListFacts.List_filter_Forall
                    (fun x => bool_decide (x ∈ u :: us))
                    (remove_dups targets)) as Hf.
      rewrite Forall_forall in Hf. specialize (Hf x Hx).
      by apply bool_decide_eq_true in Hf. }
  destruct groups as [gs|e]; [|done]. specialize (Hgroups gs eq_refl).
  destruct (ts ++ gs) as [|q rest] eqn:Hall.
  - intros; simplify_eq. done.
  - intros; simplify_eq. apply SumFacts.Qmean_le_one; [done|].
    rewrite <- Hall. by apply Forall_app.
Qed.

(** X23. The context relevance, when it is computed, lies between 0 and
    1; with neither a timestamp in the context nor active users in the
    group it is the neutral 0.5, whatever the item. *)
Theorem context_relevance_range (context : payload) (i : item)
  (g : group_dynamics) :
  (forall cs, relevance context i g = Ok cs -> (0 <= cs)%Q /\ (cs <= 1)%Q) /\
  (context !! "timestamp" = None ->
   active_users g = None \/ active_users g = Some [] ->
   relevance context i g = Ok (1 # 2)).
Proof.
  split.
  - intros cs Hcs. split.
    + by eapply RecommendationFacts.context_relevance_nonneg.
    + by eapply context_relevance_le_one.
  - intros Hts Hg. unfold _calculate_context_relevance. rewrite Hts.
    by destruct Hg as [-> | ->].
Qed.

(** X21. The recommendation score always lies between 0 and 1, whatever
    the preferences, the context, the item, the group and the behaviour
    of the cosine. *)
Theorem recommendation_score_range (u : user_preferences)
  (context : payload) (i : item) (g : group_dynamics) :
  (0 <= score u context i g)%Q /\ (score u context i g <= 1)%Q.
Proof.
  unfold calculate_recommendation_score.
  destruct (relevance context i g) as [cs|e]; [|done].
  destruct (_ <$> map_to_list i) as [|q rest]; [done|].
  set (final := (_ + _ + _)%Q).
  destruct (py_max_spec 0 (py_min 1 final)) as (Hlo & _ & [E|E]).
  - split; [done|]. rewrite E. done.
  - split; [done|]. rewrite E.
    by destruct (py_min_spec 1 final) as (? & _ & _).
Qed.

(** X25. A user without any stored preference is never recommended an
    item that has a feature: the preference part of the score is 0, so
    the score is at most 0.3 + 0.1 = 0.4 and stays below the 0.7 a
    recommendation needs. *)
Theorem no_preferences_below_threshold (history : option (list item))
  (context : payload) (i : item) (g : group_dynamics) :
  i <> ∅ ->
  (score (mkPreferences ∅ history) context i g <= 4 # 10)%Q /\
  Qle_bool MIN_CONFIDENCE_SCORE (score (mkPreferences ∅ history) context i g)
  = false.
Proof.
  intros Hitem.
  assert (score (mkPreferences ∅ history) context i g <= 4 # 10)%Q as Hle.
  { unfold calculate_recommendation_score.
    destruct (relevance context i g) as [cs|e] eqn:Hcs; [|done].
    apply context_relevance_le_one in Hcs.
    set (matches := _ <$> map_to_list i).
    assert (Forall (fun q => (q == 0)%Q) matches) as Hzero.
    { subst matches. apply Forall_fmap, Forall_true. intros [k v]. simpl.
      unfold feature_match. case_decide; [reflexivity|]. simpl.
      rewrite lookup_empty. reflexivity. }
    destruct matches as [|q rest] eqn:Hm.
    { subst matches. apply fmap_nil_inv in Hm.
      by apply map_to_list_empty_iff in Hm. }
    apply Qmean_zero in Hzero.
    cbn [features recommendation_history].
    destruct (diversity_score_unit i (default [] history)) as [_ Hdiv].
    set (final := (_ + _ + _)%Q).
    assert (final <= 4 # 10)%Q as Hfinal.
    { subst final. unfold weight_preference, weight_context, weight_diversity.
      rewrite Hzero. revert Hdiv.
      generalize (_calculate_diversity_score i (default [] history)).
      intros dv Hdv. lra. }
    destruct (py_max_spec 0 (py_min 1 final)) as (_ & _ & [E|E]); rewrite E.
    - discriminate.
    - destruct (py_min_spec 1 final) as (_ & Hmin & _).
      by eapply Qle_trans. }
  split; [done|].
  apply not_true_is_false. intros Hge. apply Qle_bool_iff in Hge.
  unfold MIN_CONFIDENCE_SCORE in Hge.
  revert Hle Hge. generalize (score (mkPreferences ∅ history) context i g).
  intros sc Hle Hge. lra.
Qed.

End WithLibraries.

Lemma no_preferences_below_threshold_witness :
  Qle_bool MIN_CONFIDENCE_SCORE
    (calculate_recommendation_score Scenario.iso_seconds
       Scenario.refuse_cosine Scenario.no_preferences Scenario.test_context
       Scenario.test_item Scenario.no_group) = false.
Proof.
  apply (no_preferences_below_threshold Scenario.iso_seconds
           Scenario.refuse_cosine None Scenario.test_context
           Scenario.test_item Scenario.no_group).
  intros Hempty.
  apply (f_equal (fun m : item => m !! "content")) in Hempty.
  vm_compute in Hempty. discriminate Hempty.
Defined.

(** X24. [_update_cache_stats] counts hits only.  Told ['hit'], from
    counters that are not negative and sum to at most 10000 it leaves
    counters that are not negative and sum to at most 10000: the hits grow
    by one or, when the sum would pass 10000, both counters restart at 0.
    Told ['miss'] it raises [KeyError] and no counter moves: the key it
    forms, ['misss'], is not one of the statistics.  Nothing else of the
    service changes in either case. *)
Theorem update_cache_stats_window (s : Service) :
  (0 <= hits s)%Z -> (0 <= misses s)%Z -> (hits s + misses s <= 10000)%Z ->
  let hit := _update_cache_stats "hit" s in
  hit.2 = Ok tt /\
  (0 <= hits hit.1)%Z /\ (0 <= misses hit.1)%Z /\
  (hits hit.1 + misses hit.1 <= 10000)%Z /\
  (hits hit.1 = hits s + 1 /\ misses hit.1 = misses s \/
   hits s + misses s = 10000 /\ hits hit.1 = 0 /\ misses hit.1 = 0)%Z /\
  _cache hit.1 = _cache s /\ error_count hit.1 = error_count s /\
  _learning_service hit.1 = _learning_service s /\
  generated hit.1 = generated s /\
  _update_cache_stats "miss" s = (s, Raise KeyError).
Proof.
  intros Hh Hm Hsum hit. subst hit. unfold _update_cache_stats.
  rewrite (decide_True (P := "hit" +:+ "s" = "hits")) by reflexivity.
  rewrite (decide_False (P := "miss" +:+ "s" = "hits")) by discriminate.
  rewrite (decide_False (P := "miss" +:+ "s" = "misses")) by discriminate.
  rewrite (decide_False (P := "miss" +:+ "s" = "last_reset")) by discriminate.
  destruct (0 <? hits s + 1 + misses s)%Z eqn:H0;
    destruct (10000 <? hits s + 1 + misses s)%Z eqn:H1;
    cbn [andb fst snd hits misses _cache error_count _learning_service
         generated];
    rewrite ?Z.ltb_lt, ?Z.ltb_ge in *; repeat split; lia.
Qed.

Lemma update_cache_stats_window_witness :
  hits (_update_cache_stats "hit" Scenario.idle_service).1 = 1%Z /\
  _update_cache_stats "miss" Scenario.idle_service
  = (Scenario.idle_service, Raise KeyError).
Proof.
  destruct (update_cache_stats_window Scenario.idle_service)
    as (_ & _ & _ & _ & [[Hstep _]|[Hfull _]] & _ & _ & _ & _ & Hmiss).
  - reflexivity.
  - reflexivity.
  - vm_compute. discriminate.
  - split; [exact Hstep|exact Hmiss].
  - vm_compute in Hfull. discriminate Hfull.
Defined.

End RecommendationMoreFacts.
